(** * Room coordination and broadcast relay

    A shallow embedding of the two Socket.IO relays of the repository:

    - [Relay]: the full relay, [server/socket-server.ts] (the last document of
      [src/frontend/components/Loading.tsx]);
    - [Basic]: the reduced relay, [src/server/server.js], with the rest of
      its handlers and its event loop in [BasicLoop];
    - [Client]: the socket handlers of the meeting client (the second
      document of [src/frontend/components/Loading.tsx]) on the chat, the
      whiteboard and the room view.

    Conventions of the embedding.

    - [Date.now()] is a natural number of milliseconds ([N]); every handler
      invocation is given one clock reading [now].  The number [0] is falsy in
      JavaScript, which the guards [!socket.data.lastChatTime] and
      [room.lastActivity && ...] observe.
    - [Math.random().toString(36).substr(2, 9)] is an input [rnd] of the
      events that draw it: a string of base-36 digits.
    - A JavaScript [Map] keeps its keys in insertion order and [set] on an
      existing key keeps the key's position: [members] is an association
      list.  A JavaScript [Set] whose order is never observed is a [gset].
    - [null]/[undefined] are [None]; the empty string is falsy.
    - Handlers return the new server state together with the list of
      emissions, each addressed as Socket.IO addresses it: [socket.emit]
      (sender only), [io.to(ch)] (every socket in channel [ch]) and
      [socket.to(ch)] (every socket in [ch] except the sender).
    - A handler without [try] can throw: its result is an [Outcome].  An
      uncaught exception ends the Node process, so the event loop stops at
      the input whose handler throws, and nothing is left of the state. *)

From Stdlib Require Import ZArith NArith String Ascii List Lia.
From Stdlib Require Import DecimalString DecimalN DecimalFacts.
From stdpp Require Import gmap strings list fin_maps.

Open Scope string_scope.
Open Scope list_scope.

(** ** JavaScript values used by the relay *)

(** Truthiness of a string: only the empty string is falsy. *)
Definition truthy (s : string) : bool := negb (bool_decide (s = "")).

(** Truthiness of a string-or-null. *)
Definition truthy_opt (o : option string) : bool :=
  match o with
  | Some s => truthy s
  | None => false
  end.

(** Truthiness of a number-or-undefined: [undefined] and [0] are falsy. *)
Definition truthy_num (o : option N) : bool :=
  match o with
  | Some n => negb (n =? 0)%N
  | None => false
  end.

(** [a === b] where [a] is a string-or-null and [b] a string. *)
Definition strict_eq (a : option string) (b : string) : bool :=
  bool_decide (a = Some b).

(** [stored !== given] where [stored] is a string-or-[null] and [given] a
    string-or-[undefined]: [null] and [undefined] are different values. *)
Definition strict_neq_password (stored given : option string) : bool :=
  match stored, given with
  | Some a, Some b => negb (bool_decide (a = b))
  | _, _ => true
  end.

(** Property values of the payload objects the relay touches. *)
Inductive JsVal :=
| VStr (s : string)
| VBool (b : bool).

(** A payload object: its own properties in insertion order. *)
Definition JsObj := list (string * JsVal).

(** A payload typed [any]: an object, or anything else ([null], [undefined],
    a primitive), on which a property assignment throws a [TypeError] in a
    module (strict) context. *)
Inductive JsAny :=
| JObj (o : JsObj)
| JNotObj.

(** ** Insertion-ordered maps (JavaScript [Map], object properties) *)

Section OrderedMap.
Context {V : Type}.

Fixpoint map_get (k : string) (m : list (string * V)) : option V :=
  match m with
  | [] => None
  | (k', v) :: m' => if decide (k = k') then Some v else map_get k m'
  end.

(** [m.set(k, v)]: replaces in place, or appends a new entry. *)
Fixpoint map_set (k : string) (v : V) (m : list (string * V)) : list (string * V) :=
  match m with
  | [] => [(k, v)]
  | (k', v') :: m' =>
      if decide (k = k') then (k, v) :: m' else (k', v') :: map_set k v m'
  end.

(** [m.delete(k)]. *)
Fixpoint map_delete (k : string) (m : list (string * V)) : list (string * V) :=
  match m with
  | [] => []
  | (k', v') :: m' =>
      if decide (k = k') then map_delete k m' else (k', v') :: map_delete k m'
  end.

(** In-place mutation of the object stored under [k], if any
    ([const x = m.get(k); if (x) { x.f = ... }]). *)
Fixpoint map_update (f : V -> V) (k : string) (m : list (string * V)) : list (string * V) :=
  match m with
  | [] => []
  | (k', v') :: m' =>
      if decide (k = k') then (k', f v') :: m' else (k', v') :: map_update f k m'
  end.

Definition map_keys (m : list (string * V)) : list string := m.*1.

(** [Array.from(m.values())]. *)
Definition map_values (m : list (string * V)) : list V := m.*2.
End OrderedMap.

(** [obj.id] of a payload object. *)
Definition obj_id (o : JsObj) : option JsVal := map_get "id" o.

(** ** Server-assigned identifiers *)

(** Decimal rendering of a clock reading inside a template literal. *)
Definition show_num (n : N) : string := NilZero.string_of_uint (N.to_uint n).

(** [`${userId}-${Date.now()}-${Math.random().toString(36).substr(2, 9)}`] *)
Definition fresh_id (userId : string) (now : N) (rnd : string) : string :=
  userId +:+ "-" +:+ show_num now +:+ "-" +:+ rnd.

(** No character of the string is a dash. *)
Fixpoint dashfree (s : string) : bool :=
  match s with
  | EmptyString => true
  | String c s' => negb (bool_decide (c = "-"%char)) && dashfree s'
  end.

(** The characters [Number.prototype.toString(36)] produces after the dot. *)
Definition is_base36 (c : ascii) : bool :=
  let n := nat_of_ascii c in
  (Nat.leb 48 n && Nat.leb n 57) || (Nat.leb 97 n && Nat.leb n 122).

Fixpoint base36 (s : string) : bool :=
  match s with
  | EmptyString => true
  | String c s' => is_base36 c && base36 s'
  end.

(** ** The chat rate limit (both relays) *)

(** The rate-limit test of [chat:send]:
    [!socket.data.lastChatTime || Date.now() - socket.data.lastChatTime > 1000]. *)
Definition chat_allowed (last : option N) (now : N) : bool :=
  negb (truthy_num last)
  || bool_decide (Z.of_N now - Z.of_N (default 0%N last) > 1000)%Z.

(** ** The full relay: [server/socket-server.ts] *)

Module Relay.

(** The value stored in [room.members]. *)
Record Member := mkMember {
  id : string;
  name : string;
  isModerator : bool;
  canDraw : bool;
  handRaised : bool
}.

(** The value stored in [rooms]; the room's set of raised hands is the field
    [handRaised] of the source, here [raisedHands] to keep it apart from the
    member's flag of the same name. *)
Record Room := mkRoom {
  locked : bool;
  password : option string;
  hostId : option string;
  members : list (string * Member);
  whiteboardDrawings : list JsObj;
  whiteboardBackground : option string;
  allowedUsers : gset string;
  lastActivity : N;
  raisedHands : gset string
}.

(** [socket.data] once [join-room] has set it. *)
Record SocketData := mkData {
  userId : string;
  roomId : string;
  userName : string;
  lastChatTime : option N
}.

(** A connected socket: its [data] and the channels it joined with
    [socket.join].  Every socket is also in the channel named by its own id. *)
Record Socket := mkSocket {
  data : option SocketData;
  joined : gset string
}.

Record Server := mkServer {
  rooms : gmap string Room;
  sockets : gmap string Socket
}.

Definition init : Server := mkServer ∅ ∅.

Definition ROOM_TIMEOUT : Z := 30 * 60 * 1000.

(** *** Outbound events *)

Inductive Audience :=
| ToSender (sid : string)
| ToChannel (ch : string)
| ToChannelExcept (ch : string) (sid : string).

Inductive OutEvent :=
| EvError (message : string)
| EvPasswordRequired
| EvRoomState (locked : bool) (hostId : option string) (members : list Member)
              (canDraw : option bool)
| EvWhiteboardState (drawings : list JsObj) (background : option string)
| EvRoomMembers (members : list Member)
| EvRoomLocked
| EvRoomUnlocked
| EvChatReceive (message : JsObj)
| EvWhiteboardEnable
| EvWhiteboardDisable
| EvWhiteboardDrawing (drawing : JsObj)
| EvWhiteboardBackground (background : string)
| EvWhiteboardClear
| EvUserPermission (userId : string) (canDraw : bool)
| EvHostChanged (newHostId : string)
| EvHandRaised (userId userName : string)
| EvHandLowered (userId : string)
| EvHandLoweredAll
| EvForceMute
| EvForceLeave
| EvReaction (reaction : JsObj).

Record Emission := mkEmission {
  audience : Audience;
  event : OutEvent
}.

(** Socket [sid] (with record [k]) listens on channel [ch]. *)
Definition in_channel (ch : string) (sid : string) (k : Socket) : bool :=
  bool_decide (ch = sid) || bool_decide (ch ∈ joined k).

(** The sockets an emission is delivered to. *)
Definition recipients (socks : gmap string Socket) (a : Audience) : gset string :=
  match a with
  | ToSender sid => if decide (is_Some (socks !! sid)) then {[sid]} else ∅
  | ToChannel ch =>
      dom (filter (λ p, in_channel ch p.1 p.2 = true) socks)
  | ToChannelExcept ch sid =>
      dom (filter (λ p, in_channel ch p.1 p.2 = true) socks) ∖ {[sid]}
  end.

(** *** Field updates *)

Definition set_locked (b : bool) (pw : option string) (r : Room) : Room :=
  mkRoom b pw (hostId r) (members r) (whiteboardDrawings r)
         (whiteboardBackground r) (allowedUsers r) (lastActivity r) (raisedHands r).

Definition set_hostId (h : option string) (r : Room) : Room :=
  mkRoom (locked r) (password r) h (members r) (whiteboardDrawings r)
         (whiteboardBackground r) (allowedUsers r) (lastActivity r) (raisedHands r).

Definition set_members (m : list (string * Member)) (r : Room) : Room :=
  mkRoom (locked r) (password r) (hostId r) m (whiteboardDrawings r)
         (whiteboardBackground r) (allowedUsers r) (lastActivity r) (raisedHands r).

Definition set_whiteboard (ds : list JsObj) (bg : option string) (r : Room) : Room :=
  mkRoom (locked r) (password r) (hostId r) (members r) ds bg
         (allowedUsers r) (lastActivity r) (raisedHands r).

Definition set_allowedUsers (a : gset string) (r : Room) : Room :=
  mkRoom (locked r) (password r) (hostId r) (members r) (whiteboardDrawings r)
         (whiteboardBackground r) a (lastActivity r) (raisedHands r).

Definition set_lastActivity (t : N) (r : Room) : Room :=
  mkRoom (locked r) (password r) (hostId r) (members r) (whiteboardDrawings r)
         (whiteboardBackground r) (allowedUsers r) t (raisedHands r).

Definition set_raisedHands (h : gset string) (r : Room) : Room :=
  mkRoom (locked r) (password r) (hostId r) (members r) (whiteboardDrawings r)
         (whiteboardBackground r) (allowedUsers r) (lastActivity r) h.

Definition set_isModerator (b : bool) (m : Member) : Member :=
  mkMember (id m) (name m) b (canDraw m) (handRaised m).

Definition set_canDraw (b : bool) (m : Member) : Member :=
  mkMember (id m) (name m) (isModerator m) b (handRaised m).

Definition set_handRaised (b : bool) (m : Member) : Member :=
  mkMember (id m) (name m) (isModerator m) (canDraw m) b.

Definition set_lastChatTime (t : option N) (d : SocketData) : SocketData :=
  mkData (userId d) (roomId d) (userName d) t.

(** *** The room registry *)

(** The room a first [getOrCreateRoom] stores. *)
Definition new_room (now : N) : Room :=
  mkRoom false None None [] [] None ∅ now ∅.

(** [getOrCreateRoom(roomId)]: the room found or created, with its
    [lastActivity] stamped; the caller holds a reference into the registry,
    so the registry after the call is [<[roomId := room]>]. *)
Definition getOrCreateRoom (rid : string) (now : N) (rs : gmap string Room) : Room :=
  set_lastActivity now (default (new_room now) (rs !! rid)).

Definition put_room (rid : string) (r : Room) (s : Server) : Server :=
  mkServer (<[rid := r]> (rooms s)) (sockets s).

Definition put_socket (sid : string) (k : Socket) (s : Server) : Server :=
  mkServer (rooms s) (<[sid := k]> (sockets s)).

(** The socket record of a connection; a connection that never joined has
    no [data] and joined no channel. *)
Definition fresh_socket : Socket := mkSocket None ∅.

Definition get_socket (sid : string) (s : Server) : Socket :=
  default fresh_socket (sockets s !! sid).

(** The guard [if (!socket.data?.userId || !socket.data?.roomId) return]:
    the session when the guard lets the event through. *)
Definition session (sid : string) (s : Server) : option SocketData :=
  match data (get_socket sid s) with
  | Some d => if truthy (userId d) && truthy (roomId d) then Some d else None
  | None => None
  end.

(** The cleanup scheduler's tick. *)
Definition sweep (now : N) (s : Server) : Server :=
  mkServer
    (filter (λ p, ¬ (lastActivity p.2 ≠ 0%N ∧
                     (Z.of_N now - Z.of_N (lastActivity p.2) > ROOM_TIMEOUT)%Z))
            (rooms s))
    (sockets s).

(** *** Handlers

    Each handler takes the id [sid] of the socket the event came in on, the
    payload, the clock reading and the server state. *)

Definition emit (sid : string) (e : OutEvent) : Emission := mkEmission (ToSender sid) e.
Definition io_to (ch : string) (e : OutEvent) : Emission := mkEmission (ToChannel ch) e.
Definition socket_to (sid ch : string) (e : OutEvent) : Emission :=
  mkEmission (ToChannelExcept ch sid) e.

(** A handler without [try] runs to its end or throws; an uncaught exception
    ends the Node process. *)
Inductive Outcome :=
| Returns (r : Server * list Emission)
| Throws (error : string).

(** The process after it has exited: no registry and no connection. *)
Definition exited : Server := mkServer ∅ ∅.

(** What an outcome leaves behind: the state and the emissions of a handler
    that returned; nothing of a process that has exited. *)
Definition settle (o : Outcome) : Server * list Emission :=
  match o with
  | Returns r => r
  | Throws _ => (exited, [])
  end.

Definition thrown (o : Outcome) : bool :=
  match o with
  | Returns _ => false
  | Throws _ => true
  end.

(** [io.on('connection')]: only registers the handlers. *)
Definition connect (sid : string) (s : Server) : Server * list Emission :=
  (put_socket sid (get_socket sid s) s, []).

(** The password gate of [join-room]. *)
Definition join_blocked (room : Room) (uid : string) (pw : option string) : bool :=
  locked room && truthy_opt (hostId room) && negb (strict_eq (hostId room) uid)
  && strict_neq_password (password room) pw.

(** [socket.on('join-room')] *)
Definition join_room (sid rid uid uname : string) (pw : option string)
    (now : N) (s : Server) : Server * list Emission :=
  if negb (truthy rid) || negb (truthy uid) then
    (s, [emit sid (EvError "Invalid room or user ID")])
  else
    let room := getOrCreateRoom rid now (rooms s) in
    if join_blocked room uid pw then
      (put_room rid room s, [emit sid EvPasswordRequired])
    else
      let room :=
        if negb (truthy_opt (hostId room)) then
          set_allowedUsers ({[uid]} ∪ allowedUsers room) (set_hostId (Some uid) room)
        else room in
      let k := get_socket sid s in
      let k := mkSocket (Some (mkData uid rid uname None)) ({[rid]} ∪ joined k) in
      let room :=
        set_members
          (map_set uid
             (mkMember uid uname (strict_eq (hostId room) uid)
                       (bool_decide (uid ∈ allowedUsers room))
                       (bool_decide (uid ∈ raisedHands room)))
             (members room))
          room in
      (put_socket sid k (put_room rid room s),
       [ emit sid (EvRoomState (locked room) (hostId room) (map_values (members room))
                               (Some (bool_decide (uid ∈ allowedUsers room))));
         emit sid (EvWhiteboardState (whiteboardDrawings room) (whiteboardBackground room));
         socket_to sid rid (EvRoomMembers (map_values (members room))) ]).

(** [socket.on('room:lock')] *)
Definition room_lock (sid rid pw : string) (now : N) (s : Server)
    : Server * list Emission :=
  match session sid s with
  | None => (s, [])
  | Some d =>
      let room := getOrCreateRoom rid now (rooms s) in
      if strict_eq (hostId room) (userId d) && truthy pw then
        (put_room rid (set_locked true (Some pw) room) s, [io_to rid EvRoomLocked])
      else (put_room rid room s, [])
  end.

(** [socket.on('room:unlock')] *)
Definition room_unlock (sid rid : string) (now : N) (s : Server)
    : Server * list Emission :=
  match session sid s with
  | None => (s, [])
  | Some d =>
      let room := getOrCreateRoom rid now (rooms s) in
      if strict_eq (hostId room) (userId d) then
        (put_room rid (set_locked false None room) s, [io_to rid EvRoomUnlocked])
      else (put_room rid room s, [])
  end.

(** [socket.on('chat:send')]; a message that is not an object makes the
    assignment [message.id = ...] throw, which the handler catches. *)
Definition chat_send (sid rid : string) (message : JsAny) (rnd : string)
    (now : N) (s : Server) : Server * list Emission :=
  match session sid s with
  | None => (s, [])
  | Some d =>
      if chat_allowed (lastChatTime d) now then
        match message with
        | JObj o =>
            let o := map_set "id" (VStr (fresh_id (userId d) now rnd)) o in
            let k := get_socket sid s in
            (put_socket sid (mkSocket (Some (set_lastChatTime (Some now) d)) (joined k)) s,
             [io_to rid (EvChatReceive (map_set "isMe" (VBool false) o))])
        | JNotObj => (s, [emit sid (EvError "Failed to send message")])
        end
      else (s, [emit sid (EvError "Message rate limit exceeded")])
  end.

(** [socket.on('whiteboard:enable')] and [socket.on('whiteboard:disable')] *)
Definition whiteboard_toggle (e : OutEvent) (sid rid : string) (now : N) (s : Server)
    : Server * list Emission :=
  match session sid s with
  | None => (s, [])
  | Some d =>
      let room := getOrCreateRoom rid now (rooms s) in
      (put_room rid room s,
       if strict_eq (hostId room) (userId d) then [io_to rid e] else [])
  end.

Definition whiteboard_enable := whiteboard_toggle EvWhiteboardEnable.
Definition whiteboard_disable := whiteboard_toggle EvWhiteboardDisable.

(** [socket.on('whiteboard:drawing')]; the handler has no [try]: on a
    drawing that is not an object the assignment [drawing.id = ...] throws a
    [TypeError], after [getOrCreateRoom] and the membership test. *)
Definition whiteboard_drawing (sid rid : string) (drawing : JsAny) (rnd : string)
    (now : N) (s : Server) : Outcome :=
  match session sid s with
  | None => Returns (s, [])
  | Some d =>
      let room := getOrCreateRoom rid now (rooms s) in
      if bool_decide (userId d ∈ allowedUsers room) then
        match drawing with
        | JObj o =>
            let o := map_set "id" (VStr (fresh_id (userId d) now rnd)) o in
            Returns
              (put_room rid
                 (set_whiteboard (whiteboardDrawings room ++ [o])
                                 (whiteboardBackground room) room) s,
               [socket_to sid rid (EvWhiteboardDrawing o)])
        | JNotObj => Throws "TypeError"
        end
      else Returns (put_room rid room s, [])
  end.

(** [socket.on('whiteboard:background')] *)
Definition whiteboard_background (sid rid background : string) (now : N) (s : Server)
    : Server * list Emission :=
  match session sid s with
  | None => (s, [])
  | Some d =>
      let room := getOrCreateRoom rid now (rooms s) in
      if bool_decide (userId d ∈ allowedUsers room) then
        (put_room rid (set_whiteboard (whiteboardDrawings room) (Some background) room) s,
         [socket_to sid rid (EvWhiteboardBackground background)])
      else (put_room rid room s, [])
  end.

(** [socket.on('whiteboard:clear')] *)
Definition whiteboard_clear (sid rid : string) (now : N) (s : Server)
    : Server * list Emission :=
  match session sid s with
  | None => (s, [])
  | Some d =>
      let room := getOrCreateRoom rid now (rooms s) in
      if bool_decide (userId d ∈ allowedUsers room) then
        (put_room rid (set_whiteboard [] None room) s,
         [socket_to sid rid EvWhiteboardClear])
      else (put_room rid room s, [])
  end.

(** [socket.on('whiteboard:allow-user')] *)
Definition whiteboard_allow_user (sid rid uid : string) (allow : bool) (now : N)
    (s : Server) : Server * list Emission :=
  match session sid s with
  | None => (s, [])
  | Some d =>
      let room := getOrCreateRoom rid now (rooms s) in
      if strict_eq (hostId room) (userId d) then
        let room :=
          set_allowedUsers
            (if allow then {[uid]} ∪ allowedUsers room else allowedUsers room ∖ {[uid]})
            room in
        let room := set_members (map_update (set_canDraw allow) uid (members room)) room in
        (put_room rid room s,
         [ io_to rid (EvUserPermission uid allow);
           io_to rid (EvRoomMembers (map_values (members room))) ])
      else (put_room rid room s, [])
  end.

(** [socket.on('host:make-host')] *)
Definition make_host (sid rid uid : string) (now : N) (s : Server)
    : Server * list Emission :=
  match session sid s with
  | None => (s, [])
  | Some d =>
      let room := getOrCreateRoom rid now (rooms s) in
      if strict_eq (hostId room) (userId d) then
        let ms := map_update (set_isModerator false) (userId d) (members room) in
        let ms := map_update (set_isModerator true) uid ms in
        let room :=
          set_allowedUsers ({[uid]} ∪ allowedUsers room)
            (set_members ms (set_hostId (Some uid) room)) in
        (put_room rid room s,
         [ io_to rid (EvHostChanged uid);
           io_to rid (EvRoomMembers (map_values (members room))) ])
      else (put_room rid room s, [])
  end.

(** [socket.on('hand:raise')] *)
Definition hand_raise (sid rid : string) (now : N) (s : Server)
    : Server * list Emission :=
  match session sid s with
  | None => (s, [])
  | Some d =>
      let room := getOrCreateRoom rid now (rooms s) in
      let room := set_raisedHands ({[userId d]} ∪ raisedHands room) room in
      let room :=
        set_members (map_update (set_handRaised true) (userId d) (members room)) room in
      (put_room rid room s,
       [ io_to rid (EvHandRaised (userId d) (userName d));
         io_to rid (EvRoomMembers (map_values (members room))) ])
  end.

(** [socket.on('hand:lower')] *)
Definition hand_lower (sid rid : string) (now : N) (s : Server)
    : Server * list Emission :=
  match session sid s with
  | None => (s, [])
  | Some d =>
      let room := getOrCreateRoom rid now (rooms s) in
      let room := set_raisedHands (raisedHands room ∖ {[userId d]}) room in
      let room :=
        set_members (map_update (set_handRaised false) (userId d) (members room)) room in
      (put_room rid room s,
       [ io_to rid (EvHandLowered (userId d));
         io_to rid (EvRoomMembers (map_values (members room))) ])
  end.

(** [socket.on('hand:lower-all')] *)
Definition hand_lower_all (sid rid : string) (now : N) (s : Server)
    : Server * list Emission :=
  match session sid s with
  | None => (s, [])
  | Some d =>
      let room := getOrCreateRoom rid now (rooms s) in
      if strict_eq (hostId room) (userId d) then
        let room := set_raisedHands ∅ room in
        let room :=
          set_members (prod_map Datatypes.id (set_handRaised false) <$> members room) room in
        (put_room rid room s,
         [ io_to rid EvHandLoweredAll;
           io_to rid (EvRoomMembers (map_values (members room))) ])
      else (put_room rid room s, [])
  end.

(** [socket.on('moderator:mute-user')] and [socket.on('moderator:remove-user')]:
    the signal goes to the channel named by the target's user id. *)
Definition moderator_signal (e : OutEvent) (sid rid uid : string) (now : N) (s : Server)
    : Server * list Emission :=
  match session sid s with
  | None => (s, [])
  | Some d =>
      let room := getOrCreateRoom rid now (rooms s) in
      (put_room rid room s,
       if strict_eq (hostId room) (userId d) then [socket_to sid uid e] else [])
  end.

Definition moderator_mute_user := moderator_signal EvForceMute.
Definition moderator_remove_user := moderator_signal EvForceLeave.

(** [socket.on('reaction:send')]; the handler has no [try]: on a reaction
    that is not an object the assignment [reaction.id = ...] throws a
    [TypeError]. *)
Definition reaction_send (sid rid : string) (reaction : JsAny) (rnd : string)
    (now : N) (s : Server) : Outcome :=
  match session sid s with
  | None => Returns (s, [])
  | Some d =>
      match reaction with
      | JObj o =>
          Returns
            (s, [socket_to sid rid
                   (EvReaction (map_set "id" (VStr (fresh_id (userId d) now rnd)) o))])
      | JNotObj => Throws "TypeError"
      end
  end.

(** The host hand-over inside the disconnect handler, on the room from which
    the leaving user has been removed. *)
Definition failover (rid : string) (room : Room) : Room * list Emission :=
  let remaining := map_values (members room) in
  let room :=
    set_hostId (match remaining with m :: _ => Some (id m) | [] => None end) room in
  match hostId room with
  | Some h =>
      if truthy h then
        let room :=
          match map_get h (members room) with
          | Some _ =>
              set_allowedUsers ({[h]} ∪ allowedUsers room)
                (set_members (map_update (set_isModerator true) h (members room)) room)
          | None => room
          end in
        (room, [io_to rid (EvRoomState (locked room) (hostId room)
                                        (map_values (members room)) None)])
      else (room, [io_to rid EvWhiteboardDisable])
  | None => (room, [io_to rid EvWhiteboardDisable])
  end.

(** What the disconnect handler does to the room of the leaving user [u]:
    the three deletions, then the hand-over if [u] was the host. *)
Definition leave_room (rid u : string) (room : Room) : Room * list Emission :=
  let room :=
    set_raisedHands (raisedHands room ∖ {[u]})
      (set_allowedUsers (allowedUsers room ∖ {[u]})
         (set_members (map_delete u (members room)) room)) in
  if strict_eq (hostId room) u then failover rid room else (room, []).

(** [socket.on('disconnect')]: the socket has left its channels when the
    handler runs. *)
Definition disconnect (sid : string) (s : Server) : Server * list Emission :=
  let s' := mkServer (rooms s) (delete sid (sockets s)) in
  match session sid s with
  | None => (s', [])
  | Some d =>
      match rooms s !! roomId d with
      | None => (s', [])
      | Some room =>
          let ro := leave_room (roomId d) (userId d) room in
          match members ro.1 with
          | _ :: _ =>
              (put_room (roomId d) ro.1 s',
               ro.2 ++ [io_to (roomId d) (EvRoomMembers (map_values (members ro.1)))])
          | [] => (mkServer (delete (roomId d) (rooms s)) (sockets s'), ro.2)
          end
      end
  end.

(** *** Inbound events *)

Inductive Event :=
| Connect
| JoinRoom (roomId userId userName : string) (password : option string)
| RoomLock (roomId password : string)
| RoomUnlock (roomId : string)
| ChatSend (roomId : string) (message : JsAny) (rnd : string)
| WhiteboardEnable (roomId : string)
| WhiteboardDisable (roomId : string)
| WhiteboardDrawing (roomId : string) (drawing : JsAny) (rnd : string)
| WhiteboardBackground (roomId background : string)
| WhiteboardClear (roomId : string)
| WhiteboardAllowUser (roomId userId : string) (allow : bool)
| MakeHost (roomId userId : string)
| HandRaise (roomId : string)
| HandLower (roomId : string)
| HandLowerAll (roomId : string)
| ModeratorMuteUser (roomId userId : string)
| ModeratorRemoveUser (roomId userId : string)
| ReactionSend (roomId : string) (reaction : JsAny) (rnd : string)
| Disconnect.

(** What the event loop processes: an event of a socket at a clock reading,
    or a tick of the cleanup scheduler. *)
Inductive Input :=
| FromSocket (sid : string) (now : N) (e : Event)
| Tick (now : N).

(** The handler of the event throws. *)
Definition throws (sid : string) (now : N) (e : Event) (s : Server) : bool :=
  match e with
  | WhiteboardDrawing rid d rnd => thrown (whiteboard_drawing sid rid d rnd now s)
  | ReactionSend rid r rnd => thrown (reaction_send sid rid r rnd now s)
  | _ => false
  end.

(** The state and the emissions the event leaves behind. *)
Definition handle (sid : string) (now : N) (e : Event) (s : Server)
    : Server * list Emission :=
  match e with
  | Connect => connect sid s
  | JoinRoom rid uid uname pw => join_room sid rid uid uname pw now s
  | RoomLock rid pw => room_lock sid rid pw now s
  | RoomUnlock rid => room_unlock sid rid now s
  | ChatSend rid m rnd => chat_send sid rid m rnd now s
  | WhiteboardEnable rid => whiteboard_enable sid rid now s
  | WhiteboardDisable rid => whiteboard_disable sid rid now s
  | WhiteboardDrawing rid d rnd => settle (whiteboard_drawing sid rid d rnd now s)
  | WhiteboardBackground rid bg => whiteboard_background sid rid bg now s
  | WhiteboardClear rid => whiteboard_clear sid rid now s
  | WhiteboardAllowUser rid uid allow => whiteboard_allow_user sid rid uid allow now s
  | MakeHost rid uid => make_host sid rid uid now s
  | HandRaise rid => hand_raise sid rid now s
  | HandLower rid => hand_lower sid rid now s
  | HandLowerAll rid => hand_lower_all sid rid now s
  | ModeratorMuteUser rid uid => moderator_mute_user sid rid uid now s
  | ModeratorRemoveUser rid uid => moderator_remove_user sid rid uid now s
  | ReactionSend rid r rnd => settle (reaction_send sid rid r rnd now s)
  | Disconnect => disconnect sid s
  end.

Definition step (s : Server) (i : Input) : Server * list Emission :=
  match i with
  | FromSocket sid now e => handle sid now e s
  | Tick now => (sweep now s, [])
  end.

(** The input ends the process: its handler throws. *)
Definition exits (s : Server) (i : Input) : bool :=
  match i with
  | FromSocket sid now e => throws sid now e s
  | Tick _ => false
  end.

(** The event loop: inputs are processed to completion, one after another,
    until the handler of one throws; then the process exits and the inputs
    after it are not processed. *)
Fixpoint run (s : Server) (inputs : list Input) : Server * list Emission :=
  match inputs with
  | [] => (s, [])
  | i :: rest =>
      let '(s1, out1) := step s i in
      if exits s i then (s1, out1)
      else
        let '(s2, out2) := run s1 rest in
        (s2, out1 ++ out2)
  end.

Definition run_state (s : Server) (inputs : list Input) : Server := (run s inputs).1.

(** Some input of the run ends the process. *)
Fixpoint run_exits (s : Server) (inputs : list Input) : bool :=
  match inputs with
  | [] => false
  | i :: rest => exits s i || run_exits (step s i).1 rest
  end.

End Relay.

(** ** The reduced relay: [src/server/server.js]

    The handlers the properties below refer to: the registry, [join-room],
    [room:lock], [room:unlock] and [chat:send]. *)

Module Basic.

Record Room := mkRoom {
  locked : bool;
  password : option string;
  hostId : option string;
  members : list string;
  lastActivity : N
}.

Record SocketData := mkData {
  userId : string;
  roomId : string;
  lastChatTime : option N
}.

Record Socket := mkSocket {
  data : option SocketData;
  joined : gset string
}.

Record Server := mkServer {
  rooms : gmap string Room;
  sockets : gmap string Socket
}.

Inductive OutEvent :=
| EvError (message : string)
| EvPasswordRequired
| EvRoomState (locked : bool) (hostId : option string) (members : list string)
| EvRoomMembers (members : list string)
| EvRoomLocked
| EvRoomUnlocked
| EvChatReceive (message : JsObj).

Record Emission := mkEmission {
  audience : Relay.Audience;
  event : OutEvent
}.

Definition emit (sid : string) (e : OutEvent) : Emission :=
  mkEmission (Relay.ToSender sid) e.
Definition io_to (ch : string) (e : OutEvent) : Emission :=
  mkEmission (Relay.ToChannel ch) e.

Definition new_room (now : N) : Room := mkRoom false None None [] now.

Definition getOrCreateRoom (rid : string) (now : N) (rs : gmap string Room) : Room :=
  let r := default (new_room now) (rs !! rid) in
  mkRoom (locked r) (password r) (hostId r) (members r) now.

Definition put_room (rid : string) (r : Room) (s : Server) : Server :=
  mkServer (<[rid := r]> (rooms s)) (sockets s).

Definition put_socket (sid : string) (k : Socket) (s : Server) : Server :=
  mkServer (rooms s) (<[sid := k]> (sockets s)).

Definition get_socket (sid : string) (s : Server) : Socket :=
  default (mkSocket None ∅) (sockets s !! sid).

Definition session (sid : string) (s : Server) : option SocketData :=
  match data (get_socket sid s) with
  | Some d => if truthy (userId d) && truthy (roomId d) then Some d else None
  | None => None
  end.

(** [members.add(userId)] on a [Set]. *)
Definition set_add (x : string) (l : list string) : list string :=
  if bool_decide (x ∈ l) then l else l ++ [x].

(** [socket.on('join-room')] *)
Definition join_room (sid rid uid : string) (pw : option string) (now : N) (s : Server)
    : Server * list Emission :=
  if negb (truthy rid) || negb (truthy uid) then
    (s, [emit sid (EvError "Invalid room or user ID")])
  else
    let room := getOrCreateRoom rid now (rooms s) in
    if locked room && truthy_opt (hostId room) && negb (strict_eq (hostId room) uid)
       && strict_neq_password (password room) pw then
      (put_room rid room s, [emit sid EvPasswordRequired])
    else
      let h := if negb (truthy_opt (hostId room)) then Some uid else hostId room in
      let k := get_socket sid s in
      let room :=
        mkRoom (locked room) (password room) h (set_add uid (members room))
               (lastActivity room) in
      (put_socket sid (mkSocket (Some (mkData uid rid None)) ({[rid]} ∪ joined k))
         (put_room rid room s),
       [ emit sid (EvRoomState (locked room) (hostId room) (members room));
         io_to rid (EvRoomMembers (members room)) ]).

(** [socket.on('room:lock')] *)
Definition room_lock (sid rid pw : string) (now : N) (s : Server)
    : Server * list Emission :=
  match session sid s with
  | None => (s, [])
  | Some d =>
      let room := getOrCreateRoom rid now (rooms s) in
      if strict_eq (hostId room) (userId d) && truthy pw then
        (put_room rid
           (mkRoom true (Some pw) (hostId room) (members room) (lastActivity room)) s,
         [io_to rid EvRoomLocked])
      else (put_room rid room s, [])
  end.

(** [socket.on('room:unlock')] *)
Definition room_unlock (sid rid : string) (now : N) (s : Server)
    : Server * list Emission :=
  match session sid s with
  | None => (s, [])
  | Some d =>
      let room := getOrCreateRoom rid now (rooms s) in
      if strict_eq (hostId room) (userId d) then
        (put_room rid
           (mkRoom false None (hostId room) (members room) (lastActivity room)) s,
         [io_to rid EvRoomUnlocked])
      else (put_room rid room s, [])
  end.

(** [socket.on('chat:send')]: the message is validated, then relayed as the
    client sent it. *)
Definition chat_send (sid rid : string) (message : JsAny) (now : N) (s : Server)
    : Server * list Emission :=
  match session sid s with
  | None => (s, [])
  | Some d =>
      match message with
      | JNotObj => (s, [emit sid (EvError "Invalid message format")])
      | JObj o =>
          if chat_allowed (lastChatTime d) now then
            (put_socket sid
               (mkSocket (Some (mkData (userId d) (roomId d) (Some now)))
                         (joined (get_socket sid s))) s,
             [io_to rid (EvChatReceive o)])
          else (s, [emit sid (EvError "Message rate limit exceeded")])
      end
  end.

End Basic.

(** ** The rest of the reduced relay

    The whiteboard handlers, [disconnect], the cleanup scheduler and the
    event loop of [src/server/server.js]. *)

Module BasicLoop.
Import Basic.

Definition init : Server := mkServer ∅ ∅.

Definition ROOM_TIMEOUT : Z := 30 * 60 * 1000.

(** The events of the handlers below, next to those of [Basic.OutEvent]. *)
Inductive Signal :=
| Ev (e : OutEvent)
| EvWhiteboardEnable
| EvWhiteboardDisable
| EvWhiteboardSync (command : JsObj).

Record Sent := mkSent {
  to : Relay.Audience;
  signal : Signal
}.

Definition io_to (ch : string) (e : Signal) : Sent := mkSent (Relay.ToChannel ch) e.
Definition socket_to (sid ch : string) (e : Signal) : Sent :=
  mkSent (Relay.ToChannelExcept ch sid) e.

(** A handler of [Basic] as a step of the loop. *)
Definition lift (r : Server * list Emission) : Server * list Sent :=
  (r.1, map (λ e, mkSent (audience e) (Ev (event e))) r.2).

(** The cleanup scheduler's tick. *)
Definition sweep (now : N) (s : Server) : Server :=
  mkServer
    (filter (λ p, ¬ (lastActivity p.2 ≠ 0%N ∧
                     (Z.of_N now - Z.of_N (lastActivity p.2) > ROOM_TIMEOUT)%Z))
            (rooms s))
    (sockets s).

(** [socket.on('whiteboard:enable')] and [socket.on('whiteboard:disable')] *)
Definition whiteboard_toggle (e : Signal) (sid rid : string) (now : N) (s : Server)
    : Server * list Sent :=
  match session sid s with
  | None => (s, [])
  | Some d =>
      let room := getOrCreateRoom rid now (rooms s) in
      (put_room rid room s,
       if strict_eq (hostId room) (userId d) then [io_to rid e] else [])
  end.

(** [{ roomId, ...command, senderId: socket.data.userId }], where [command]
    holds the properties of the payload other than [roomId]. *)
Definition stamped (rid uid : string) (command : JsObj) : JsObj :=
  map_set "senderId" (VStr uid) (("roomId", VStr rid) :: command).

(** [socket.on('whiteboard:sync')] *)
Definition whiteboard_sync (sid rid : string) (command : JsObj) (now : N) (s : Server)
    : Server * list Sent :=
  match session sid s with
  | None => (s, [])
  | Some d =>
      let room := getOrCreateRoom rid now (rooms s) in
      (put_room rid room s,
       if strict_eq (hostId room) (userId d)
       then [socket_to sid rid (EvWhiteboardSync (stamped rid (userId d) command))]
       else [])
  end.

(** [members.delete(userId)] on a [Set]. *)
Definition set_delete (x : string) (l : list string) : list string :=
  filter (λ y, y ≠ x) l.

(** [socket.on('disconnect')]: the socket has left its channels when the
    handler runs; the room stays in the registry. *)
Definition disconnect (sid : string) (s : Server) : Server * list Sent :=
  let s' := mkServer (rooms s) (delete sid (sockets s)) in
  match session sid s with
  | None => (s', [])
  | Some d =>
      match rooms s !! roomId d with
      | None => (s', [])
      | Some room =>
          let remaining := set_delete (userId d) (members room) in
          if strict_eq (hostId room) (userId d) then
            match remaining with
            | [] =>
                (put_room (roomId d)
                   (mkRoom (locked room) (password room) None remaining
                           (lastActivity room)) s',
                 [ io_to (roomId d) EvWhiteboardDisable;
                   io_to (roomId d) (Ev (EvRoomMembers remaining)) ])
            | h :: _ =>
                (put_room (roomId d)
                   (mkRoom (locked room) (password room) (Some h) remaining
                           (lastActivity room)) s',
                 [ io_to (roomId d) (Ev (EvRoomState (locked room) (Some h) remaining));
                   io_to (roomId d) (Ev (EvRoomMembers remaining)) ])
            end
          else
            (put_room (roomId d)
               (mkRoom (locked room) (password room) (hostId room) remaining
                       (lastActivity room)) s',
             [ io_to (roomId d) (Ev (EvRoomMembers remaining)) ])
      end
  end.

Inductive Event :=
| JoinRoom (roomId userId : string) (password : option string)
| RoomLock (roomId password : string)
| RoomUnlock (roomId : string)
| ChatSend (roomId : string) (message : JsAny)
| WhiteboardEnable (roomId : string)
| WhiteboardDisable (roomId : string)
| WhiteboardSync (roomId : string) (command : JsObj)
| Disconnect.

Inductive Input :=
| FromSocket (sid : string) (now : N) (e : Event)
| Tick (now : N).

Definition handle (sid : string) (now : N) (e : Event) (s : Server)
    : Server * list Sent :=
  match e with
  | JoinRoom rid uid pw => lift (join_room sid rid uid pw now s)
  | RoomLock rid pw => lift (room_lock sid rid pw now s)
  | RoomUnlock rid => lift (room_unlock sid rid now s)
  | ChatSend rid m => lift (chat_send sid rid m now s)
  | WhiteboardEnable rid => whiteboard_toggle EvWhiteboardEnable sid rid now s
  | WhiteboardDisable rid => whiteboard_toggle EvWhiteboardDisable sid rid now s
  | WhiteboardSync rid c => whiteboard_sync sid rid c now s
  | Disconnect => disconnect sid s
  end.

Definition step (s : Server) (i : Input) : Server * list Sent :=
  match i with
  | FromSocket sid now e => handle sid now e s
  | Tick now => (sweep now s, [])
  end.

Fixpoint run (s : Server) (inputs : list Input) : Server * list Sent :=
  match inputs with
  | [] => (s, [])
  | i :: rest =>
      let '(s1, out1) := step s i in
      let '(s2, out2) := run s1 rest in
      (s2, out1 ++ out2)
  end.

Definition run_state (s : Server) (inputs : list Input) : Server := (run s inputs).1.

(** The host of a room is one of its members, and a room has no host
    exactly when it has no member; the members are distinct non-empty ids. *)
Definition host_ok (r : Room) : Prop :=
  NoDup (members r) ∧ ("" ∉ members r) ∧
  match hostId r with
  | Some h => h ∈ members r
  | None => members r = []
  end.

(** The event is neither [room:lock] nor [room:unlock]. *)
Definition keeps_lock (e : Event) : bool :=
  match e with
  | RoomLock _ _ | RoomUnlock _ => false
  | _ => true
  end.

(** [H] opens room [r] and locks it. *)
Definition locked_by_host : Server :=
  run_state init
    [ FromSocket "s1" 1000 (JoinRoom "r" "H" None);
      FromSocket "s1" 2000 (RoomLock "r" "secret") ].

End BasicLoop.

(** * The meeting client: [src/frontend/components/Loading.tsx]

    The parts of the state of the [MeetingRoom], [ChatPanel] and
    [WhiteboardCanvas] components that the socket handlers change, each
    handler as a function on that state. *)

#[global] Instance JsVal_eq_dec : EqDecision JsVal.
Proof. solve_decision. Defined.

Module Client.

(** Truthiness of a property that holds a string, a boolean or nothing. *)
Definition truthy_val (v : option JsVal) : bool :=
  match v with
  | Some (VStr s) => truthy s
  | Some (VBool b) => b
  | None => false
  end.

(** [ids.add(i)] on a [Set]. *)
Definition add_id (i : option JsVal) (ids : list (option JsVal)) : list (option JsVal) :=
  if bool_decide (i ∈ ids) then ids else ids ++ [i].

(** ** Chat *)

(** [messages] and the set behind the [receivedMessageIds] ref. *)
Record Chat := mkChat {
  messages : list JsObj;
  receivedMessageIds : list (option JsVal)
}.

Definition no_chat : Chat := mkChat [] [].

(** [socket.on('chat:receive')] *)
Definition chat_receive (msg : JsObj) (c : Chat) : Chat :=
  if bool_decide (obj_id msg ∈ receivedMessageIds c) then c
  else mkChat (messages c ++ [msg]) (add_id (obj_id msg) (receivedMessageIds c)).

(** The [ChatMessage] that [handleSendMessage] builds for the text
    [message] at the clock reading [now]; [time] is the rendered time of
    day. *)
Definition new_message (uid senderName message time : string) (now : N) (rnd : string)
    : JsObj :=
  [ ("id", VStr (fresh_id uid now rnd));
    ("senderId", VStr uid);
    ("senderName", VStr senderName);
    ("text", VStr message);
    ("type", VStr "text");
    ("time", VStr time) ].

(** [handleSendMessage]: the chat state, and the [message] of the
    [chat:send] it emits. *)
Definition handleSendMessage (uid senderName message time : string) (now : N)
    (rnd : string) (c : Chat) : Chat * JsObj :=
  let msg := new_message uid senderName message time now rnd in
  (mkChat (messages c ++ [msg]) (receivedMessageIds c), msg).

(** [self.findIndex(m => m.id === id)]; [None] for [-1]. *)
Definition findIndex (id : option JsVal) (self : list JsObj) : option nat :=
  fst <$> list_find (λ m, obj_id m = id) self.

(** The filter of [processedMessages] on the entry at [p.1]:
    [index === self.findIndex(m => m.id === msg.id)]. *)
Definition first_of_its_id (self : list JsObj) (p : nat * JsObj) : Prop :=
  findIndex (obj_id p.2) self = Some p.1.

#[global] Instance first_of_its_id_dec self p : Decision (first_of_its_id self p).
Proof. unfold first_of_its_id. apply _. Defined.

(** [{...msg, isMe: msg.senderId === currentUserId}] *)
Definition mark (currentUserId : string) (msg : JsObj) : JsObj :=
  map_set "isMe"
    (VBool (bool_decide (map_get "senderId" msg = Some (VStr currentUserId)))) msg.

(** [processedMessages] of the chat panel: what it renders. *)
Definition processedMessages (currentUserId : string) (msgs : list JsObj) : list JsObj :=
  mark currentUserId <$> (filter (first_of_its_id msgs) (imap pair msgs)).*2.

(** The identifier is not one of a message of the chat, nor one the chat
    remembers. *)
Definition unseen (c : Chat) (i : string) : Prop :=
  (Some (VStr i) ∉ obj_id <$> messages c) ∧ (Some (VStr i) ∉ receivedMessageIds c).

(** ** Whiteboard *)

(** [whiteboardState.drawings], [currentDrawing] and [backgroundImage], and
    the set behind the [receivedDrawingIds] ref. *)
Record Board := mkBoard {
  drawings : list JsObj;
  currentDrawing : option JsObj;
  backgroundImage : option string;
  receivedDrawingIds : list (option JsVal)
}.

Definition no_board : Board := mkBoard [] None None [].

(** [if (drawing.id) receivedDrawingIds.current.add(drawing.id)] *)
Definition remember (ids : list (option JsVal)) (drawing : JsObj) : list (option JsVal) :=
  if truthy_val (obj_id drawing) then add_id (obj_id drawing) ids else ids.

(** [handleDrawing] *)
Definition handleDrawing (drawing : JsObj) (b : Board) : Board :=
  if truthy_val (obj_id drawing) && bool_decide (obj_id drawing ∈ receivedDrawingIds b)
  then b
  else mkBoard (drawings b ++ [drawing]) (currentDrawing b) (backgroundImage b)
               (remember (receivedDrawingIds b) drawing).

(** [handleClear]; it also resets the zoom and the pan of the view. *)
Definition handleClear (b : Board) : Board := mkBoard [] None None [].

(** [handleWhiteboardState] *)
Definition handleWhiteboardState (ds : list JsObj) (background : option string)
    (b : Board) : Board :=
  mkBoard ds (currentDrawing b) background (foldl remember (receivedDrawingIds b) ds).

(** [handleBackground] *)
Definition handleBackground (background : string) (b : Board) : Board :=
  mkBoard (drawings b) (currentDrawing b) (Some background) (receivedDrawingIds b).

(** The whiteboard listeners on the events of the relay. *)
Definition board_on (e : Relay.OutEvent) (b : Board) : Board :=
  match e with
  | Relay.EvWhiteboardDrawing d => handleDrawing d b
  | Relay.EvWhiteboardClear => handleClear b
  | Relay.EvWhiteboardState ds bg => handleWhiteboardState ds bg b
  | Relay.EvWhiteboardBackground bg => handleBackground bg b
  | _ => b
  end.

(** The ids of the drawings on the board are remembered. *)
Definition board_ok (b : Board) : Prop :=
  forall d, d ∈ drawings b -> truthy_val (obj_id d) = true ->
            obj_id d ∈ receivedDrawingIds b.

(** ** Room view *)

(** [roomLocked], [hostId], [members], [canDraw] and [handRaised] of the
    meeting room of the user. *)
Record View := mkView {
  roomLocked : bool;
  hostId : option string;
  members : list Relay.Member;
  canDraw : bool;
  handRaised : bool
}.

Definition no_view : View := mkView false None [] false false.

(** [prev.map(member => member.id === userId ? f(member) : member)] *)
Definition update_member (f : Relay.Member -> Relay.Member) (userId : string)
    (ms : list Relay.Member) : list Relay.Member :=
  (λ m, if bool_decide (Relay.id m = userId) then f m else m) <$> ms.

(** The listeners of the room view on the events of the relay, for the
    signed-in user [uid]. *)
Definition view_on (uid : string) (e : Relay.OutEvent) (v : View) : View :=
  match e with
  | Relay.EvRoomState l h ms cd =>
      mkView l h ms (default false cd || strict_eq h uid) (handRaised v)
  | Relay.EvRoomLocked => mkView true (hostId v) (members v) (canDraw v) (handRaised v)
  | Relay.EvRoomUnlocked => mkView false (hostId v) (members v) (canDraw v) (handRaised v)
  | Relay.EvUserPermission u cd =>
      mkView (roomLocked v) (hostId v)
             (update_member (Relay.set_canDraw cd) u (members v))
             (if bool_decide (u = uid) then cd else canDraw v) (handRaised v)
  | Relay.EvRoomMembers ms =>
      mkView (roomLocked v) (hostId v) ms (canDraw v) (handRaised v)
  | Relay.EvHostChanged h =>
      mkView (roomLocked v) (Some h) (members v)
             (if bool_decide (h = uid) then true else canDraw v) (handRaised v)
  | Relay.EvHandRaised u _ =>
      mkView (roomLocked v) (hostId v)
             (update_member (Relay.set_handRaised true) u (members v))
             (canDraw v) (handRaised v)
  | Relay.EvHandLowered u =>
      mkView (roomLocked v) (hostId v)
             (update_member (Relay.set_handRaised false) u (members v))
             (canDraw v) (handRaised v)
  | Relay.EvHandLoweredAll =>
      mkView (roomLocked v) (hostId v) (Relay.set_handRaised false <$> members v)
             (canDraw v) false
  | _ => v
  end.

End Client.

(** * The full relay seen through the reduced one

    What the reduced relay keeps of a state of the full relay: of a room its
    lock, password, host, member ids and time stamp; of a session the user,
    the room and the time of the last chat message. *)

Definition reduce_room (r : Relay.Room) : Basic.Room :=
  Basic.mkRoom (Relay.locked r) (Relay.password r) (Relay.hostId r)
               (map_keys (Relay.members r)) (Relay.lastActivity r).

Definition reduce_data (d : Relay.SocketData) : Basic.SocketData :=
  Basic.mkData (Relay.userId d) (Relay.roomId d) (Relay.lastChatTime d).

Definition reduce_socket (k : Relay.Socket) : Basic.Socket :=
  Basic.mkSocket (reduce_data <$> Relay.data k) (Relay.joined k).

Definition reduce (s : Relay.Server) : Basic.Server :=
  Basic.mkServer (reduce_room <$> Relay.rooms s) (reduce_socket <$> Relay.sockets s).

(** The events the two relays have in common, less [disconnect]. *)
Definition reduce_event (e : Relay.Event) : option BasicLoop.Event :=
  match e with
  | Relay.JoinRoom rid uid _ pw => Some (BasicLoop.JoinRoom rid uid pw)
  | Relay.RoomLock rid pw => Some (BasicLoop.RoomLock rid pw)
  | Relay.RoomUnlock rid => Some (BasicLoop.RoomUnlock rid)
  | Relay.ChatSend rid m _ => Some (BasicLoop.ChatSend rid m)
  | Relay.WhiteboardEnable rid => Some (BasicLoop.WhiteboardEnable rid)
  | Relay.WhiteboardDisable rid => Some (BasicLoop.WhiteboardDisable rid)
  | _ => None
  end.

(** * Specification vocabulary *)

Import Relay.

(** A property of rooms that holds of every room of the registry. *)
Definition all_rooms (P : Room -> Prop) (s : Server) : Prop :=
  forall rid r, rooms s !! rid = Some r -> P r.

(** An entry of [members] is keyed by its own non-empty id, and carries the
    moderator flag only if it is the room's host. *)
Definition entry_ok (h : option string) (e : string * Member) : Prop :=
  id e.2 = e.1 ∧ e.1 ≠ "" ∧ (isModerator e.2 = true -> h = Some e.1).

Definition room_wf (r : Room) : Prop :=
  NoDup (map_keys (members r)) ∧ Forall (entry_ok (hostId r)) (members r).

(** The members whose host flag ([isModerator]) is set. *)
Definition moderators (r : Room) : list Member :=
  filter (λ m, isModerator m = true) (map_values (members r)).

(** When [members] is non-empty, [hostId] is set and is a key of [members]. *)
Definition host_present (r : Room) : Prop :=
  members r ≠ [] -> exists h, hostId r = Some h ∧ h ∈ map_keys (members r).

(** [hostId] is [null] exactly when [members] is empty, and is otherwise a
    key of [members]. *)
Definition host_inv (r : Room) : Prop :=
  match hostId r with
  | Some h => h ∈ map_keys (members r)
  | None => members r = []
  end.

(** [raisedHands ⊆ keys(members)]. *)
Definition hands_are_members (r : Room) : Prop :=
  forall u, u ∈ raisedHands r -> u ∈ map_keys (members r).

(** The host test [room.hostId === socket.data.userId] of the host-only
    handlers, for the event of socket [sid] addressed to room [rid]. *)
Definition sent_by_host (sid rid : string) (now : N) (s : Server) : bool :=
  match session sid s with
  | Some d => strict_eq (hostId (getOrCreateRoom rid now (rooms s))) (userId d)
  | None => false
  end.

(** The user of socket [sid] is a key of the members of room [rid]. *)
Definition sent_by_member (sid rid : string) (now : N) (s : Server) : bool :=
  match session sid s with
  | Some d =>
      bool_decide (userId d ∈ map_keys (members (getOrCreateRoom rid now (rooms s))))
  | None => false
  end.

(** A [host:make-host] that the host check lets through names a current
    member of the room. *)
Definition make_host_to_member (s : Server) (i : Input) : bool :=
  match i with
  | FromSocket sid now (MakeHost rid uid) =>
      negb (sent_by_host sid rid now s)
      || bool_decide (uid ∈ map_keys (members (getOrCreateRoom rid now (rooms s))))
  | _ => true
  end.

(** A [hand:raise] of a connection with a session comes from a member of
    the room it addresses. *)
Definition raise_by_member (s : Server) (i : Input) : bool :=
  match i with
  | FromSocket sid now (HandRaise rid) =>
      match session sid s with
      | Some _ => sent_by_member sid rid now s
      | None => true
      end
  | _ => true
  end.

(** The membership test [room.allowedUsers.has(socket.data.userId)] of the
    whiteboard handlers. *)
Definition sent_by_allowed (sid rid : string) (now : N) (s : Server) : bool :=
  match session sid s with
  | Some d =>
      bool_decide (userId d ∈ allowedUsers (getOrCreateRoom rid now (rooms s)))
  | None => false
  end.

Definition has_session (sid : string) (s : Server) : bool :=
  match session sid s with
  | Some _ => true
  | None => false
  end.

Definition is_object (v : JsAny) : bool :=
  match v with
  | JObj _ => true
  | JNotObj => false
  end.

(** The guard of the handler of [e] does not let the event through: the
    session is missing, the ids of a join are empty or its password is
    refused, the sender is not the host (not allowed to draw) where the
    handler asks for it, the chat rate limit is hit or the chat message is
    no object. *)
Definition precondition_fails (sid : string) (now : N) (e : Event) (s : Server) : bool :=
  match e with
  | Connect | Disconnect => false
  | JoinRoom rid uid _ pw =>
      negb (truthy rid) || negb (truthy uid)
      || join_blocked (getOrCreateRoom rid now (rooms s)) uid pw
  | RoomLock rid pw => negb (sent_by_host sid rid now s && truthy pw)
  | RoomUnlock rid | WhiteboardEnable rid | WhiteboardDisable rid
  | HandLowerAll rid | WhiteboardAllowUser rid _ _ | MakeHost rid _
  | ModeratorMuteUser rid _ | ModeratorRemoveUser rid _ =>
      negb (sent_by_host sid rid now s)
  | ChatSend _ m _ =>
      match session sid s with
      | Some d => negb (chat_allowed (lastChatTime d) now) || negb (is_object m)
      | None => true
      end
  | WhiteboardDrawing rid _ _ | WhiteboardBackground rid _ | WhiteboardClear rid =>
      negb (sent_by_allowed sid rid now s)
  | HandRaise _ | HandLower _ | ReactionSend _ _ _ => negb (has_session sid s)
  end.

(** The two signals the relay answers a refused event with. *)
Definition is_error_signal (e : OutEvent) : bool :=
  match e with
  | EvError _ | EvPasswordRequired => true
  | _ => false
  end.

(** The events whose handler answers a refusal with an error signal: a
    join, and a chat message of a connection with a session. *)
Definition answers_refusal (sid : string) (e : Event) (s : Server) : bool :=
  match e with
  | JoinRoom _ _ _ _ => true
  | ChatSend _ _ _ => has_session sid s
  | _ => false
  end.

(** The registry [rs'] differs from [rs] by room look-ups at [now] at most:
    each room is as before, or is the room [getOrCreateRoom] returns (the
    room as before, or a new one, with [lastActivity] stamped). *)
Definition only_looked_up (now : N) (rs rs' : gmap string Room) : Prop :=
  forall rid,
    rs' !! rid = rs !! rid ∨
    rs' !! rid = Some (set_lastActivity now (default (new_room now) (rs !! rid))).

(** The [canDraw] the relay reports in [room-state] and tests before every
    whiteboard mutation: [room.allowedUsers.has(userId)]. *)
Definition can_draw (room : Room) (uid : string) : bool :=
  bool_decide (uid ∈ allowedUsers room).

(** The draw permission of the sender of an event addressed to room [rid]:
    a connection without a session, and a room not yet in the registry,
    give none. *)
Definition sender_can_draw (sid rid : string) (s : Server) : bool :=
  match session sid s, rooms s !! rid with
  | Some d, Some room => can_draw room (userId d)
  | _, _ => false
  end.

(** The drawing log of room [rid]; empty when the registry has no such room. *)
Definition drawing_log (s : Server) (rid : string) : list JsObj :=
  default [] (whiteboardDrawings <$> rooms s !! rid).

(** The payloads of the chat messages, drawing operations and reactions of
    a list of emissions. *)
Definition emitted_payloads (out : list Emission) : list JsObj :=
  omap (λ em, match event em with
              | EvChatReceive o | EvWhiteboardDrawing o | EvReaction o => Some o
              | _ => None
              end) out.

(** The object carries an id built by the server. *)
Definition has_server_id (o : JsObj) : Prop :=
  exists u t rnd, obj_id o = Some (VStr (fresh_id u t rnd)).

(** Every operation of the room's drawing log, which [whiteboard:state]
    replays to a joining connection, carries such an id. *)
Definition log_has_server_ids (r : Room) : Prop :=
  Forall has_server_id (whiteboardDrawings r).

(** The random suffix an event brings along, if its handler draws one. *)
Definition event_rnd (e : Event) : string :=
  match e with
  | ChatSend _ _ rnd | WhiteboardDrawing _ _ rnd | ReactionSend _ _ rnd => rnd
  | _ => ""
  end.






(** Every input of the run satisfies [G] in the state it is processed in. *)
Fixpoint guarded (G : Server -> Input -> bool) (s : Server) (inputs : list Input) : bool :=
  match inputs with
  | [] => true
  | i :: rest => G s i && guarded G (step s i).1 rest
  end.

(** The three flags of a member record against the fields of its room: the
    host's record carries [isModerator], [handRaised] says whether the user
    is in the room's set of raised hands, and a record that says [canDraw]
    belongs to a user who is allowed to draw. *)
Definition flags_ok (r : Room) (e : string * Member) : Prop :=
  (hostId r = Some e.1 -> isModerator e.2 = true) ∧
  handRaised e.2 = bool_decide (e.1 ∈ raisedHands r) ∧
  (canDraw e.2 = true -> e.1 ∈ allowedUsers r).

Definition room_flags (r : Room) : Prop := Forall (flags_ok r) (members r).

(** A socket with a session has non-empty ids in it and listens on the
    channel of the session's room. *)
Definition socket_ok (k : Socket) : Prop :=
  match data k with
  | Some d => userId d ≠ "" ∧ roomId d ≠ "" ∧ roomId d ∈ joined k
  | None => True
  end.

Definition sockets_ok (s : Server) : Prop :=
  forall sid k, sockets s !! sid = Some k -> socket_ok k.

(** The room id the handler of [e] passes to [getOrCreateRoom], for an
    event that gets that far: a join with non-empty ids, and every event of a
    connection with a session except chat messages and reactions. *)
Definition looks_up (sid : string) (e : Event) (s : Server) : option string :=
  match e with
  | Connect | Disconnect | ChatSend _ _ _ | ReactionSend _ _ _ => None
  | JoinRoom rid uid _ _ => if truthy rid && truthy uid then Some rid else None
  | RoomLock rid _ | RoomUnlock rid | WhiteboardEnable rid | WhiteboardDisable rid
  | WhiteboardDrawing rid _ _ | WhiteboardBackground rid _ | WhiteboardClear rid
  | WhiteboardAllowUser rid _ _ | MakeHost rid _ | HandRaise rid | HandLower rid
  | HandLowerAll rid | ModeratorMuteUser rid _ | ModeratorRemoveUser rid _ =>
      if has_session sid s then Some rid else None
  end.

(** The room id of an event whose handler asks the sender to be the host. *)
Definition host_only (e : Event) : option string :=
  match e with
  | RoomLock rid _ | RoomUnlock rid | WhiteboardEnable rid | WhiteboardDisable rid
  | WhiteboardAllowUser rid _ _ | MakeHost rid _ | HandLowerAll rid
  | ModeratorMuteUser rid _ | ModeratorRemoveUser rid _ => Some rid
  | _ => None
  end.

(** The input is a chat message of some socket, or a reaction of some socket
    whose payload is an object. *)
Definition chat_or_reaction (i : Input) : bool :=
  match i with
  | FromSocket _ _ (ChatSend _ _ _) | FromSocket _ _ (ReactionSend _ (JObj _) _) => true
  | _ => false
  end.

(** The cleanup scheduler's test on a room at the clock reading [now]. *)
Definition idle (now : N) (r : Room) : Prop :=
  lastActivity r ≠ 0%N ∧ (Z.of_N now - Z.of_N (lastActivity r) > ROOM_TIMEOUT)%Z.

(** The room a first join of [uid] creates. *)
Definition opened_room (uid uname : string) (now : N) : Room :=
  mkRoom false None (Some uid) [(uid, mkMember uid uname true true false)]
         [] None ({[uid]} ∪ ∅) now ∅.

(** What an admitted join sends: the snapshot and the whiteboard to the
    sender, the member list to the others in the room. *)
Definition join_answer (sid rid uid : string) (room : Room) : list Emission :=
  [ emit sid (EvRoomState (locked room) (hostId room) (map_values (members room))
                          (Some (bool_decide (uid ∈ allowedUsers room))));
    emit sid (EvWhiteboardState (whiteboardDrawings room) (whiteboardBackground room));
    socket_to sid rid (EvRoomMembers (map_values (members room))) ].

(** The background image of room [rid]; none when the registry has no such
    room. *)
Definition background_of (s : Server) (rid : string) : option string :=
  rooms s !! rid ≫= whiteboardBackground.

(** The drawing operation the relay stores and relays for the payload [o]
    of user [uid]: [drawing.id = ...]. *)
Definition ingested (uid : string) (now : N) (rnd : string) (o : JsObj) : JsObj :=
  map_set "id" (VStr (fresh_id uid now rnd)) o.

(** ** Scenarios *)

(** [H] and [A] are in room [r]; [A] leaves, and a [host:make-host] of [H]
    naming [A] arrives after that. *)
Definition late_make_host_run : list Input :=
  [ FromSocket "s1" 1000 (JoinRoom "r" "H" "Hana" None);
    FromSocket "s2" 2000 (JoinRoom "r" "A" "Ali" None);
    FromSocket "s2" 3000 Disconnect;
    FromSocket "s1" 3001 (MakeHost "r" "A") ].

(** [H], [A] and [B] join room [r] in this order; [H] makes [B] host, [B]
    leaves, then [A] hands the role back to [H]. *)
Definition handover_run : list Input :=
  [ FromSocket "s1" 1000 (JoinRoom "r" "H" "Hana" None);
    FromSocket "s2" 2000 (JoinRoom "r" "A" "Ali" None);
    FromSocket "s3" 3000 (JoinRoom "r" "B" "Bo" None);
    FromSocket "s1" 4000 (MakeHost "r" "B");
    FromSocket "s3" 5000 Disconnect;
    FromSocket "s2" 6000 (MakeHost "r" "H") ].

(** [H], [A] and [B] join room [r] in this order. *)
Definition three_joined_run : list Input :=
  [ FromSocket "s1" 1000 (JoinRoom "r" "H" "Hana" None);
    FromSocket "s2" 2000 (JoinRoom "r" "A" "Ali" None);
    FromSocket "s3" 3000 (JoinRoom "r" "B" "Bo" None) ].

(** [H] opens room [r] at 1000 ms and [A] joins it at 2000 ms. *)
Definition two_joined_run : list Input :=
  [ FromSocket "s1" 1000 (JoinRoom "r" "H" "Hana" None);
    FromSocket "s2" 2000 (JoinRoom "r" "A" "Ali" None) ].

Definition two_joined : Server := run_state init two_joined_run.

(** After that, [A] sends a chat message at 3000 ms. *)
Definition chatted : Server :=
  run_state two_joined
    [ FromSocket "s2" 3000 (ChatSend "r" (JObj [("text", VStr "hello")]) "k3j2x9q0a") ].





(** [H] opens room [r]. *)
Definition one_joined : Server :=
  run_state init [ FromSocket "s1" 1000 (JoinRoom "r" "H" "Hana" None) ].

(** The reduced relay after [H] has opened room [r]. *)
Definition basic_one_joined : Basic.Server :=
  (Basic.join_room "s1" "r" "H" None 1000 (Basic.mkServer ∅ ∅)).1.

(** The message [chat:send] of the full relay broadcasts for the payload
    [o]: [{...message, isMe: false}] after [message.id = ...]. *)
Definition relayed_chat (uid : string) (now : N) (rnd : string) (o : JsObj) : JsObj :=
  map_set "isMe" (VBool false) (map_set "id" (VStr (fresh_id uid now rnd)) o).

(** The answer to a chat message over the rate limit. *)
Definition rate_limited (sid : string) : list Emission :=
  [emit sid (EvError "Message rate limit exceeded")].

Definition basic_rate_limited (sid : string) : list Basic.Emission :=
  [Basic.emit sid (Basic.EvError "Message rate limit exceeded")].

(** [H] draws a line and a circle within the same millisecond, and
    [Math.random] yields the same suffix both times. *)
Definition same_suffix_run : list Input :=
  [ FromSocket "s1" 5000 (WhiteboardDrawing "r" (JObj [("kind", VStr "line")]) "k3x9");
    FromSocket "s1" 5000 (WhiteboardDrawing "r" (JObj [("kind", VStr "circle")]) "k3x9") ].

(** [A] is connected twice (two tabs); the second tab leaves, which removes
    [A] from [members], and the first tab raises its hand. *)
Definition second_tab_run : list Input :=
  [ FromSocket "s1" 1000 (JoinRoom "r" "H" "Hana" None);
    FromSocket "s2" 2000 (JoinRoom "r" "A" "Ali" None);
    FromSocket "s3" 3000 (JoinRoom "r" "A" "Ali" None);
    FromSocket "s3" 4000 Disconnect;
    FromSocket "s2" 5000 (HandRaise "r") ].

(** Hands go up and down in room [r], and a member with a raised hand
    leaves. *)
Definition hands_run : list Input :=
  [ FromSocket "s1" 1000 (JoinRoom "r" "H" "Hana" None);
    FromSocket "s2" 2000 (JoinRoom "r" "A" "Ali" None);
    FromSocket "s3" 3000 (JoinRoom "r" "B" "Bo" None);
    FromSocket "s2" 4000 (HandRaise "r");
    FromSocket "s3" 5000 (HandRaise "r");
    FromSocket "s2" 6000 Disconnect;
    FromSocket "s1" 7000 (HandRaise "r");
    FromSocket "s1" 8000 (HandLower "r") ].

(** [H] opens room [r], lets [A] draw, and makes [B] host. *)
Definition permissions_run : list Input :=
  [ FromSocket "s1" 1000 (JoinRoom "r" "H" "Hana" None);
    FromSocket "s2" 2000 (JoinRoom "r" "A" "Ali" None);
    FromSocket "s3" 3000 (JoinRoom "r" "B" "Bo" None);
    FromSocket "s1" 4000 (WhiteboardAllowUser "r" "A" true);
    FromSocket "s1" 5000 (MakeHost "r" "B") ].

(** [A] chats at 900,000 ms and at 1,700,000 ms. *)
Definition chat_only_run : list Input :=
  [ FromSocket "s2" 900000 (ChatSend "r" (JObj [("text", VStr "hi")]) "a1");
    FromSocket "s2" 1700000 (ChatSend "r" (JObj [("text", VStr "yo")]) "b2") ].

(** * Properties *)

(** ** Insertion-ordered maps *)

Section OrderedMapFacts.
Context {V : Type}.
Implicit Types (m : list (string * V)) (k : string).

Lemma map_keys_update (f : V -> V) k m :
  map_keys (map_update f k m) = map_keys m.
Proof.
  induction m as [|[k' v'] m IH]; simpl; [done|].
  case_decide; simpl; [done|]. f_equal. exact IH.
Qed.

(** With distinct keys, the in-place update is a pointwise map. *)
Lemma map_update_fmap (f : V -> V) k m :
  NoDup (map_keys m) ->
  map_update f k m = (λ e, if decide (k = e.1) then (e.1, f e.2) else e) <$> m.
Proof.
  induction m as [|[k' v'] m IH]; simpl; [done|].
  intros Hnd. apply NoDup_cons in Hnd as [Hk' Hnd].
  case_decide as Hk; simpl.
  - subst k'. f_equal. clear IH.
    induction m as [|[k2 v2] m IH2]; simpl; [done|].
    simpl in Hk'. apply not_elem_of_cons in Hk' as [Hne Hk'].
    apply NoDup_cons in Hnd as [_ Hnd].
    rewrite decide_False by done. f_equal. by apply IH2.
  - f_equal. by apply IH.
Qed.

Lemma map_delete_filter k m :
  map_delete k m = filter (λ e, e.1 ≠ k) m.
Proof.
  induction m as [|[k' v'] m IH]; simpl; [done|].
  case_decide as Hk.
  - subst k'. rewrite filter_cons_False by (simpl; tauto). done.
  - rewrite filter_cons_True by (simpl; congruence). by rewrite IH.
Qed.

Lemma elem_of_map_delete e k m :
  e ∈ map_delete k m <-> e ∈ m ∧ e.1 ≠ k.
Proof. rewrite map_delete_filter, list_elem_of_filter. tauto. Qed.

Lemma elem_of_keys_delete x k m :
  x ∈ map_keys (map_delete k m) <-> x ∈ map_keys m ∧ x ≠ k.
Proof.
  unfold map_keys. rewrite !list_elem_of_fmap. split.
  - intros [e [-> He]]. apply elem_of_map_delete in He as [He Hne].
    split; [by exists e | done].
  - intros [[e [-> He]] Hne]. exists e. split; [done|].
    by apply elem_of_map_delete.
Qed.

Lemma NoDup_keys_delete k m :
  NoDup (map_keys m) -> NoDup (map_keys (map_delete k m)).
Proof.
  induction m as [|[k' v'] m IH]; simpl; [done|].
  intros Hnd. apply NoDup_cons in Hnd as [Hk' Hnd].
  case_decide; [by apply IH|]. simpl. apply NoDup_cons. split; [|by apply IH].
  intros Hin. apply elem_of_keys_delete in Hin as [Hin _]. done.
Qed.

(** [set] keeps the order of the keys present and appends a new key. *)
Lemma map_keys_set k (v : V) m :
  map_keys (map_set k v m) =
  if bool_decide (k ∈ map_keys m) then map_keys m else map_keys m ++ [k].
Proof.
  induction m as [|[k' v'] m IH]; simpl; [done|].
  destruct (decide (k = k')) as [Hk|Hk]; simpl.
  - subst k'. rewrite bool_decide_eq_true_2 by left. done.
  - change ((map_set k v m).*1) with (map_keys (map_set k v m)).
    change (m.*1) with (map_keys m). rewrite IH.
    destruct (decide (k ∈ map_keys m)) as [Hin|Hin].
    + rewrite !bool_decide_eq_true_2; [done| by right | done].
    + rewrite !bool_decide_eq_false_2; [done| |done].
      intros Hc. apply elem_of_cons in Hc as [?|?]; done.
Qed.

Lemma elem_of_keys_set x k (v : V) m :
  x ∈ map_keys (map_set k v m) <-> x = k ∨ x ∈ map_keys m.
Proof.
  rewrite map_keys_set. case_bool_decide as Hin.
  - split; [tauto|]. intros [->|?]; done.
  - rewrite elem_of_app, list_elem_of_singleton. tauto.
Qed.

Lemma NoDup_keys_set k (v : V) m :
  NoDup (map_keys m) -> NoDup (map_keys (map_set k v m)).
Proof.
  intros Hnd. rewrite map_keys_set. case_bool_decide as Hin; [done|].
  apply NoDup_app. split_and!; [done| |apply NoDup_singleton].
  intros x Hx Hx'. apply list_elem_of_singleton in Hx'. by subst.
Qed.

(** An entry of the map after [set] is the new entry or an old entry under
    another key. *)
Lemma elem_of_map_set e k (v : V) m :
  NoDup (map_keys m) ->
  e ∈ map_set k v m -> e = (k, v) ∨ (e ∈ m ∧ e.1 ≠ k).
Proof.
  induction m as [|[k' v'] m IH]; simpl.
  - intros _ He. apply list_elem_of_singleton in He. by left.
  - intros Hnd. apply NoDup_cons in Hnd as [Hk' Hnd]. case_decide as Hk.
    + subst k'. intros He. apply elem_of_cons in He as [->|He]; [by left|].
      right. split; [by right|]. intros Heq. apply Hk'.
      unfold map_keys. apply list_elem_of_fmap. exists e. by split.
    + intros He. apply elem_of_cons in He as [->|He].
      * right. split; [by left | simpl; congruence].
      * destruct (IH Hnd He) as [?|[? ?]]; [by left|].
        right. split; [by right|done].
Qed.

Lemma map_get_Some_elem k (v : V) m :
  map_get k m = Some v -> (k, v) ∈ m.
Proof.
  induction m as [|[k' v'] m IH]; simpl; [done|].
  case_decide as Hk.
  - intros [= ->]. subst. by left.
  - intros Hg. right. by apply IH.
Qed.

Lemma map_get_None k m :
  map_get k m = None <-> k ∉ map_keys m.
Proof.
  induction m as [|[k' v'] m IH]; simpl.
  - split; [intros _ Hin; by apply elem_of_nil in Hin | done].
  - case_decide as Hk.
    + subst. split; [done|]. intros Hn. exfalso. apply Hn. by left.
    + rewrite IH. rewrite not_elem_of_cons. unfold map_keys. tauto.
Qed.
End OrderedMapFacts.

(** ** The registry *)

#[local] Arguments getOrCreateRoom : simpl never.
#[local] Arguments failover : simpl never.
#[local] Arguments leave_room : simpl never.

Lemma run_state_nil s : run_state s [] = s.
Proof. done. Qed.

Lemma run_state_cons s i rest :
  run_state s (i :: rest) =
  if exits s i then (step s i).1 else run_state (step s i).1 rest.
Proof.
  unfold run_state. simpl. destruct (step s i) as [s1 o1]. simpl.
  destruct (exits s i); [done|]. by destruct (run s1 rest).
Qed.

(** A property that every step keeps holds along the run. *)
Lemma run_state_keeps (P : Server -> Prop) inputs s :
  (forall s i, P s -> P (step s i).1) -> P s -> P (run_state s inputs).
Proof.
  intros Hstep. revert s. induction inputs as [|i inputs IH]; intros s Hs; [done|].
  rewrite run_state_cons. destruct (exits s i); [by apply Hstep|].
  by apply IH, Hstep.
Qed.

Lemma run_state_app s l1 l2 :
  run_exits s l1 = false ->
  run_state s (l1 ++ l2) = run_state (run_state s l1) l2.
Proof.
  revert s. induction l1 as [|i l1 IH]; intros s; [done|].
  simpl. intros [Hi Hl1]%orb_false_elim. rewrite !run_state_cons, Hi. by apply IH.
Qed.

Lemma all_rooms_init P : all_rooms P init.
Proof. intros rid r Hr. simpl in Hr. by rewrite lookup_empty in Hr. Qed.

Lemma all_rooms_exited P : all_rooms P exited.
Proof. apply all_rooms_init. Qed.

Lemma all_rooms_put P rid r s :
  all_rooms P s -> P r -> all_rooms P (put_room rid r s).
Proof.
  intros Hs Hr rid' r'. simpl. rewrite lookup_insert.
  case_decide; [by intros [= <-] | apply Hs].
Qed.

Lemma all_rooms_sockets P rs k k' :
  all_rooms P (mkServer rs k) -> all_rooms P (mkServer rs k').
Proof. done. Qed.

Lemma all_rooms_delete P rid rs k :
  all_rooms P (mkServer rs k) -> all_rooms P (mkServer (delete rid rs) k).
Proof.
  intros Hs rid' r'. simpl. rewrite lookup_delete.
  case_decide; [done | apply Hs].
Qed.

Lemma all_rooms_sweep P now s : all_rooms P s -> all_rooms P (sweep now s).
Proof.
  intros Hs rid r. unfold sweep. simpl. intros Hr.
  apply map_lookup_filter_Some in Hr as [Hr _]. by apply Hs in Hr.
Qed.

(** A property that ignores [lastActivity] and holds of a new room holds of
    what [getOrCreateRoom] returns. *)
Lemma all_rooms_getOrCreateRoom (P : Room -> Prop) rid now s :
  all_rooms P s ->
  P (new_room now) ->
  (forall r t, P r -> P (set_lastActivity t r)) ->
  P (getOrCreateRoom rid now (rooms s)).
Proof.
  intros Hs Hnew Hstamp. unfold getOrCreateRoom. apply Hstamp.
  destruct (rooms s !! rid) as [r|] eqn:Hr; simpl; [by apply Hs in Hr | done].
Qed.

(** ** Well-formed rooms: keys, ids and the host flag *)

Lemma room_wf_new now : room_wf (new_room now).
Proof. split; simpl; [apply NoDup_nil_2 | apply Forall_nil_2]. Qed.

Lemma room_wf_getOrCreateRoom rid now s :
  all_rooms room_wf s -> room_wf (getOrCreateRoom rid now (rooms s)).
Proof.
  intros Hs. apply (all_rooms_getOrCreateRoom room_wf); [done|apply room_wf_new|done].
Qed.

(** Mutating a member's flags other than [isModerator] keeps the room
    well-formed. *)
Lemma room_wf_update (f : Member -> Member) k r :
  (forall m, id (f m) = id m ∧ isModerator (f m) = isModerator m) ->
  room_wf r -> room_wf (set_members (map_update f k (members r)) r).
Proof.
  intros Hf [Hnd Hall]. split; simpl.
  - by rewrite map_keys_update.
  - rewrite map_update_fmap by done. apply Forall_fmap.
    eapply Forall_impl; [exact Hall|]. intros [k' m] (Hid & Hne & Hmod). simpl in *.
    case_decide; [|done]. destruct (Hf m) as [Hfi Hfm].
    unfold entry_ok. simpl. rewrite Hfi, Hfm. done.
Qed.

Lemma room_wf_lower_all r :
  room_wf r ->
  room_wf (set_members (prod_map Datatypes.id (set_handRaised false) <$> members r) r).
Proof.
  intros [Hnd Hall]. split; simpl.
  - unfold map_keys in *. rewrite <- list_fmap_compose.
    erewrite list_fmap_ext; [exact Hnd|]. by intros ? [? ?].
  - apply Forall_fmap. eapply Forall_impl; [exact Hall|]. by intros [k' m].
Qed.

(** With no host, no member carries the flag. *)
Lemma room_wf_no_host r :
  room_wf r -> truthy_opt (hostId r) = false ->
  Forall (λ e, isModerator e.2 = false) (members r).
Proof.
  intros [_ Hall] Hh. eapply Forall_impl; [exact Hall|].
  intros [k m] (_ & Hne & Hmod). simpl in *.
  destruct (isModerator m); [|done]. rewrite Hmod in Hh by done.
  simpl in Hh. unfold truthy in Hh. by rewrite bool_decide_eq_false_2 in Hh.
Qed.

Lemma room_wf_join uid uname r :
  uid ≠ "" -> room_wf r ->
  let r1 :=
    if negb (truthy_opt (hostId r)) then
      set_allowedUsers ({[uid]} ∪ allowedUsers r) (set_hostId (Some uid) r)
    else r in
  room_wf
    (set_members
       (map_set uid
          (mkMember uid uname (strict_eq (hostId r1) uid)
                    (bool_decide (uid ∈ allowedUsers r1))
                    (bool_decide (uid ∈ raisedHands r1)))
          (members r1))
       r1).
Proof.
  intros Huid Hwf r1.
  assert (Hm1 : members r1 = members r) by (subst r1; by destruct (negb _)).
  assert (Hold : Forall (entry_ok (hostId r1)) (members r)).
  { subst r1. destruct (truthy_opt (hostId r)) eqn:Hh; simpl; [apply Hwf|].
    pose proof (room_wf_no_host r Hwf Hh) as Hno.
    destruct Hwf as [_ Hall]. apply Forall_forall. intros e He.
    rewrite Forall_forall in Hall, Hno.
    destruct (Hall e He) as (? & ? & _). specialize (Hno e He).
    split_and!; [done|done|]. by rewrite Hno. }
  destruct Hwf as [Hnd _]. split; simpl; rewrite Hm1.
  - by apply NoDup_keys_set.
  - apply Forall_forall. intros e He.
    apply elem_of_map_set in He as [->|[He _]]; [| |done].
    + split_and!; simpl; [done|done|]. unfold strict_eq.
      intros Hb. by apply bool_decide_eq_true_1 in Hb.
    + rewrite Forall_forall in Hold. by apply Hold.
Qed.

Lemma room_wf_make_host u uid r :
  hostId r = Some u -> room_wf r ->
  room_wf
    (set_allowedUsers ({[uid]} ∪ allowedUsers r)
       (set_members
          (map_update (set_isModerator true) uid
             (map_update (set_isModerator false) u (members r)))
          (set_hostId (Some uid) r))).
Proof.
  intros Hh [Hnd Hall]. split; simpl.
  - by rewrite !map_keys_update.
  - rewrite (map_update_fmap _ uid) by (by rewrite map_keys_update).
    rewrite map_update_fmap by done. rewrite <- list_fmap_compose.
    apply Forall_fmap. eapply Forall_impl; [exact Hall|].
    intros [k m] (Hid & Hne & Hmod). simpl in *. rewrite Hh in Hmod.
    destruct (decide (u = k)) as [->|Hu]; simpl;
      (destruct (decide (uid = k)) as [->|Huid]; simpl;
       [by split_and! | split_and!; [done|done|]; simpl]).
    + done.
    + intros Hm. specialize (Hmod Hm). congruence.
Qed.

(** The hand-over on a room none of whose members carries the flag. *)
Lemma room_wf_failover rid r :
  NoDup (map_keys (members r)) ->
  Forall (λ e, id e.2 = e.1 ∧ e.1 ≠ "" ∧ isModerator e.2 = false) (members r) ->
  room_wf (failover rid r).1.
Proof.
  destruct r as [lk pw h ms ds bg al la rh]. simpl. intros Hnd Hall.
  unfold failover. destruct ms as [|[k m] rest]; simpl.
  - split; simpl; [done | apply Forall_nil_2].
  - apply Forall_cons in Hall as [(Hid & Hne & Hmod) Hall]. simpl in *.
    rewrite Hid. unfold truthy. rewrite bool_decide_eq_false_2 by done. simpl.
    rewrite !decide_True by done. simpl.
    split; simpl; [done|]. apply Forall_cons. split.
    + by split_and!.
    + eapply Forall_impl; [exact Hall|]. intros [k' m'] (? & ? & Hm'). simpl in *.
      split_and!; [done|done|]. simpl. by rewrite Hm'.
Qed.

Lemma room_wf_leave u r :
  room_wf r ->
  room_wf
    (set_raisedHands (raisedHands r ∖ {[u]})
       (set_allowedUsers (allowedUsers r ∖ {[u]})
          (set_members (map_delete u (members r)) r))).
Proof.
  intros [Hnd Hall]. split; simpl.
  - by apply NoDup_keys_delete.
  - rewrite Forall_forall in Hall. apply Forall_forall. intros e He.
    apply elem_of_map_delete in He as [He _]. by apply Hall.
Qed.

(** Once the host has left, no remaining member carries the flag. *)
Lemma room_wf_host_left u r :
  room_wf r -> hostId r = Some u ->
  Forall (λ e, id e.2 = e.1 ∧ e.1 ≠ "" ∧ isModerator e.2 = false)
         (map_delete u (members r)).
Proof.
  intros [_ Hall] Hh. apply Forall_forall. intros [k m] He.
  apply elem_of_map_delete in He as [He Hk]. rewrite Forall_forall in Hall.
  destruct (Hall _ He) as (Hid & Hne & Hmod). simpl in *.
  split_and!; [done|done|]. destruct (isModerator m); [|done].
  rewrite Hh in Hmod. specialize (Hmod eq_refl). congruence.
Qed.

Lemma room_wf_leave_room rid u r :
  room_wf r -> room_wf (leave_room rid u r).1.
Proof.
  intros Hwf. unfold leave_room. unfold strict_eq. case_bool_decide as Hh.
  - simpl in Hh. apply room_wf_failover; simpl.
    + apply NoDup_keys_delete, Hwf.
    + by apply room_wf_host_left.
  - by apply room_wf_leave.
Qed.

(** Names the room [getOrCreateRoom] returns, keeping the fact [lem] proves
    about it. *)
Ltac name_room lem :=
  match goal with
  | |- context [getOrCreateRoom ?rid ?now (rooms ?s)] =>
      let room := fresh "room" in
      let H := fresh "Hroom" in
      pose proof (lem rid now) as H;
      set (room := getOrCreateRoom rid now (rooms s)) in *;
      clearbody room
  end.

(** Peels a handler down to the room it writes back. *)
Ltac handler_cases :=
  repeat match goal with
    | |- context [match session ?sid ?s with _ => _ end] =>
        destruct (session sid s) as [?d|] eqn:?Hsess
    | |- context [if ?b then _ else _] => destruct b eqn:?Hguard
    | |- context [match ?m with JObj _ => _ | JNotObj => _ end] => destruct m
    end; simpl.

Lemma step_room_wf s i : all_rooms room_wf s -> all_rooms room_wf (step s i).1.
Proof.
  intros Hs.
  pose proof (λ rid now, room_wf_getOrCreateRoom rid now s Hs) as Hgoc.
  destruct i as [sid now e|now]; [|by apply all_rooms_sweep].
  destruct e; simpl.
  - done.
  - unfold join_room. destruct (negb (truthy roomId0) || negb (truthy userId0)) eqn:Hv; [done|].
    apply orb_false_elim in Hv as [_ Hu]. apply negb_false_iff in Hu.
    unfold truthy in Hu. apply negb_true_iff, bool_decide_eq_false_1 in Hu.
    name_room Hgoc. destruct (join_blocked _ _ _); simpl.
    + by apply all_rooms_put.
    + apply (all_rooms_put room_wf); [done|].
      by apply (room_wf_join userId0 userName0).
  - unfold room_lock. name_room Hgoc. handler_cases; try done; by apply all_rooms_put.
  - unfold room_unlock. name_room Hgoc. handler_cases; try done; by apply all_rooms_put.
  - unfold chat_send. handler_cases; done.
  - unfold whiteboard_enable, whiteboard_toggle. name_room Hgoc.
    handler_cases; try done; by apply all_rooms_put.
  - unfold whiteboard_disable, whiteboard_toggle. name_room Hgoc.
    handler_cases; try done; by apply all_rooms_put.
  - unfold whiteboard_drawing. name_room Hgoc.
    handler_cases; try done; by apply all_rooms_put.
  - unfold whiteboard_background. name_room Hgoc.
    handler_cases; try done; by apply all_rooms_put.
  - unfold whiteboard_clear. name_room Hgoc.
    handler_cases; try done; by apply all_rooms_put.
  - unfold whiteboard_allow_user. name_room Hgoc.
    destruct (session sid s) as [d|]; [|done].
    destruct (strict_eq _ _); simpl; (apply all_rooms_put; [done|]); [|done].
    by apply (room_wf_update (set_canDraw allow) userId0 (set_allowedUsers _ room)).
  - unfold make_host. name_room Hgoc. destruct (session sid s) as [d|]; [|done].
    unfold strict_eq. case_bool_decide as Hh; simpl; (apply all_rooms_put; [done|]);
      [|done].
    by apply room_wf_make_host.
  - unfold hand_raise. name_room Hgoc. destruct (session sid s) as [d|]; [|done].
    simpl. apply all_rooms_put; [done|].
    by apply (room_wf_update (set_handRaised true) (userId d) (set_raisedHands _ room)).
  - unfold hand_lower. name_room Hgoc. destruct (session sid s) as [d|]; [|done].
    simpl. apply all_rooms_put; [done|].
    by apply (room_wf_update (set_handRaised false) (userId d) (set_raisedHands _ room)).
  - unfold hand_lower_all. name_room Hgoc. destruct (session sid s) as [d|]; [|done].
    destruct (strict_eq _ _); simpl; (apply all_rooms_put; [done|]); [|done].
    by apply (room_wf_lower_all (set_raisedHands ∅ room)).
  - unfold moderator_mute_user, moderator_signal. name_room Hgoc.
    destruct (session sid s) as [d|]; [|done]. simpl. by apply all_rooms_put.
  - unfold moderator_remove_user, moderator_signal. name_room Hgoc.
    destruct (session sid s) as [d|]; [|done]. simpl. by apply all_rooms_put.
  - unfold reaction_send. handler_cases; done.
  - unfold disconnect. simpl.
    destruct (session sid s) as [d|]; [|done].
    destruct (rooms s !! roomId d) as [room|] eqn:Hroom; [|done].
    pose proof (room_wf_leave_room (roomId d) (userId d) room (Hs _ _ Hroom)) as Hwf.
    destruct (members (leave_room _ _ _).1); simpl.
    + by apply all_rooms_delete.
    + by apply all_rooms_put.
Qed.

Lemma run_room_wf inputs : all_rooms room_wf (run_state init inputs).
Proof.
  assert (H : forall s, all_rooms room_wf s -> all_rooms room_wf (run_state s inputs)).
  { induction inputs as [|i rest IH]; intros s Hs; [done|].
    rewrite run_state_cons.
    destruct (exits s i); [by apply step_room_wf | by apply IH, step_room_wf]. }
  apply H, all_rooms_init.
Qed.

(** ** The host is a member *)

Lemma host_inv_present r : host_inv r -> host_present r.
Proof.
  unfold host_inv, host_present. destruct (hostId r) as [h|]; [|done].
  intros Hin _. by exists h.
Qed.

Lemma host_inv_getOrCreateRoom rid now s :
  all_rooms host_inv s -> host_inv (getOrCreateRoom rid now (rooms s)).
Proof.
  intros Hs. by apply (all_rooms_getOrCreateRoom host_inv).
Qed.

Lemma host_inv_keys r r' :
  hostId r' = hostId r -> map_keys (members r') = map_keys (members r) ->
  host_inv r -> host_inv r'.
Proof.
  unfold host_inv. intros -> Hk. destruct (hostId r); [by rewrite Hk|].
  intros Hm. rewrite Hm in Hk. by destruct (members r').
Qed.

(** In a well-formed room whose host is a member, a falsy [hostId] is [null]. *)
Lemma host_inv_falsy r :
  room_wf r -> host_inv r -> truthy_opt (hostId r) = false -> hostId r = None.
Proof.
  intros [_ Hall] Hinv Hf. unfold host_inv in Hinv.
  destruct (hostId r) as [h|]; [|done]. exfalso.
  unfold map_keys in Hinv. apply list_elem_of_fmap in Hinv as [e [-> He]].
  rewrite Forall_forall in Hall. destruct (Hall e He) as (_ & Hne & _).
  simpl in Hf. unfold truthy in Hf. apply negb_false_iff, bool_decide_eq_true_1 in Hf.
  done.
Qed.

Lemma host_inv_join uid (m : Member) r :
  room_wf r -> host_inv r ->
  let r1 :=
    if negb (truthy_opt (hostId r)) then
      set_allowedUsers ({[uid]} ∪ allowedUsers r) (set_hostId (Some uid) r)
    else r in
  host_inv (set_members (map_set uid m (members r1)) r1).
Proof.
  intros Hwf Hinv r1. unfold host_inv. simpl.
  destruct (truthy_opt (hostId r)) eqn:Hh; subst r1; simpl.
  - destruct (hostId r) as [h|] eqn:Hhost; [|done].
    apply elem_of_keys_set. right. unfold host_inv in Hinv. by rewrite Hhost in Hinv.
  - apply elem_of_keys_set. by left.
Qed.

Lemma host_inv_leave_room rid u r :
  room_wf r -> host_inv r -> host_inv (leave_room rid u r).1.
Proof.
  intros Hwf Hinv. unfold leave_room, strict_eq. simpl.
  case_bool_decide as Hh.
  - pose proof (room_wf_host_left u r Hwf Hh) as Hleft.
    destruct r as [lk pw h ms ds bg al la rh]. simpl in *.
    unfold failover. simpl. destruct (map_delete u ms) as [|[k m] rest]; simpl; [done|].
    apply Forall_cons in Hleft as [(Hid & Hne & _) _]. simpl in *.
    rewrite Hid. unfold truthy. rewrite bool_decide_eq_false_2 by done. simpl.
    rewrite !decide_True by done. unfold host_inv. simpl. by left.
  - unfold host_inv in *. simpl. destruct (hostId r) as [h|] eqn:Hhost.
    + apply elem_of_keys_delete. split; [done | congruence].
    + by rewrite Hinv.
Qed.

Lemma sent_by_host_spec sid rid now s d :
  session sid s = Some d ->
  sent_by_host sid rid now s =
  strict_eq (hostId (getOrCreateRoom rid now (rooms s))) (userId d).
Proof. unfold sent_by_host. by intros ->. Qed.

Lemma step_host_inv s i :
  all_rooms room_wf s -> all_rooms host_inv s ->
  make_host_to_member s i = true ->
  all_rooms host_inv (step s i).1.
Proof.
  intros Hwf Hs Hg.
  pose proof (λ rid now, conj (room_wf_getOrCreateRoom rid now s Hwf)
                              (host_inv_getOrCreateRoom rid now s Hs)) as Hgoc.
  destruct i as [sid now e|now]; [|by apply all_rooms_sweep].
  destruct e; simpl.
  - done.
  - unfold join_room. destruct (negb (truthy roomId0) || negb (truthy userId0)); [done|].
    name_room Hgoc. destruct Hroom as [Hw Hi].
    destruct (join_blocked _ _ _); simpl; [by apply all_rooms_put|].
    apply (all_rooms_put host_inv); [done|].
    by apply host_inv_join.
  - unfold room_lock. name_room Hgoc. destruct Hroom as [Hw Hi].
    handler_cases; try done; by apply all_rooms_put.
  - unfold room_unlock. name_room Hgoc. destruct Hroom as [Hw Hi].
    handler_cases; try done; by apply all_rooms_put.
  - unfold chat_send. handler_cases; done.
  - unfold whiteboard_enable, whiteboard_toggle. name_room Hgoc. destruct Hroom as [Hw Hi].
    handler_cases; try done; by apply all_rooms_put.
  - unfold whiteboard_disable, whiteboard_toggle. name_room Hgoc. destruct Hroom as [Hw Hi].
    handler_cases; try done; by apply all_rooms_put.
  - unfold whiteboard_drawing. name_room Hgoc. destruct Hroom as [Hw Hi].
    handler_cases; try done; by apply all_rooms_put.
  - unfold whiteboard_background. name_room Hgoc. destruct Hroom as [Hw Hi].
    handler_cases; try done; by apply all_rooms_put.
  - unfold whiteboard_clear. name_room Hgoc. destruct Hroom as [Hw Hi].
    handler_cases; try done; by apply all_rooms_put.
  - unfold whiteboard_allow_user. name_room Hgoc. destruct Hroom as [Hw Hi].
    destruct (session sid s) as [d|]; [|done].
    destruct (strict_eq _ _); simpl; (apply all_rooms_put; [done|]); [|done].
    eapply host_inv_keys; [| |exact Hi]; simpl; [done | by rewrite map_keys_update].
  - unfold make_host. destruct (session sid s) as [d|] eqn:Hsess; [|done].
    unfold make_host_to_member in Hg.
    rewrite (sent_by_host_spec _ _ _ _ d Hsess) in Hg.
    name_room Hgoc. destruct Hroom as [Hw Hi].
    destruct (strict_eq _ _); simpl; (apply all_rooms_put; [done|]); [|done].
    apply bool_decide_eq_true_1 in Hg. unfold host_inv. simpl.
    by rewrite !map_keys_update.
  - unfold hand_raise. name_room Hgoc. destruct Hroom as [Hw Hi].
    destruct (session sid s) as [d|]; [|done].
    simpl. apply all_rooms_put; [done|].
    eapply host_inv_keys; [| |exact Hi]; simpl; [done | by rewrite map_keys_update].
  - unfold hand_lower. name_room Hgoc. destruct Hroom as [Hw Hi].
    destruct (session sid s) as [d|]; [|done].
    simpl. apply all_rooms_put; [done|].
    eapply host_inv_keys; [| |exact Hi]; simpl; [done | by rewrite map_keys_update].
  - unfold hand_lower_all. name_room Hgoc. destruct Hroom as [Hw Hi].
    destruct (session sid s) as [d|]; [|done].
    destruct (strict_eq _ _); simpl; (apply all_rooms_put; [done|]); [|done].
    eapply host_inv_keys; [| |exact Hi]; simpl; [done|].
    unfold map_keys. rewrite <- list_fmap_compose. apply list_fmap_ext. by intros ? [? ?].
  - unfold moderator_mute_user, moderator_signal. name_room Hgoc. destruct Hroom as [Hw Hi].
    destruct (session sid s) as [d|]; [|done]. simpl. by apply all_rooms_put.
  - unfold moderator_remove_user, moderator_signal. name_room Hgoc. destruct Hroom as [Hw Hi].
    destruct (session sid s) as [d|]; [|done]. simpl. by apply all_rooms_put.
  - unfold reaction_send. handler_cases; done.
  - unfold disconnect. simpl.
    destruct (session sid s) as [d|]; [|done].
    destruct (rooms s !! roomId d) as [room|] eqn:Hroom; [|done].
    pose proof (host_inv_leave_room (roomId d) (userId d) room
                  (Hwf _ _ Hroom) (Hs _ _ Hroom)) as Hi.
    destruct (members (leave_room _ _ _).1); simpl.
    + by apply all_rooms_delete.
    + by apply all_rooms_put.
Qed.

Lemma run_host_inv inputs :
  guarded make_host_to_member init inputs = true ->
  all_rooms host_inv (run_state init inputs).
Proof.
  assert (H : forall s, all_rooms room_wf s -> all_rooms host_inv s ->
                        guarded make_host_to_member s inputs = true ->
                        all_rooms host_inv (run_state s inputs)).
  { induction inputs as [|i rest IH]; intros s Hwf Hs Hg; [done|].
    simpl in Hg. apply andb_true_iff in Hg as [Hg1 Hg2].
    rewrite run_state_cons. destruct (exits s i); [by apply step_host_inv|].
    apply IH; [by apply step_room_wf | by apply step_host_inv | done]. }
  apply H; apply all_rooms_init.
Qed.

(** ** At most one host flag *)

Lemma no_moderator_without_key k (l : list (string * Member)) :
  Forall (λ e, isModerator e.2 = true -> e.1 = k) l ->
  k ∉ map_keys l ->
  filter (λ m, isModerator m = true) (map_values l) = [].
Proof.
  induction l as [|[k' m] l IH]; simpl; [done|].
  intros Hall Hk. apply Forall_cons in Hall as [Hm Hall].
  apply not_elem_of_cons in Hk as [Hne Hk]. simpl in *.
  rewrite filter_cons_False; [by apply IH|].
  intros Hmod. by apply Hne, eq_sym, Hm.
Qed.

Lemma moderators_at_most_one r : room_wf r -> length (moderators r) <= 1.
Proof.
  intros [Hnd Hall]. unfold moderators.
  destruct (hostId r) as [h|] eqn:Hh.
  - assert (Hk : Forall (λ e, isModerator e.2 = true -> e.1 = h) (members r)).
    { eapply Forall_impl; [exact Hall|]. intros e (_ & _ & Hm) Hmod.
      specialize (Hm Hmod). congruence. }
    clear Hall. induction (members r) as [|[k m] l IH]; simpl; [lia|].
    apply NoDup_cons in Hnd as [Hk' Hnd]. apply Forall_cons in Hk as [Hm Hk].
    simpl in *. destruct (decide (isModerator m = true)) as [Hmod|Hmod].
    + rewrite filter_cons_True by done. simpl.
      rewrite (no_moderator_without_key h l Hk); [simpl; lia|].
      by rewrite <- (Hm Hmod).
    + rewrite filter_cons_False by done. by apply IH.
  - assert (Hno : Forall (λ e, isModerator e.2 = false) (members r)).
    { eapply Forall_impl; [exact Hall|]. intros e (_ & _ & Hm).
      destruct (isModerator e.2); [by specialize (Hm eq_refl) | done]. }
    clear Hall Hnd. induction (members r) as [|[k m] l IH]; simpl; [lia|].
    apply Forall_cons in Hno as [Hm Hno]. simpl in *.
    rewrite filter_cons_False by (by rewrite Hm). by apply IH.
Qed.

Lemma moderators_are_host r m :
  room_wf r -> m ∈ moderators r -> hostId r = Some (id m).
Proof.
  intros [_ Hall] Hm. unfold moderators in Hm.
  apply list_elem_of_filter in Hm as [Hmod Hm]. unfold map_values in Hm.
  apply list_elem_of_fmap in Hm as [e [-> He]].
  rewrite Forall_forall in Hall. destruct (Hall e He) as (Hid & _ & Hh).
  rewrite Hid. by apply Hh.
Qed.

(** C1, as amended.  After every sequence of inputs, every room has at most
    one member whose host flag is set, and that member is the one [hostId]
    names.  If moreover every [host:make-host] the host check lets through
    names a current member of the room, then [hostId] is [null] exactly when
    [members] is empty, and when [members] is non-empty [hostId] is a key of
    [members]. *)
Theorem single_host_invariant (inputs : list Input) (rid : string) (r : Room) :
  rooms (run_state init inputs) !! rid = Some r ->
  length (moderators r) <= 1 ∧
  (forall m, m ∈ moderators r -> hostId r = Some (id m)) ∧
  (guarded make_host_to_member init inputs = true ->
   (hostId r = None <-> members r = []) ∧ host_present r).
Proof.
  intros Hr. pose proof (run_room_wf inputs rid r Hr) as Hwf.
  split_and!.
  - by apply moderators_at_most_one.
  - intros m. by apply moderators_are_host.
  - intros Hg. pose proof (run_host_inv inputs Hg rid r Hr) as Hinv.
    split; [|by apply host_inv_present].
    unfold host_inv in Hinv. destruct (hostId r) as [h|]; [|done].
    split; [done|]. intros Hm. rewrite Hm in Hinv. by apply elem_of_nil in Hinv.
Qed.

(** The invariant on a run with two hand-overs and a host failover. *)
Lemma single_host_invariant_witness :
  exists r,
    rooms (run_state init handover_run) !! "r" = Some r ∧
    length (moderators r) <= 1 ∧ host_present r.
Proof.
  assert (Hr : is_Some (rooms (run_state init handover_run) !! "r")).
  { vm_compute. eauto. }
  destruct Hr as [r Hr]. exists r. split; [exact Hr|].
  destruct (single_host_invariant handover_run "r" r Hr) as (H1 & _ & H3).
  split; [exact H1|]. apply H3. vm_compute. reflexivity.
Defined.

(** C1 as stated fails: after [late_make_host_run] the room has the member
    [H], and its [hostId] is [A], which is no key of [members]. *)
Lemma single_host_counterexample :
  exists r,
    rooms (run_state init late_make_host_run) !! "r" = Some r ∧
    map_keys (members r) = ["H"] ∧ hostId r = Some "A" ∧
    "A" ∉ map_keys (members r).
Proof.
  eexists. split; [vm_compute; reflexivity|]. simpl.
  split_and!; [done|done|]. intros Hin. apply list_elem_of_singleton in Hin. done.
Qed.

(** ** Host failover *)

(** The order of [members] is the order of joining: a join that is let in
    appends a new user at the end and leaves a user who is already there in
    place. *)
Lemma join_room_order sid rid uid uname pw now s :
  truthy rid = true -> truthy uid = true ->
  join_blocked (getOrCreateRoom rid now (rooms s)) uid pw = false ->
  exists r',
    rooms (join_room sid rid uid uname pw now s).1 !! rid = Some r' ∧
    map_keys (members r') =
      if bool_decide (uid ∈ map_keys (members (getOrCreateRoom rid now (rooms s))))
      then map_keys (members (getOrCreateRoom rid now (rooms s)))
      else map_keys (members (getOrCreateRoom rid now (rooms s))) ++ [uid].
Proof.
  intros Hrid Huid Hopen. unfold join_room. rewrite Hrid, Huid, Hopen. simpl.
  eexists. split; [apply lookup_insert_eq|]. simpl. rewrite map_keys_set.
  by destruct (negb _).
Qed.

(** C2.  In any reachable state, when the connection of the host leaves and
    [(k, m)] is the first entry of [members] that remains (the oldest in
    insertion order), the room stays in the registry with [hostId = k], the
    entry of [k] carries the host flag and keeps its place, [k] is in the set
    of users allowed to draw, and the room-state snapshot of the updated room
    is sent to the whole room channel. *)
Theorem failover_promotes_earliest (inputs : list Input) (sid : string)
    (d : SocketData) (room : Room) (k : string) (m : Member)
    (rest : list (string * Member)) :
  session sid (run_state init inputs) = Some d ->
  rooms (run_state init inputs) !! roomId d = Some room ->
  hostId room = Some (userId d) ->
  map_delete (userId d) (members room) = (k, m) :: rest ->
  exists room',
    rooms (disconnect sid (run_state init inputs)).1 !! roomId d = Some room' ∧
    hostId room' = Some k ∧
    members room' = (k, set_isModerator true m) :: rest ∧
    k ∈ allowedUsers room' ∧
    io_to (roomId d)
      (EvRoomState (locked room') (Some k) (map_values (members room')) None)
      ∈ (disconnect sid (run_state init inputs)).2.
Proof.
  intros Hsess Hroom Hh Hdel.
  pose proof (run_room_wf inputs _ _ Hroom) as Hwf.
  pose proof (room_wf_host_left _ _ Hwf Hh) as Hleft.
  rewrite Hdel in Hleft. apply Forall_cons in Hleft as [(Hid & Hne & _) _].
  simpl in Hid, Hne.
  unfold disconnect. rewrite Hsess, Hroom. unfold leave_room, strict_eq. simpl.
  rewrite bool_decide_eq_true_2 by done.
  unfold failover. simpl. rewrite Hdel. simpl. rewrite Hid.
  unfold truthy. rewrite bool_decide_eq_false_2 by done. simpl.
  rewrite !decide_True by done. simpl.
  eexists. split; [apply lookup_insert_eq|]. simpl.
  split_and!; [done|done|set_solver|]. by left.
Qed.

(** [H] joins before [A] joins before [B]; when [H] disconnects, the new
    host is [A]. *)
Lemma failover_promotes_earliest_witness :
  exists room',
    rooms (disconnect "s1" (run_state init three_joined_run)).1 !! "r" = Some room' ∧
    hostId room' = Some "A" ∧
    members room' =
      [("A", mkMember "A" "Ali" true false false);
       ("B", mkMember "B" "Bo" false false false)] ∧
    "A" ∈ allowedUsers room' ∧
    io_to "r" (EvRoomState (locked room') (Some "A") (map_values (members room')) None)
      ∈ (disconnect "s1" (run_state init three_joined_run)).2.
Proof.
  assert (Hs : exists d room,
    session "s1" (run_state init three_joined_run) = Some d ∧
    rooms (run_state init three_joined_run) !! roomId d = Some room ∧
    roomId d = "r" ∧ userId d = "H" ∧ hostId room = Some "H" ∧
    map_delete "H" (members room) =
      [("A", mkMember "A" "Ali" false false false);
       ("B", mkMember "B" "Bo" false false false)]).
  { eexists. eexists. split; [vm_compute; reflexivity|].
    split; [vm_compute; reflexivity|]. by vm_compute. }
  destruct Hs as (d & room & Hd & Hroom & Hrid & Hu & Hh & Hdel).
  rewrite <- Hu in Hh, Hdel. rewrite <- Hrid.
  exact (failover_promotes_earliest three_joined_run "s1" d room "A" _ _
           Hd Hroom Hh Hdel).
Defined.

(** ** Refused events *)

Lemma rooms_put_room_lookup rid rid' now s :
  rooms (put_room rid (getOrCreateRoom rid now (rooms s)) s) !! rid' = rooms s !! rid' ∨
  rooms (put_room rid (getOrCreateRoom rid now (rooms s)) s) !! rid' =
    Some (set_lastActivity now (default (new_room now) (rooms s !! rid'))).
Proof.
  simpl. destruct (decide (rid = rid')) as [->|Hne].
  - right. by rewrite lookup_insert_eq.
  - left. by rewrite lookup_insert_ne.
Qed.

Lemma only_looked_up_refl now rs : only_looked_up now rs rs.
Proof. intros rid. by left. Qed.

Lemma only_looked_up_put rid now s :
  only_looked_up now (rooms s)
    (rooms (put_room rid (getOrCreateRoom rid now (rooms s)) s)).
Proof. intros rid'. apply rooms_put_room_lookup. Qed.

(** Closes the cases of a refused event: the session and the guard are
    analysed, and the guard's value contradicts the refusal or leaves the
    silent branch. *)
Ltac refused_cases H :=
  unfold sent_by_host, sent_by_allowed, has_session in H;
  match goal with
  | |- context [session ?sid ?s] => destruct (session sid s) as [?d|] eqn:?Hsess
  end;
  simpl in H |- *;
  [ try (apply negb_true_iff in H; rewrite ?H);
    split_and!; try done; try apply only_looked_up_put
  | split_and!; try done; apply only_looked_up_refl ].

(** C3, as amended.  When the guard of an event's handler refuses it, no
    socket's session changes, every room of the registry is as before or has
    only been looked up (created if absent, [lastActivity] stamped), and
    nothing is sent to anyone but the sender: a refused join and a refused
    chat message are answered with one error signal to the sender, every
    other refused event with nothing at all.  A refused chat message leaves
    the whole state as it was. *)
Theorem refused_event_effects (sid : string) (now : N) (e : Event) (s : Server) :
  precondition_fails sid now e s = true ->
  sockets (handle sid now e s).1 = sockets s ∧
  only_looked_up now (rooms s) (rooms (handle sid now e s).1) ∧
  (if answers_refusal sid e s
   then exists ev, (handle sid now e s).2 = [emit sid ev] ∧ is_error_signal ev = true
   else (handle sid now e s).2 = []) ∧
  match e with
  | ChatSend _ _ _ => (handle sid now e s).1 = s
  | _ => True
  end.
Proof.
  intros Hpf. destruct e; simpl in Hpf; try discriminate; simpl.
  - unfold join_room.
    destruct (negb (truthy roomId0) || negb (truthy userId0)); simpl in *.
    + split_and!; [done|apply only_looked_up_refl| |done]. by eexists.
    + rewrite Hpf. simpl.
      split_and!; [done|apply only_looked_up_put| |done]. by eexists.
  - unfold room_lock. refused_cases Hpf.
  - unfold room_unlock. refused_cases Hpf.
  - unfold chat_send, has_session.
    destruct (session sid s) as [d|] eqn:Hsess; simpl;
      [|split_and!; try done; apply only_looked_up_refl].
    destruct (chat_allowed (lastChatTime d) now); simpl in *.
    + destruct message; [done|]. simpl.
      split_and!; [done|apply only_looked_up_refl| |done]. by eexists.
    + split_and!; [done|apply only_looked_up_refl| |done]. by eexists.
  - unfold whiteboard_enable, whiteboard_toggle. refused_cases Hpf.
  - unfold whiteboard_disable, whiteboard_toggle. refused_cases Hpf.
  - unfold whiteboard_drawing. refused_cases Hpf.
  - unfold whiteboard_background. refused_cases Hpf.
  - unfold whiteboard_clear. refused_cases Hpf.
  - unfold whiteboard_allow_user. refused_cases Hpf.
  - unfold make_host. refused_cases Hpf.
  - unfold hand_raise. refused_cases Hpf.
  - unfold hand_lower. refused_cases Hpf.
  - unfold hand_lower_all. refused_cases Hpf.
  - unfold moderator_mute_user, moderator_signal. refused_cases Hpf.
  - unfold moderator_remove_user, moderator_signal. refused_cases Hpf.
  - unfold reaction_send. refused_cases Hpf.
Qed.

(** A chat message of [A] 900 ms after the accepted one is refused: one
    error signal to [A], nothing else, and the state as it was. *)
Lemma refused_event_effects_witness :
  sockets (handle "s2" 3900 (ChatSend "r" (JObj [("text", VStr "again")]) "zz") chatted).1
    = sockets chatted ∧
  (handle "s2" 3900 (ChatSend "r" (JObj [("text", VStr "again")]) "zz") chatted).2
    = [emit "s2" (EvError "Message rate limit exceeded")] ∧
  (handle "s2" 3900 (ChatSend "r" (JObj [("text", VStr "again")]) "zz") chatted).1
    = chatted.
Proof.
  assert (Hpf : precondition_fails "s2" 3900
                  (ChatSend "r" (JObj [("text", VStr "again")]) "zz") chatted = true)
    by (vm_compute; reflexivity).
  destruct (refused_event_effects "s2" 3900
              (ChatSend "r" (JObj [("text", VStr "again")]) "zz") chatted Hpf)
    as (H1 & _ & _ & H4).
  split; [exact H1|]. split; [|exact H4]. vm_compute. reflexivity.
Defined.

(** C3 as stated fails: [room:lock] from [A], who is not the host, is
    refused without any error signal, and the look-up of the room has moved
    its [lastActivity] from 2000 to 9000. *)
Lemma refused_event_counterexample :
  precondition_fails "s2" 9000 (RoomLock "r" "pw") two_joined = true ∧
  (handle "s2" 9000 (RoomLock "r" "pw") two_joined).2 = [] ∧
  lastActivity <$> rooms two_joined !! "r" = Some 2000%N ∧
  lastActivity <$> rooms (handle "s2" 9000 (RoomLock "r" "pw") two_joined).1 !! "r"
    = Some 9000%N.
Proof. vm_compute. done. Qed.

(** The reduced relay refuses [room:lock] the same way. *)
Lemma basic_room_lock_refused sid rid pw now s d :
  Basic.session sid s = Some d ->
  strict_eq (Basic.hostId (Basic.getOrCreateRoom rid now (Basic.rooms s))) (Basic.userId d)
    && truthy pw = false ->
  Basic.room_lock sid rid pw now s =
    (Basic.put_room rid (Basic.getOrCreateRoom rid now (Basic.rooms s)) s, []).
Proof. intros Hd Hg. unfold Basic.room_lock. by rewrite Hd, Hg. Qed.

(** ** Lock and join *)

Lemma getOrCreateRoom_found rid now rs r :
  rs !! rid = Some r -> getOrCreateRoom rid now rs = set_lastActivity now r.
Proof. intros Hr. unfold getOrCreateRoom. by rewrite Hr. Qed.

Lemma session_truthy sid s d :
  session sid s = Some d -> userId d ≠ "" ∧ roomId d ≠ "".
Proof.
  unfold session. destruct (data (get_socket sid s)) as [d'|]; [|done].
  destruct (truthy (userId d')) eqn:Hu; [|done].
  destruct (truthy (roomId d')) eqn:Hr; [|done].
  intros [= <-]. unfold truthy in *.
  apply negb_true_iff, bool_decide_eq_false_1 in Hu.
  apply negb_true_iff, bool_decide_eq_false_1 in Hr. done.
Qed.

Lemma truthy_true s : s ≠ "" -> truthy s = true.
Proof. intros Hs. unfold truthy. by rewrite bool_decide_eq_false_2. Qed.

(** C4, as amended.  Let the host of room [rid] lock it with a non-empty
    password [p].  Then a join of a user [uid] other than the host with
    password [p] is let in: [uid] is a key of [members], and the sender gets
    the room snapshot and the whiteboard replay.  A join with anything but
    [p] (no password, or another one) is answered with the password error
    alone, and leaves [members] and every session as they were. *)
Theorem lock_round_trip (s : Server) (hsid jsid rid p uid uname : string)
    (pw : option string) (t1 t2 : N) (d : SocketData) (room : Room) :
  session hsid s = Some d ->
  rooms s !! rid = Some room ->
  hostId room = Some (userId d) ->
  p ≠ "" -> rid ≠ "" -> uid ≠ "" -> uid ≠ userId d ->
  let s1 := (room_lock hsid rid p t1 s).1 in
  (exists room',
     rooms (join_room jsid rid uid uname (Some p) t2 s1).1 !! rid = Some room' ∧
     locked room' = true ∧
     uid ∈ map_keys (members room') ∧
     (join_room jsid rid uid uname (Some p) t2 s1).2 =
       [ emit jsid (EvRoomState true (Some (userId d)) (map_values (members room'))
                                (Some (bool_decide (uid ∈ allowedUsers room))));
         emit jsid (EvWhiteboardState (whiteboardDrawings room)
                                      (whiteboardBackground room));
         socket_to jsid rid (EvRoomMembers (map_values (members room'))) ]) ∧
  (pw ≠ Some p ->
   (join_room jsid rid uid uname pw t2 s1).2 = [emit jsid EvPasswordRequired] ∧
   sockets (join_room jsid rid uid uname pw t2 s1).1 = sockets s ∧
   exists room',
     rooms (join_room jsid rid uid uname pw t2 s1).1 !! rid = Some room' ∧
     members room' = members room).
Proof.
  intros Hd Hroom Hh Hp Hrid Huid Hne s1.
  destruct (session_truthy _ _ _ Hd) as [Hhost _].
  assert (Hs1 : s1 = put_room rid (set_locked true (Some p) (set_lastActivity t1 room)) s).
  { subst s1. unfold room_lock. rewrite Hd.
    rewrite (getOrCreateRoom_found _ _ _ _ Hroom). simpl. unfold strict_eq.
    rewrite Hh, bool_decide_eq_true_2 by done. by rewrite truthy_true. }
  assert (Hgoc : getOrCreateRoom rid t2 (rooms s1) =
                 set_lastActivity t2 (set_locked true (Some p) (set_lastActivity t1 room))).
  { apply getOrCreateRoom_found. rewrite Hs1. simpl. apply lookup_insert_eq. }
  split.
  - unfold join_room. rewrite Hgoc. rewrite !truthy_true by done. simpl.
    unfold join_blocked, strict_eq. simpl. rewrite Hh. simpl.
    rewrite truthy_true by done. simpl.
    rewrite (bool_decide_eq_false_2 (Some (userId d) = Some uid)) by congruence.
    rewrite bool_decide_eq_true_2 by done. simpl.
    eexists. split; [apply lookup_insert_eq|]. simpl.
    split_and!; [done| |by rewrite Hh]. apply elem_of_keys_set. by left.
  - intros Hpw. unfold join_room. rewrite Hgoc. rewrite !truthy_true by done. simpl.
    unfold join_blocked, strict_eq. simpl. rewrite Hh. simpl.
    rewrite truthy_true by done. simpl.
    rewrite (bool_decide_eq_false_2 (Some (userId d) = Some uid)) by congruence.
    assert (Hneq : (match pw with
                    | Some b => negb (bool_decide (p = b))
                    | None => true
                    end) = true).
    { destruct pw as [q|]; [|done].
      rewrite bool_decide_eq_false_2; [done | congruence]. }
    rewrite Hneq. simpl. split_and!; [done| by rewrite Hs1 |].
    eexists. split; [apply lookup_insert_eq | done].
Qed.

(** [H] locks room [r] with [secret]; [A] joins with [secret] and is let in,
    and is refused with [guess]. *)
Lemma lock_round_trip_witness :
  (exists room',
     rooms (join_room "s2" "r" "A" "Ali" (Some "secret") 3000
              (room_lock "s1" "r" "secret" 2000 one_joined).1).1 !! "r" = Some room' ∧
     map_keys (members room') = ["H"; "A"]) ∧
  (join_room "s2" "r" "A" "Ali" (Some "guess") 3000
     (room_lock "s1" "r" "secret" 2000 one_joined).1).2
    = [emit "s2" EvPasswordRequired].
Proof.
  assert (Hs : exists d room,
            session "s1" one_joined = Some d ∧ userId d = "H" ∧
            rooms one_joined !! "r" = Some room ∧ hostId room = Some "H").
  { eexists. eexists. split; [vm_compute; reflexivity|]. split; [done|].
    split; [vm_compute; reflexivity | done]. }
  destruct Hs as (d & room & Hd & Hu & Hroom & Hh). rewrite <- Hu in Hh.
  assert (Hne : "A" ≠ userId d) by (by rewrite Hu).
  destruct (lock_round_trip one_joined "s1" "s2" "r" "secret" "A" "Ali"
              (Some "guess") 2000 3000 d room Hd Hroom Hh
              ltac:(done) ltac:(done) ltac:(done) Hne) as [Hyes Hno].
  split.
  - eexists. split; [vm_compute; reflexivity | done].
  - apply Hno. done.
Defined.

(** C4 as stated fails for the empty password: [room:lock] with [""] is
    dropped, so the room stays open and a join with any password is let
    in. *)
Lemma lock_round_trip_counterexample :
  exists room',
    rooms (join_room "s2" "r" "A" "Ali" (Some "guess") 3000
             (room_lock "s1" "r" "" 2000 one_joined).1).1 !! "r" = Some room' ∧
    locked room' = false ∧
    map_keys (members room') = ["H"; "A"] ∧
    Some "guess" ≠ Some "" ∧
    event <$> (join_room "s2" "r" "A" "Ali" (Some "guess") 3000
                 (room_lock "s1" "r" "" 2000 one_joined).1).2
      = [ EvRoomState false (Some "H")
            [mkMember "H" "Hana" true true false; mkMember "A" "Ali" false false false]
            (Some false);
          EvWhiteboardState [] None;
          EvRoomMembers
            [mkMember "H" "Hana" true true false; mkMember "A" "Ali" false false false] ].
Proof. eexists. split; [vm_compute; reflexivity|]. by vm_compute. Qed.

(** ** The chat rate limit *)

Lemma chat_allowed_first now : chat_allowed None now = true.
Proof. done. Qed.

(** At most 1000 ms after a send recorded at a non-zero clock reading, the
    test fails. *)
Lemma chat_allowed_within (last now : N) :
  last ≠ 0%N -> (Z.of_N now - Z.of_N last <= 1000)%Z ->
  chat_allowed (Some last) now = false.
Proof.
  intros Hl Hd. unfold chat_allowed. simpl.
  rewrite (proj2 (N.eqb_neq last 0)) by done. simpl.
  apply bool_decide_eq_false_2. lia.
Qed.

Lemma chat_allowed_after (last now : N) :
  (Z.of_N now - Z.of_N last > 1000)%Z -> chat_allowed (Some last) now = true.
Proof.
  intros Hd. unfold chat_allowed. simpl.
  rewrite (bool_decide_eq_true_2 _ Hd). apply orb_true_r.
Qed.

Lemma chat_send_accepted sid rid o rnd now s d :
  session sid s = Some d -> chat_allowed (lastChatTime d) now = true ->
  chat_send sid rid (JObj o) rnd now s =
    (put_socket sid
       (mkSocket (Some (set_lastChatTime (Some now) d)) (joined (get_socket sid s))) s,
     [io_to rid (EvChatReceive (relayed_chat (userId d) now rnd o))]).
Proof. intros Hd Ha. unfold chat_send. by rewrite Hd, Ha. Qed.

Lemma chat_send_rejected sid rid m rnd now s d :
  session sid s = Some d -> chat_allowed (lastChatTime d) now = false ->
  chat_send sid rid m rnd now s = (s, rate_limited sid).
Proof. intros Hd Ha. unfold chat_send. by rewrite Hd, Ha. Qed.

(** The session after an accepted send: the same, with the time recorded. *)
Lemma session_after_chat sid now s d :
  session sid s = Some d ->
  session sid
    (put_socket sid
       (mkSocket (Some (set_lastChatTime (Some now) d)) (joined (get_socket sid s))) s)
  = Some (set_lastChatTime (Some now) d).
Proof.
  intros Hd. destruct (session_truthy _ _ _ Hd) as [Hu Hr].
  unfold session, get_socket. simpl. rewrite lookup_insert_eq. simpl.
  by rewrite !truthy_true.
Qed.

Lemma basic_session_truthy sid s d :
  Basic.session sid s = Some d -> Basic.userId d ≠ "" ∧ Basic.roomId d ≠ "".
Proof.
  unfold Basic.session. destruct (Basic.data (Basic.get_socket sid s)) as [d'|]; [|done].
  destruct (truthy (Basic.userId d')) eqn:Hu; [|done].
  destruct (truthy (Basic.roomId d')) eqn:Hr; [|done].
  intros [= <-]. unfold truthy in *.
  apply negb_true_iff, bool_decide_eq_false_1 in Hu.
  apply negb_true_iff, bool_decide_eq_false_1 in Hr. done.
Qed.

Lemma basic_chat_send_accepted sid rid o now s d :
  Basic.session sid s = Some d -> chat_allowed (Basic.lastChatTime d) now = true ->
  Basic.chat_send sid rid (JObj o) now s =
    (Basic.put_socket sid
       (Basic.mkSocket (Some (Basic.mkData (Basic.userId d) (Basic.roomId d) (Some now)))
                       (Basic.joined (Basic.get_socket sid s))) s,
     [Basic.io_to rid (Basic.EvChatReceive o)]).
Proof. intros Hd Ha. unfold Basic.chat_send. by rewrite Hd, Ha. Qed.

Lemma basic_chat_send_rejected sid rid o now s d :
  Basic.session sid s = Some d -> chat_allowed (Basic.lastChatTime d) now = false ->
  Basic.chat_send sid rid (JObj o) now s = (s, basic_rate_limited sid).
Proof. intros Hd Ha. unfold Basic.chat_send. by rewrite Hd, Ha. Qed.

Lemma basic_session_after_chat sid now s d :
  Basic.session sid s = Some d ->
  Basic.session sid
    (Basic.put_socket sid
       (Basic.mkSocket (Some (Basic.mkData (Basic.userId d) (Basic.roomId d) (Some now)))
                       (Basic.joined (Basic.get_socket sid s))) s)
  = Some (Basic.mkData (Basic.userId d) (Basic.roomId d) (Some now)).
Proof.
  intros Hd. destruct (basic_session_truthy _ _ _ Hd) as [Hu Hr].
  unfold Basic.session, Basic.get_socket. simpl. rewrite lookup_insert_eq. simpl.
  by rewrite !truthy_true.
Qed.








(** C10.  Three chat messages of one connection at [t0] (accepted, not
    zero), [t0 + 900] and [t0 + 1100]: the first and the third are
    broadcast, the second alone is refused, and the refused one leaves the
    recorded time at [t0], so that the window of the third is measured from
    the first.  Both relays behave so. *)
Theorem rejected_send_keeps_window (sid rid : string) (o1 o2 o3 : JsObj)
    (rnd1 rnd2 rnd3 : string) (t0 : N)
    (s : Server) (d : SocketData) (bs : Basic.Server) (bd : Basic.SocketData) :
  t0 ≠ 0%N ->
  session sid s = Some d -> chat_allowed (lastChatTime d) t0 = true ->
  Basic.session sid bs = Some bd -> chat_allowed (Basic.lastChatTime bd) t0 = true ->
  let r1 := chat_send sid rid (JObj o1) rnd1 t0 s in
  let r2 := chat_send sid rid (JObj o2) rnd2 (t0 + 900) r1.1 in
  let r3 := chat_send sid rid (JObj o3) rnd3 (t0 + 1100) r2.1 in
  let b1 := Basic.chat_send sid rid (JObj o1) t0 bs in
  let b2 := Basic.chat_send sid rid (JObj o2) (t0 + 900) b1.1 in
  let b3 := Basic.chat_send sid rid (JObj o3) (t0 + 1100) b2.1 in
  (r1.2 = [io_to rid (EvChatReceive (relayed_chat (userId d) t0 rnd1 o1))] ∧
   r2.2 = rate_limited sid ∧
   lastChatTime <$> session sid r2.1 = Some (Some t0) ∧
   r3.2 = [io_to rid (EvChatReceive (relayed_chat (userId d) (t0 + 1100) rnd3 o3))] ∧
   lastChatTime <$> session sid r3.1 = Some (Some (t0 + 1100)%N)) ∧
  (b1.2 = [Basic.io_to rid (Basic.EvChatReceive o1)] ∧
   b2.2 = basic_rate_limited sid ∧
   Basic.lastChatTime <$> Basic.session sid b2.1 = Some (Some t0) ∧
   b3.2 = [Basic.io_to rid (Basic.EvChatReceive o3)] ∧
   Basic.lastChatTime <$> Basic.session sid b3.1 = Some (Some (t0 + 1100)%N)).
Proof.
  intros Ht0 Hd Ha Hbd Hba r1 r2 r3 b1 b2 b3. subst r1 r2 r3 b1 b2 b3.
  pose proof (session_after_chat sid t0 s d Hd) as Hd1.
  pose proof (basic_session_after_chat sid t0 bs bd Hbd) as Hbd1.
  split.
  - rewrite (chat_send_accepted _ _ _ _ _ _ _ Hd Ha). simpl.
    rewrite (chat_send_rejected _ _ _ _ _ _ _ Hd1)
      by (apply chat_allowed_within; [done | simpl; lia]).
    simpl. rewrite (chat_send_accepted _ _ _ _ _ _ _ Hd1)
      by (apply chat_allowed_after; simpl; lia).
    simpl. rewrite Hd1. rewrite (session_after_chat _ _ _ _ Hd1). done.
  - rewrite (basic_chat_send_accepted _ _ _ _ _ _ Hbd Hba). simpl.
    rewrite (basic_chat_send_rejected _ _ _ _ _ _ Hbd1)
      by (apply chat_allowed_within; [done | simpl; lia]).
    simpl. rewrite (basic_chat_send_accepted _ _ _ _ _ _ Hbd1)
      by (apply chat_allowed_after; simpl; lia).
    simpl. rewrite Hbd1. rewrite (basic_session_after_chat _ _ _ _ Hbd1). done.
Qed.

(** Sends at 3000, 3900 and 4100 ms: accepted, refused, accepted. *)
Lemma rejected_send_keeps_window_witness :
  (chat_send "s1" "r" (JObj [("text", VStr "two")]) "b" (3000 + 900)
     (chat_send "s1" "r" (JObj [("text", VStr "one")]) "a" 3000 two_joined).1).2
    = rate_limited "s1" ∧
  (chat_send "s1" "r" (JObj [("text", VStr "three")]) "c" (3000 + 1100)
     (chat_send "s1" "r" (JObj [("text", VStr "two")]) "b" (3000 + 900)
        (chat_send "s1" "r" (JObj [("text", VStr "one")]) "a" 3000 two_joined).1).1).2
    = [io_to "r" (EvChatReceive
                    (relayed_chat "H" (3000 + 1100) "c" [("text", VStr "three")]))].
Proof.
  assert (Hd : session "s1" two_joined = Some (mkData "H" "r" "Hana" None))
    by (vm_compute; reflexivity).
  assert (Hbd : Basic.session "s1" basic_one_joined = Some (Basic.mkData "H" "r" None))
    by (vm_compute; reflexivity).
  destruct (rejected_send_keeps_window "s1" "r"
              [("text", VStr "one")] [("text", VStr "two")] [("text", VStr "three")]
              "a" "b" "c" 3000 two_joined _ basic_one_joined _
              ltac:(done) Hd eq_refl Hbd eq_refl) as [(_ & H2 & _ & H3 & _) _].
  split; [exact H2 | exact H3].
Defined.

(** ** Draw permission *)

Lemma allowedUsers_getOrCreateRoom rid now rs :
  allowedUsers (getOrCreateRoom rid now rs) =
  match rs !! rid with
  | Some room => allowedUsers room
  | None => ∅
  end.
Proof. unfold getOrCreateRoom. by destruct (rs !! rid). Qed.

Lemma drawings_getOrCreateRoom rid now rs :
  whiteboardDrawings (getOrCreateRoom rid now rs) =
  default [] (whiteboardDrawings <$> rs !! rid).
Proof. unfold getOrCreateRoom. by destruct (rs !! rid). Qed.

(** C6.  A [whiteboard:drawing] event of a sender without draw permission
    in the addressed room, whatever its payload, is handled to the end
    without an exception, emits nothing at all and leaves the drawing log of
    every room as it was. *)
Theorem draw_requires_permission (sid rid : string) (drawing : JsAny) (rnd : string)
    (now : N) (s : Server) :
  sender_can_draw sid rid s = false ->
  whiteboard_drawing sid rid drawing rnd now s
    = Returns (handle sid now (WhiteboardDrawing rid drawing rnd) s) ∧
  (handle sid now (WhiteboardDrawing rid drawing rnd) s).2 = [] ∧
  forall rid',
    drawing_log (handle sid now (WhiteboardDrawing rid drawing rnd) s).1 rid'
    = drawing_log s rid'.
Proof.
  intros Hno. unfold handle, whiteboard_drawing, sender_can_draw in *.
  destruct (session sid s) as [d|]; [|done].
  assert (Hgate : bool_decide (userId d ∈ allowedUsers (getOrCreateRoom rid now (rooms s)))
                  = false).
  { rewrite allowedUsers_getOrCreateRoom. destruct (rooms s !! rid); [done|].
    apply bool_decide_eq_false_2. set_solver. }
  rewrite Hgate. simpl. split; [done|]. split; [done|].
  intros rid'. unfold drawing_log. simpl.
  destruct (decide (rid = rid')) as [->|Hne].
  - rewrite lookup_insert_eq. simpl. apply drawings_getOrCreateRoom.
  - by rewrite lookup_insert_ne.
Qed.

(** [A], who was never allowed to draw, draws in room [r]: nothing is sent
    and the log stays empty. *)
Lemma draw_requires_permission_witness :
  (handle "s2" 3000 (WhiteboardDrawing "r" (JObj [("kind", VStr "line")]) "k3x9")
     two_joined).2 = [] ∧
  drawing_log
    (handle "s2" 3000 (WhiteboardDrawing "r" (JObj [("kind", VStr "line")]) "k3x9")
       two_joined).1 "r"
  = drawing_log two_joined "r".
Proof.
  destruct (draw_requires_permission "s2" "r" (JObj [("kind", VStr "line")]) "k3x9"
              3000 two_joined eq_refl) as (_ & Hout & Hlog).
  split; [exact Hout | exact (Hlog "r")].
Defined.

(** The [canDraw] flag of the member record is a copy taken at join time
    and maintained by [whiteboard:allow-user] only: a promoted host is
    allowed to draw while the record still says [false]. *)
Example promoted_host_flag_lags :
  exists room,
    rooms (run_state two_joined [FromSocket "s1" 3000 (MakeHost "r" "A")]) !! "r"
      = Some room ∧
    can_draw room "A" = true ∧
    canDraw <$> map_get "A" (members room) = Some false.
Proof. eexists. split; [vm_compute; reflexivity|]. by vm_compute. Qed.

(** ** Server-assigned identifiers *)

Lemma map_get_set_eq {V} k (v : V) m : map_get k (map_set k v m) = Some v.
Proof.
  induction m as [|[k' v'] m IH]; simpl.
  - by rewrite decide_True.
  - destruct (decide (k = k')) as [Hk|Hk]; simpl.
    + by rewrite decide_True.
    + by rewrite decide_False.
Qed.

Lemma map_get_set_ne {V} k k' (v : V) m :
  k ≠ k' -> map_get k (map_set k' v m) = map_get k m.
Proof.
  intros Hne. induction m as [|[k2 v2] m IH]; simpl.
  - by rewrite decide_False.
  - destruct (decide (k' = k2)) as [->|Hk]; simpl.
    + by rewrite !decide_False.
    + destruct (decide (k = k2)); [done | exact IH].
Qed.

(** The id of a relayed chat message is the one assigned by the server,
    whatever [id] (and [isMe]) the client sent. *)
Lemma relayed_chat_id uid now rnd o :
  obj_id (relayed_chat uid now rnd o) = Some (VStr (fresh_id uid now rnd)).
Proof.
  unfold obj_id, relayed_chat. rewrite map_get_set_ne by done.
  apply map_get_set_eq.
Qed.

Lemma append_cons x (a b : string) : String x a +:+ b = String x (a +:+ b).
Proof. reflexivity. Qed.

Lemma append_nil (b : string) : "" +:+ b = b.
Proof. reflexivity. Qed.

Lemma string_app_assoc (a b c : string) : (a +:+ b) +:+ c = a +:+ b +:+ c.
Proof.
  induction a as [|x a IH]; [done|]. rewrite !append_cons. by rewrite IH.
Qed.

Lemma dashfree_app_dash (a b : string) : dashfree (a +:+ String "-" b) = false.
Proof.
  induction a as [|x a IH]; [done|]. rewrite append_cons. simpl.
  rewrite IH. apply andb_false_r.
Qed.

(** A string is cut in one way only at its last dash. *)
Lemma split_last_dash (a a' b b' : string) :
  dashfree b = true -> dashfree b' = true ->
  a +:+ "-" +:+ b = a' +:+ "-" +:+ b' -> a = a' ∧ b = b'.
Proof.
  change ("-" +:+ b) with (String "-" b). change ("-" +:+ b') with (String "-" b').
  intros Hb Hb'. revert a'. induction a as [|x a IH]; intros [|x' a'];
    rewrite ?append_cons, ?append_nil.
  - by intros [= ->].
  - intros [= <- ->]. by rewrite dashfree_app_dash in Hb.
  - intros [= -> <-]. by rewrite dashfree_app_dash in Hb'.
  - intros [= -> Heq]. destruct (IH _ Heq) as [-> ->]. done.
Qed.

Lemma base36_dashfree s : base36 s = true -> dashfree s = true.
Proof.
  induction s as [|c s IH]; simpl; [done|].
  intros Hc. apply andb_true_iff in Hc as [Hc Hs].
  rewrite (IH Hs), andb_true_r. apply negb_true_iff, bool_decide_eq_false_2.
  intros ->. by vm_compute in Hc.
Qed.

Lemma digits_dashfree (d : Decimal.uint) :
  dashfree (NilEmpty.string_of_uint d) = true.
Proof. induction d; simpl; try done. Qed.

Lemma show_num_dashfree n : dashfree (show_num n) = true.
Proof.
  unfold show_num, NilZero.string_of_uint.
  destruct (N.to_uint n) eqn:Hn; try done; rewrite <- Hn; apply digits_dashfree.
Qed.

Lemma show_num_inj n m : show_num n = show_num m -> n = m.
Proof.
  intros Heq. apply DecimalN.Unsigned.to_uint_inj.
  assert (Hnn : forall k, N.to_uint k ≠ Decimal.Nil).
  { intros [|p]; [done | apply DecimalPos.Unsigned.to_uint_nonnil]. }
  apply (f_equal NilZero.uint_of_string) in Heq. unfold show_num in Heq.
  rewrite !NilZero.usu in Heq by apply Hnn. congruence.
Qed.

Lemma fresh_id_split u t r :
  fresh_id u t r = (u +:+ "-" +:+ show_num t) +:+ "-" +:+ r.
Proof. unfold fresh_id. by rewrite string_app_assoc, !append_cons, append_nil. Qed.

(** Two identifiers are equal only if they were built from the same user
    id, clock reading and suffix. *)
Lemma fresh_id_inj u1 u2 t1 t2 r1 r2 :
  base36 r1 = true -> base36 r2 = true ->
  fresh_id u1 t1 r1 = fresh_id u2 t2 r2 -> u1 = u2 ∧ t1 = t2 ∧ r1 = r2.
Proof.
  intros H1 H2 Heq. rewrite !fresh_id_split in Heq.
  apply split_last_dash in Heq as [Heq ->]; [|by apply base36_dashfree..].
  apply split_last_dash in Heq as [-> Heq]; [|apply show_num_dashfree..].
  by apply show_num_inj in Heq as ->.
Qed.

Lemma failover_payloads rid r : emitted_payloads (failover rid r).2 = [].
Proof.
  unfold failover. destruct (map_values (members r)) as [|m ms]; simpl; [done|].
  destruct (truthy (id m)); [|done]. by destruct (map_get _ _).
Qed.

Lemma leave_room_payloads rid u r : emitted_payloads (leave_room rid u r).2 = [].
Proof.
  unfold leave_room. destruct (strict_eq _ _); [apply failover_payloads | done].
Qed.

(** Every chat message, drawing operation and reaction a handler emits
    carries the id the server built from the sender's session, the clock
    reading and the suffix drawn for the event. *)
Lemma emitted_payloads_assigned sid now e s o :
  o ∈ emitted_payloads (handle sid now e s).2 ->
  exists d, session sid s = Some d ∧
            obj_id o = Some (VStr (fresh_id (userId d) now (event_rnd e))).
Proof.
  destruct e; simpl;
    try (unfold join_room, room_lock, room_unlock, whiteboard_enable, whiteboard_disable,
           whiteboard_toggle, whiteboard_background, whiteboard_clear,
           whiteboard_allow_user, make_host, hand_raise, hand_lower, hand_lower_all,
           moderator_mute_user, moderator_remove_user, moderator_signal;
         handler_cases; intros Ho; by apply elem_of_nil in Ho).
  - unfold chat_send. handler_cases; intros Ho; try (by apply elem_of_nil in Ho).
    apply list_elem_of_singleton in Ho as ->. eexists. split; [done|].
    apply relayed_chat_id.
  - unfold whiteboard_drawing. handler_cases; intros Ho; try (by apply elem_of_nil in Ho).
    apply list_elem_of_singleton in Ho as ->. eexists. split; [done|].
    apply map_get_set_eq.
  - unfold reaction_send. handler_cases; intros Ho; try (by apply elem_of_nil in Ho).
    apply list_elem_of_singleton in Ho as ->. eexists. split; [done|].
    apply map_get_set_eq.
  - unfold disconnect. destruct (session sid s) as [d|]; simpl;
      [|intros Ho; by apply elem_of_nil in Ho].
    destruct (rooms s !! roomId d) as [room|]; simpl;
      [|intros Ho; by apply elem_of_nil in Ho].
    pose proof (leave_room_payloads (roomId d) (userId d) room) as Hp.
    destruct (members (leave_room _ _ _).1); simpl.
    + rewrite Hp. intros Ho. by apply elem_of_nil in Ho.
    + unfold emitted_payloads in *. rewrite omap_app, Hp. simpl.
      intros Ho. by apply elem_of_nil in Ho.
Qed.

Lemma failover_drawings rid r :
  whiteboardDrawings (failover rid r).1 = whiteboardDrawings r.
Proof.
  unfold failover. destruct (map_values (members r)) as [|m ms]; simpl; [done|].
  destruct (truthy (id m)); [|done]. by destruct (map_get _ _).
Qed.

Lemma leave_room_drawings rid u r :
  whiteboardDrawings (leave_room rid u r).1 = whiteboardDrawings r.
Proof.
  unfold leave_room. destruct (strict_eq _ _); [|done]. by rewrite failover_drawings.
Qed.

Lemma step_log_ids s i :
  all_rooms log_has_server_ids s -> all_rooms log_has_server_ids (step s i).1.
Proof.
  intros Hs.
  assert (Hgoc : forall rid now,
             log_has_server_ids (getOrCreateRoom rid now (rooms s))).
  { intros rid now. apply (all_rooms_getOrCreateRoom log_has_server_ids); [done| |done].
    apply Forall_nil_2. }
  destruct i as [sid now e|now]; [|by apply all_rooms_sweep].
  destruct e; simpl;
    try (unfold room_lock, room_unlock, chat_send, whiteboard_enable, whiteboard_disable,
           whiteboard_toggle, whiteboard_background, whiteboard_allow_user, make_host,
           hand_raise, hand_lower, hand_lower_all, moderator_mute_user,
           moderator_remove_user, moderator_signal, reaction_send;
         try name_room Hgoc; handler_cases; try done; by apply all_rooms_put).
  - unfold join_room. destruct (negb (truthy roomId0) || negb (truthy userId0)); [done|].
    name_room Hgoc. destruct (join_blocked _ _ _); simpl; [by apply all_rooms_put|].
    apply (all_rooms_put log_has_server_ids); [done|].
    unfold log_has_server_ids. simpl. by destruct (negb _).
  - unfold whiteboard_drawing. name_room Hgoc.
    handler_cases; try done; (apply all_rooms_put; [done|]); try done.
    unfold log_has_server_ids. simpl. apply Forall_app. split; [done|].
    apply Forall_singleton. eexists _, _, _. apply map_get_set_eq.
  - unfold whiteboard_clear. name_room Hgoc.
    handler_cases; try done; (apply all_rooms_put; [done|]); try done.
    apply Forall_nil_2.
  - unfold disconnect. simpl.
    destruct (session sid s) as [d|]; [|done].
    destruct (rooms s !! roomId d) as [room|] eqn:Hroom; [|done].
    pose proof (leave_room_drawings (roomId d) (userId d) room) as Hd.
    destruct (members (leave_room _ _ _).1); simpl.
    + by apply all_rooms_delete.
    + apply all_rooms_put; [done|]. unfold log_has_server_ids. rewrite Hd.
      by apply (Hs _ _ Hroom).
Qed.

Lemma run_log_ids inputs : all_rooms log_has_server_ids (run_state init inputs).
Proof.
  assert (H : forall s, all_rooms log_has_server_ids s ->
                        all_rooms log_has_server_ids (run_state s inputs)).
  { induction inputs as [|i rest IH]; intros s Hs; [done|].
    rewrite run_state_cons.
    destruct (exits s i); [by apply step_log_ids | by apply IH, step_log_ids]. }
  apply H, all_rooms_init.
Qed.

(** C7, as amended.  Whatever the client sent, each chat message, drawing
    operation and reaction a handler emits carries the identifier the server
    assigns on ingestion, [userId-now-suffix]; so does every operation of a
    drawing log, which is what a joining connection is replayed.  For
    base-36 suffixes, two such identifiers are equal only if they were built
    from the same user id, the same clock reading and the same suffix: events
    that differ in one of the three carry distinct ids. *)
Theorem server_assigned_ids :
  (forall sid now e s o,
     o ∈ emitted_payloads (handle sid now e s).2 ->
     exists d, session sid s = Some d ∧
               obj_id o = Some (VStr (fresh_id (userId d) now (event_rnd e)))) ∧
  (forall inputs rid r o,
     rooms (run_state init inputs) !! rid = Some r ->
     o ∈ whiteboardDrawings r -> has_server_id o) ∧
  (forall u1 u2 t1 t2 r1 r2,
     base36 r1 = true -> base36 r2 = true ->
     fresh_id u1 t1 r1 = fresh_id u2 t2 r2 -> u1 = u2 ∧ t1 = t2 ∧ r1 = r2).
Proof.
  split_and!.
  - apply emitted_payloads_assigned.
  - intros inputs rid r o Hr Ho.
    pose proof (run_log_ids inputs rid r Hr) as Hlog.
    unfold log_has_server_ids in Hlog. rewrite Forall_forall in Hlog. by apply Hlog.
  - apply fresh_id_inj.
Qed.

(** A drawing of [H] at 5000 ms sent with a client-side id: the relayed
    one carries the server's id, and an id built one millisecond later
    differs from it. *)
Lemma server_assigned_ids_witness :
  exists o,
    emitted_payloads
      (handle "s1" 5000
         (WhiteboardDrawing "r" (JObj [("id", VStr "mine"); ("kind", VStr "line")]) "k3x9")
         two_joined).2 = [o] ∧
    obj_id o = Some (VStr "H-5000-k3x9") ∧
    fresh_id "H" 5000 "k3x9" ≠ fresh_id "H" 5001 "k3x9".
Proof.
  destruct server_assigned_ids as (Hemit & _ & Hinj).
  eexists. split; [vm_compute; reflexivity|]. split.
  - destruct (Hemit "s1" 5000%N
                (WhiteboardDrawing "r" (JObj [("id", VStr "mine"); ("kind", VStr "line")]) "k3x9")
                two_joined [("id", VStr "H-5000-k3x9"); ("kind", VStr "line")])
      as (d & Hd & Hid).
    + vm_compute. by left.
    + assert (Hs : session "s1" two_joined = Some (mkData "H" "r" "Hana" None))
        by (vm_compute; reflexivity).
      rewrite Hs in Hd. injection Hd as <-. exact Hid.
  - intros Heq. apply Hinj in Heq as (_ & Ht & _); [done|reflexivity..].
Defined.

(** C7 as stated fails: [same_suffix_run] makes the relay emit two
    different drawing operations under one id. *)
Lemma unique_ids_counterexample :
  exists o1 o2,
    emitted_payloads (run two_joined same_suffix_run).2 = [o1; o2] ∧
    o1 = [("kind", VStr "line"); ("id", VStr "H-5000-k3x9")] ∧
    o2 = [("kind", VStr "circle"); ("id", VStr "H-5000-k3x9")] ∧
    obj_id o1 = obj_id o2 ∧
    drawing_log (run_state two_joined same_suffix_run) "r" = [o1; o2].
Proof. eexists. eexists. split; [vm_compute; reflexivity|]. by vm_compute. Qed.

(** ** Raised hands *)

Lemma hands_getOrCreateRoom rid now s :
  all_rooms hands_are_members s ->
  hands_are_members (getOrCreateRoom rid now (rooms s)).
Proof.
  intros Hs. apply (all_rooms_getOrCreateRoom hands_are_members); [done| |done].
  intros u Hu. simpl in Hu. set_solver.
Qed.

(** Fewer raised hands and more keys keep the inclusion. *)
Lemma hands_mono r r' :
  (forall u, u ∈ raisedHands r' -> u ∈ raisedHands r) ->
  (forall u, u ∈ map_keys (members r) -> u ∈ map_keys (members r')) ->
  hands_are_members r -> hands_are_members r'.
Proof. intros Hh Hk Hr u Hu. by apply Hk, Hr, Hh. Qed.

Lemma failover_keys rid r :
  map_keys (members (failover rid r).1) = map_keys (members r) ∧
  raisedHands (failover rid r).1 = raisedHands r.
Proof.
  unfold failover. destruct (map_values (members r)) as [|m ms]; simpl; [done|].
  destruct (truthy (id m)); [|done].
  destruct (map_get _ _); simpl; [|done]. by rewrite map_keys_update.
Qed.

Lemma hands_leave_room rid u r :
  hands_are_members r -> hands_are_members (leave_room rid u r).1.
Proof.
  intros Hr. unfold leave_room.
  set (r1 := set_raisedHands _ _).
  assert (H1 : hands_are_members r1).
  { intros x Hx. subst r1. simpl in *. apply elem_of_keys_delete.
    apply elem_of_difference in Hx as [Hx Hne]. split; [by apply Hr | set_solver]. }
  destruct (strict_eq (hostId r1) u); [|done].
  destruct (failover_keys rid r1) as [Hk Hh].
  intros x Hx. rewrite Hk. rewrite Hh in Hx. by apply H1.
Qed.

Lemma sent_by_member_spec sid rid now s d :
  session sid s = Some d ->
  sent_by_member sid rid now s =
  bool_decide (userId d ∈ map_keys (members (getOrCreateRoom rid now (rooms s)))).
Proof. unfold sent_by_member. by intros ->. Qed.

Lemma step_hands s i :
  all_rooms hands_are_members s ->
  raise_by_member s i = true ->
  all_rooms hands_are_members (step s i).1.
Proof.
  intros Hs Hg.
  pose proof (λ rid now, hands_getOrCreateRoom rid now s Hs) as Hgoc.
  destruct i as [sid now e|now]; [|by apply all_rooms_sweep].
  destruct e; simpl.
  - done.
  - unfold join_room. destruct (negb (truthy roomId0) || negb (truthy userId0)); [done|].
    name_room Hgoc.
    destruct (join_blocked _ _ _); simpl; [by apply all_rooms_put|].
    apply (all_rooms_put hands_are_members); [done|].
    eapply hands_mono; [| |exact Hroom]; simpl.
    + intros u. by destruct (negb _).
    + intros u Hu. apply elem_of_keys_set. right. by destruct (negb _).
  - unfold room_lock. name_room Hgoc. handler_cases; try done; by apply all_rooms_put.
  - unfold room_unlock. name_room Hgoc. handler_cases; try done; by apply all_rooms_put.
  - unfold chat_send. handler_cases; done.
  - unfold whiteboard_enable, whiteboard_toggle. name_room Hgoc.
    handler_cases; try done; by apply all_rooms_put.
  - unfold whiteboard_disable, whiteboard_toggle. name_room Hgoc.
    handler_cases; try done; by apply all_rooms_put.
  - unfold whiteboard_drawing. name_room Hgoc.
    handler_cases; try done; by apply all_rooms_put.
  - unfold whiteboard_background. name_room Hgoc.
    handler_cases; try done; by apply all_rooms_put.
  - unfold whiteboard_clear. name_room Hgoc.
    handler_cases; try done; by apply all_rooms_put.
  - unfold whiteboard_allow_user. name_room Hgoc.
    destruct (session sid s) as [d|]; [|done].
    destruct (strict_eq _ _); simpl; (apply all_rooms_put; [done|]); [|done].
    eapply hands_mono; [| |exact Hroom]; simpl; [done|].
    intros u. by rewrite map_keys_update.
  - unfold make_host. name_room Hgoc.
    destruct (session sid s) as [d|]; [|done].
    destruct (strict_eq _ _); simpl; (apply all_rooms_put; [done|]); [|done].
    eapply hands_mono; [| |exact Hroom]; simpl; [done|].
    intros u. by rewrite !map_keys_update.
  - unfold hand_raise. destruct (session sid s) as [d|] eqn:Hsess; [|done].
    unfold raise_by_member in Hg. rewrite Hsess in Hg.
    rewrite (sent_by_member_spec _ _ _ _ d Hsess) in Hg.
    name_room Hgoc. apply bool_decide_eq_true_1 in Hg.
    simpl. apply all_rooms_put; [done|].
    intros u Hu. simpl in *. rewrite map_keys_update.
    apply elem_of_union in Hu as [Hu|Hu]; [|by apply Hroom].
    apply elem_of_singleton in Hu. by subst.
  - unfold hand_lower. name_room Hgoc. destruct (session sid s) as [d|]; [|done].
    simpl. apply all_rooms_put; [done|].
    eapply hands_mono; [| |exact Hroom]; simpl.
    + intros u Hu. apply elem_of_difference in Hu. tauto.
    + intros u. by rewrite map_keys_update.
  - unfold hand_lower_all. name_room Hgoc. destruct (session sid s) as [d|]; [|done].
    destruct (strict_eq _ _); simpl; (apply all_rooms_put; [done|]); [|done].
    intros u Hu. simpl in Hu. set_solver.
  - unfold moderator_mute_user, moderator_signal. name_room Hgoc.
    destruct (session sid s) as [d|]; [|done]. simpl. by apply all_rooms_put.
  - unfold moderator_remove_user, moderator_signal. name_room Hgoc.
    destruct (session sid s) as [d|]; [|done]. simpl. by apply all_rooms_put.
  - unfold reaction_send. handler_cases; done.
  - unfold disconnect. simpl.
    destruct (session sid s) as [d|]; [|done].
    destruct (rooms s !! roomId d) as [room|] eqn:Hroom; [|done].
    pose proof (hands_leave_room (roomId d) (userId d) room (Hs _ _ Hroom)) as Hi.
    destruct (members (leave_room _ _ _).1); simpl.
    + by apply all_rooms_delete.
    + by apply all_rooms_put.
Qed.

(** C8, as amended.  After every sequence of inputs in which each
    [hand:raise] comes from a connection whose user is a member of the room
    it addresses, every user in a room's [raisedHands] is a key of its
    [members]: joins, disconnects, hand lowerings and lower-all keep the
    inclusion without any condition. *)
Theorem raised_hands_are_members (inputs : list Input) (rid : string) (r : Room) :
  guarded raise_by_member init inputs = true ->
  rooms (run_state init inputs) !! rid = Some r ->
  hands_are_members r.
Proof.
  intros Hg Hr.
  assert (H : forall s, all_rooms hands_are_members s ->
                        guarded raise_by_member s inputs = true ->
                        all_rooms hands_are_members (run_state s inputs)).
  { clear. induction inputs as [|i rest IH]; intros s Hs Hg; [done|].
    simpl in Hg. apply andb_true_iff in Hg as [Hg1 Hg2].
    rewrite run_state_cons. destruct (exits s i); [by apply step_hands|].
    apply IH; [by apply step_hands | done]. }
  exact (H init (all_rooms_init _) Hg rid r Hr).
Qed.

(** After [hands_run], the hands still up in room [r] belong to members. *)
Lemma raised_hands_are_members_witness :
  exists r,
    rooms (run_state init hands_run) !! "r" = Some r ∧
    elements (raisedHands r) = ["B"] ∧
    map_keys (members r) = ["H"; "B"] ∧
    hands_are_members r.
Proof.
  eexists. split; [vm_compute; reflexivity|].
  split; [vm_compute; reflexivity|]. split; [vm_compute; reflexivity|].
  apply (raised_hands_are_members hands_run "r"); vm_compute; reflexivity.
Defined.

(** C8 as stated fails: after [second_tab_run], [A] is in [raisedHands]
    of room [r] and is no key of its [members]. *)
Lemma raised_hands_counterexample :
  exists r,
    rooms (run_state init second_tab_run) !! "r" = Some r ∧
    elements (raisedHands r) = ["A"] ∧
    map_keys (members r) = ["H"].
Proof.
  eexists. split; [vm_compute; reflexivity|].
  split; vm_compute; reflexivity.
Qed.

(** ** Moderator signals *)

(** A signal sent to a channel that nobody listens on reaches nobody. *)
Lemma recipients_unheard (socks : gmap string Socket) (ch sid : string) :
  (forall sid' k, socks !! sid' = Some k -> in_channel ch sid' k = false) ->
  recipients socks (ToChannelExcept ch sid) = ∅.
Proof.
  intros Hno. simpl. apply set_eq. intros x. split; [|set_solver].
  intros Hx. apply elem_of_difference in Hx as [Hx _].
  apply elem_of_dom in Hx as [k Hk].
  apply map_lookup_filter_Some in Hk as [Hk Hin]. simpl in Hin.
  by rewrite (Hno _ _ Hk) in Hin.
Qed.

(** C9 on [two_joined], where [H] (socket [s1]) is the host and [A]
    (socket [s2]) a member of room [r]: the mute and the remove signal for
    [A] are addressed to the channel named [A]; the sockets of the room
    listen on [r] and on their own ids, so the signal has no recipient. *)
Lemma moderator_signal_unheard :
  session "s2" two_joined = Some (mkData "A" "r" "Ali" None) ∧
  (handle "s1" 3000 (ModeratorMuteUser "r" "A") two_joined).2
    = [socket_to "s1" "A" EvForceMute] ∧
  (handle "s1" 3000 (ModeratorRemoveUser "r" "A") two_joined).2
    = [socket_to "s1" "A" EvForceLeave] ∧
  elements (recipients (sockets (handle "s1" 3000 (ModeratorMuteUser "r" "A") two_joined).1)
              (ToChannelExcept "A" "s1")) = [] ∧
  elements (recipients (sockets two_joined) (ToChannelExcept "r" "s1")) = ["s2"] ∧
  lastActivity <$> rooms two_joined !! "r" = Some 2000%N ∧
  lastActivity <$> rooms (handle "s1" 3000 (ModeratorMuteUser "r" "A") two_joined).1 !! "r"
    = Some 3000%N.
Proof. by vm_compute. Qed.

(** * Further properties of the full relay *)

(** ** The flags of the member records *)

Lemma room_flags_getOrCreateRoom rid now s :
  all_rooms room_flags s -> room_flags (getOrCreateRoom rid now (rooms s)).
Proof.
  intros Hs. apply (all_rooms_getOrCreateRoom room_flags); [done|apply Forall_nil_2|done].
Qed.

(** The flags only depend on the four fields they read. *)
Lemma room_flags_fields r r' :
  hostId r' = hostId r -> members r' = members r ->
  raisedHands r' = raisedHands r -> allowedUsers r' = allowedUsers r ->
  room_flags r -> room_flags r'.
Proof.
  unfold room_flags, flags_ok. intros -> -> -> ->. done.
Qed.

Lemma room_flags_join uid uname r :
  room_wf r -> room_flags r ->
  let r1 :=
    if negb (truthy_opt (hostId r)) then
      set_allowedUsers ({[uid]} ∪ allowedUsers r) (set_hostId (Some uid) r)
    else r in
  room_flags
    (set_members
       (map_set uid
          (mkMember uid uname (strict_eq (hostId r1) uid)
                    (bool_decide (uid ∈ allowedUsers r1))
                    (bool_decide (uid ∈ raisedHands r1)))
          (members r1))
       r1).
Proof.
  intros Hwf Hfl r1.
  assert (Hm1 : members r1 = members r) by (subst r1; by destruct (negb _)).
  assert (Hr1 : raisedHands r1 = raisedHands r) by (subst r1; by destruct (negb _)).
  assert (Ha1 : forall x, x ∈ allowedUsers r -> x ∈ allowedUsers r1).
  { subst r1. destruct (negb _); simpl; [set_solver | done]. }
  assert (Hh1 : forall k, k ≠ uid -> hostId r1 = Some k -> hostId r = Some k).
  { subst r1. destruct (negb _); simpl; [congruence | done]. }
  unfold room_flags. simpl. rewrite Hm1. apply Forall_forall. intros e He.
  apply elem_of_map_set in He as [->|[He Hne]]; [| |apply Hwf].
  - unfold flags_ok. simpl. split_and!.
    + intros Hh. unfold strict_eq. by rewrite bool_decide_eq_true_2.
    + done.
    + intros Hc. by apply bool_decide_eq_true_1 in Hc.
  - unfold room_flags in Hfl. rewrite Forall_forall in Hfl.
    destruct (Hfl e He) as (Hhost & Hhand & Hdraw). unfold flags_ok. simpl. split_and!.
    + intros Hh. by apply Hhost, Hh1.
    + by rewrite Hr1.
    + intros Hc. by apply Ha1, Hdraw.
Qed.

Lemma room_flags_allow_user uid (allow : bool) r :
  room_wf r -> room_flags r ->
  room_flags
    (set_members (map_update (set_canDraw allow) uid (members r))
       (set_allowedUsers
          (if allow then {[uid]} ∪ allowedUsers r else allowedUsers r ∖ {[uid]}) r)).
Proof.
  intros [Hnd _] Hfl. unfold room_flags. simpl.
  rewrite map_update_fmap by done. apply Forall_fmap.
  eapply Forall_impl; [exact Hfl|]. intros [k m] (Hhost & Hhand & Hdraw). simpl in *.
  unfold flags_ok. destruct (decide (uid = k)) as [->|Hne]; simpl.
  - split_and!; [done|done|]. intros ->. set_solver.
  - split_and!; [done|done|]. intros Hc. specialize (Hdraw Hc).
    destruct allow; set_solver.
Qed.

Lemma room_flags_make_host u uid r :
  room_wf r -> room_flags r ->
  room_flags
    (set_allowedUsers ({[uid]} ∪ allowedUsers r)
       (set_members
          (map_update (set_isModerator true) uid
             (map_update (set_isModerator false) u (members r)))
          (set_hostId (Some uid) r))).
Proof.
  intros [Hnd _] Hfl. unfold room_flags. simpl.
  rewrite (map_update_fmap _ uid) by (by rewrite map_keys_update).
  rewrite map_update_fmap by done. rewrite <- list_fmap_compose.
  apply Forall_fmap. eapply Forall_impl; [exact Hfl|].
  intros [k m] (Hhost & Hhand & Hdraw). simpl in *. unfold flags_ok.
  destruct (decide (u = k)) as [->|Hu]; simpl;
    (destruct (decide (uid = k)) as [->|Huid]; simpl;
     (split_and!; [congruence || done | done | intros Hc; specialize (Hdraw Hc); set_solver])).
Qed.

Lemma room_flags_hand (b : bool) u r :
  room_wf r -> room_flags r ->
  room_flags
    (set_members (map_update (set_handRaised b) u (members r))
       (set_raisedHands (if b then {[u]} ∪ raisedHands r else raisedHands r ∖ {[u]}) r)).
Proof.
  intros [Hnd _] Hfl. unfold room_flags. simpl.
  rewrite map_update_fmap by done. apply Forall_fmap.
  eapply Forall_impl; [exact Hfl|]. intros [k m] (Hhost & Hhand & Hdraw). simpl in *.
  unfold flags_ok. destruct (decide (u = k)) as [->|Hne]; simpl.
  - split_and!; [done| |done]. symmetry. destruct b.
    + apply bool_decide_eq_true_2, elem_of_union. left. by apply elem_of_singleton.
    + apply bool_decide_eq_false_2. rewrite elem_of_difference, elem_of_singleton. tauto.
  - split_and!; [done| |done]. rewrite Hhand. apply bool_decide_ext.
    destruct b; rewrite ?elem_of_union, ?elem_of_difference, elem_of_singleton;
      split; try tauto; intros; intuition congruence.
Qed.

Lemma room_flags_lower_all r :
  room_flags r ->
  room_flags
    (set_members (prod_map Datatypes.id (set_handRaised false) <$> members r)
       (set_raisedHands ∅ r)).
Proof.
  intros Hfl. unfold room_flags. simpl. apply Forall_fmap.
  eapply Forall_impl; [exact Hfl|]. intros [k m] (Hhost & Hhand & Hdraw). simpl in *.
  unfold flags_ok. simpl. split_and!; [done| |done].
  symmetry. apply bool_decide_eq_false_2. set_solver.
Qed.

Lemma room_flags_leave u r :
  room_flags r ->
  room_flags
    (set_raisedHands (raisedHands r ∖ {[u]})
       (set_allowedUsers (allowedUsers r ∖ {[u]})
          (set_members (map_delete u (members r)) r))).
Proof.
  intros Hfl. unfold room_flags in *. simpl. rewrite Forall_forall in Hfl.
  apply Forall_forall. intros [k m] He. apply elem_of_map_delete in He as [He Hk].
  destruct (Hfl _ He) as (Hhost & Hhand & Hdraw). simpl in *. unfold flags_ok. simpl.
  split_and!; [done| |].
  - rewrite Hhand. apply bool_decide_ext.
    rewrite elem_of_difference, elem_of_singleton. tauto.
  - intros Hc. specialize (Hdraw Hc).
    rewrite elem_of_difference, elem_of_singleton. tauto.
Qed.

(** The hand-over keeps the flags right on a room whose host has left. *)
Lemma room_flags_failover rid u r :
  hostId r = Some u -> u ∉ map_keys (members r) ->
  Forall (λ e, id e.2 = e.1 ∧ e.1 ≠ "" ∧ isModerator e.2 = false) (members r) ->
  NoDup (map_keys (members r)) ->
  room_flags r -> room_flags (failover rid r).1.
Proof.
  destruct r as [lk pw h ms ds bg al la rh]. simpl.
  intros -> Hu Hall Hnd Hfl. unfold failover. simpl.
  destruct ms as [|[k m] rest]; simpl; [apply Forall_nil_2|].
  apply Forall_cons in Hall as [(Hid & Hne & _) _]. simpl in *.
  rewrite Hid. unfold truthy. rewrite bool_decide_eq_false_2 by done. simpl.
  rewrite !decide_True by done. unfold room_flags in *. simpl.
  apply NoDup_cons in Hnd as [Hk Hnd].
  apply Forall_cons in Hfl as [(Hhost & Hhand & Hdraw) Hfl]. simpl in *.
  apply Forall_cons. split.
  - unfold flags_ok. simpl. split_and!; [done|done|]. intros _. set_solver.
  - rewrite Forall_forall in Hfl. apply Forall_forall. intros [k' m'] He.
    destruct (Hfl _ He) as (Hhost' & Hhand' & Hdraw'). simpl in *.
    unfold flags_ok. simpl. split_and!; [|done|].
    + intros [= ->]. exfalso. apply Hk. unfold map_keys.
      apply list_elem_of_fmap. by exists (k', m').
    + intros Hc. specialize (Hdraw' Hc). set_solver.
Qed.

Lemma room_flags_leave_room rid u r :
  room_wf r -> room_flags r -> room_flags (leave_room rid u r).1.
Proof.
  intros Hwf Hfl. unfold leave_room, strict_eq. case_bool_decide as Hh.
  - simpl in Hh. apply (room_flags_failover rid u); simpl.
    + done.
    + intros Hin. apply elem_of_keys_delete in Hin. tauto.
    + by apply room_wf_host_left.
    + apply NoDup_keys_delete, Hwf.
    + by apply room_flags_leave.
  - by apply room_flags_leave.
Qed.

Lemma step_room_flags s i :
  all_rooms room_wf s -> all_rooms room_flags s ->
  all_rooms room_flags (step s i).1.
Proof.
  intros Hwf Hs.
  pose proof (λ rid now, conj (room_wf_getOrCreateRoom rid now s Hwf)
                              (room_flags_getOrCreateRoom rid now s Hs)) as Hgoc.
  destruct i as [sid now e|now]; [|by apply all_rooms_sweep].
  destruct e; simpl;
    try (unfold room_lock, room_unlock, chat_send, whiteboard_enable, whiteboard_disable,
           whiteboard_toggle, whiteboard_drawing, whiteboard_background, whiteboard_clear,
           moderator_mute_user, moderator_remove_user, moderator_signal, reaction_send;
         try (name_room Hgoc; destruct Hroom as [Hw Hf]);
         handler_cases; try done; by apply all_rooms_put).
  - unfold join_room. destruct (negb (truthy roomId0) || negb (truthy userId0)); [done|].
    name_room Hgoc. destruct Hroom as [Hw Hf].
    destruct (join_blocked _ _ _); simpl; [by apply all_rooms_put|].
    apply (all_rooms_put room_flags); [done|].
    by apply (room_flags_join userId0 userName0).
  - unfold whiteboard_allow_user. name_room Hgoc. destruct Hroom as [Hw Hf].
    destruct (session sid s) as [d|]; [|done].
    destruct (strict_eq _ _); simpl; (apply all_rooms_put; [done|]); [|done].
    by apply (room_flags_allow_user userId0 allow).
  - unfold make_host. name_room Hgoc. destruct Hroom as [Hw Hf].
    destruct (session sid s) as [d|]; [|done].
    destruct (strict_eq _ _); simpl; (apply all_rooms_put; [done|]); [|done].
    by apply room_flags_make_host.
  - unfold hand_raise. name_room Hgoc. destruct Hroom as [Hw Hf].
    destruct (session sid s) as [d|]; [|done].
    simpl. apply all_rooms_put; [done|].
    by apply (room_flags_hand true).
  - unfold hand_lower. name_room Hgoc. destruct Hroom as [Hw Hf].
    destruct (session sid s) as [d|]; [|done].
    simpl. apply all_rooms_put; [done|].
    by apply (room_flags_hand false).
  - unfold hand_lower_all. name_room Hgoc. destruct Hroom as [Hw Hf].
    destruct (session sid s) as [d|]; [|done].
    destruct (strict_eq _ _); simpl; (apply all_rooms_put; [done|]); [|done].
    by apply room_flags_lower_all.
  - unfold disconnect. simpl.
    destruct (session sid s) as [d|]; [|done].
    destruct (rooms s !! roomId d) as [room|] eqn:Hroom; [|done].
    pose proof (room_flags_leave_room (roomId d) (userId d) room
                  (Hwf _ _ Hroom) (Hs _ _ Hroom)) as Hi.
    destruct (members (leave_room _ _ _).1); simpl.
    + by apply all_rooms_delete.
    + by apply all_rooms_put.
Qed.

Lemma run_room_flags inputs : all_rooms room_flags (run_state init inputs).
Proof.
  assert (H : forall s, all_rooms room_wf s -> all_rooms room_flags s ->
                        all_rooms room_flags (run_state s inputs)).
  { induction inputs as [|i rest IH]; intros s Hwf Hs; [done|].
    rewrite run_state_cons. destruct (exits s i); [by apply step_room_flags|].
    apply IH; [by apply step_room_wf | by apply step_room_flags]. }
  apply H; apply all_rooms_init.
Qed.

(** X1.  In every reachable state, a member record carries the host flag
    ([isModerator]) exactly when its key is the room's [hostId]: the member
    list shows one moderator, the host, whenever the host is a member. *)
Theorem moderator_flag_marks_host (inputs : list Input) (rid : string) (r : Room)
    (k : string) (m : Member) :
  rooms (run_state init inputs) !! rid = Some r ->
  (k, m) ∈ members r ->
  (isModerator m = true <-> hostId r = Some k).
Proof.
  intros Hr He.
  destruct (run_room_wf inputs rid r Hr) as [_ Hwf].
  pose proof (run_room_flags inputs rid r Hr) as Hfl.
  unfold room_flags in Hfl. rewrite Forall_forall in Hwf, Hfl.
  destruct (Hwf _ He) as (_ & _ & Hmod). destruct (Hfl _ He) as (Hhost & _ & _).
  simpl in *. split; [exact Hmod | exact Hhost].
Qed.

(** After [handover_run] the host of room [r] is [H] again, and the record
    of [H] is the flagged one. *)
Lemma moderator_flag_marks_host_witness :
  exists r m,
    rooms (run_state init handover_run) !! "r" = Some r ∧
    map_get "H" (members r) = Some m ∧
    hostId r = Some "H" ∧ isModerator m = true.
Proof.
  assert (Hr : exists r m, rooms (run_state init handover_run) !! "r" = Some r ∧
                           map_get "H" (members r) = Some m ∧ hostId r = Some "H").
  { eexists. eexists. split; [vm_compute; reflexivity|]. by vm_compute. }
  destruct Hr as (r & m & Hr & Hm & Hh). exists r, m.
  split; [exact Hr|]. split; [exact Hm|]. split; [exact Hh|].
  apply (moderator_flag_marks_host handover_run "r" r "H" m Hr); [|exact Hh].
  apply map_get_Some_elem. exact Hm.
Defined.

(** X2.  In every reachable state, the [handRaised] flag of a member record
    says whether the member's key is in the room's set of raised hands. *)
Theorem hand_flag_mirrors_raised_hands (inputs : list Input) (rid : string)
    (r : Room) (k : string) (m : Member) :
  rooms (run_state init inputs) !! rid = Some r ->
  (k, m) ∈ members r ->
  handRaised m = bool_decide (k ∈ raisedHands r).
Proof.
  intros Hr He. pose proof (run_room_flags inputs rid r Hr) as Hfl.
  unfold room_flags in Hfl. rewrite Forall_forall in Hfl.
  by destruct (Hfl _ He) as (_ & Hhand & _).
Qed.

(** After [hands_run], [B] still has the hand up and the record says so. *)
Lemma hand_flag_mirrors_raised_hands_witness :
  exists r m,
    rooms (run_state init hands_run) !! "r" = Some r ∧
    map_get "B" (members r) = Some m ∧
    handRaised m = bool_decide ("B" ∈ raisedHands r).
Proof.
  assert (Hr : exists r m, rooms (run_state init hands_run) !! "r" = Some r ∧
                           map_get "B" (members r) = Some m).
  { eexists. eexists. split; [vm_compute; reflexivity|]. by vm_compute. }
  destruct Hr as (r & m & Hr & Hm). exists r, m.
  split; [exact Hr|]. split; [exact Hm|].
  apply (hand_flag_mirrors_raised_hands hands_run "r" r "B" m Hr).
  apply map_get_Some_elem. exact Hm.
Defined.

(** X3.  In every reachable state, a member whose record says [canDraw] is
    in the room's set of users allowed to draw: the member list never shows
    a permission the relay would refuse.  (The converse fails for a
    promoted host, see [promoted_host_flag_lags].) *)
Theorem can_draw_flag_is_sound (inputs : list Input) (rid : string)
    (r : Room) (k : string) (m : Member) :
  rooms (run_state init inputs) !! rid = Some r ->
  (k, m) ∈ members r ->
  canDraw m = true -> can_draw r k = true.
Proof.
  intros Hr He Hc. pose proof (run_room_flags inputs rid r Hr) as Hfl.
  unfold room_flags in Hfl. rewrite Forall_forall in Hfl.
  destruct (Hfl _ He) as (_ & _ & Hdraw). simpl in *.
  unfold can_draw. by apply bool_decide_eq_true_2, Hdraw.
Qed.

(** After [permissions_run], the record of [A] says [canDraw] and [A] is
    allowed to draw. *)
Lemma can_draw_flag_is_sound_witness :
  exists r m,
    rooms (run_state init permissions_run) !! "r" = Some r ∧
    map_get "A" (members r) = Some m ∧
    canDraw m = true ∧ can_draw r "A" = true.
Proof.
  assert (Hr : exists r m, rooms (run_state init permissions_run) !! "r" = Some r ∧
                           map_get "A" (members r) = Some m ∧ canDraw m = true).
  { eexists. eexists. split; [vm_compute; reflexivity|]. by vm_compute. }
  destruct Hr as (r & m & Hr & Hm & Hc). exists r, m.
  split; [exact Hr|]. split; [exact Hm|]. split; [exact Hc|].
  apply (can_draw_flag_is_sound permissions_run "r" r "A" m Hr); [|exact Hc].
  apply map_get_Some_elem. exact Hm.
Defined.

(** ** Sessions and channels *)

Lemma socket_ok_get_socket sid s : sockets_ok s -> socket_ok (get_socket sid s).
Proof.
  intros Hs. unfold get_socket.
  destruct (sockets s !! sid) as [k|] eqn:Hk; simpl; [by apply (Hs sid) | done].
Qed.

Lemma sockets_ok_put sid k s :
  sockets_ok s -> socket_ok k -> sockets_ok (put_socket sid k s).
Proof.
  intros Hs Hk sid' k'. simpl. rewrite lookup_insert.
  case_decide; [by intros [= <-] | apply Hs].
Qed.

Lemma session_data sid s d : session sid s = Some d -> data (get_socket sid s) = Some d.
Proof.
  unfold session. destruct (data (get_socket sid s)) as [d'|]; [|done].
  by destruct (truthy (userId d') && truthy (roomId d')); intros [= <-].
Qed.

Lemma step_sockets_ok s i : sockets_ok s -> sockets_ok (step s i).1.
Proof.
  intros Hs. destruct i as [sid now e|now]; [|done].
  destruct e; simpl;
    try (unfold room_lock, room_unlock, whiteboard_enable, whiteboard_disable,
           whiteboard_toggle, whiteboard_drawing, whiteboard_background, whiteboard_clear,
           whiteboard_allow_user, make_host, hand_raise, hand_lower, hand_lower_all,
           moderator_mute_user, moderator_remove_user, moderator_signal, reaction_send;
         handler_cases; done).
  - apply sockets_ok_put; [done | by apply socket_ok_get_socket].
  - unfold join_room.
    destruct (negb (truthy roomId0) || negb (truthy userId0)) eqn:Hv; [done|].
    apply orb_false_elim in Hv as [Hr Hu].
    apply negb_false_iff in Hr, Hu. unfold truthy in Hr, Hu.
    apply negb_true_iff, bool_decide_eq_false_1 in Hr.
    apply negb_true_iff, bool_decide_eq_false_1 in Hu.
    destruct (join_blocked _ _ _); simpl; [done|].
    intros sid' k'. simpl. rewrite lookup_insert.
    case_decide; [|apply Hs]. intros [= <-]. unfold socket_ok. simpl.
    split_and!; [done|done|]. apply elem_of_union. left. by apply elem_of_singleton.
  - unfold chat_send. destruct (session sid s) as [d|] eqn:Hd; [|done].
    destruct (chat_allowed _ _); [|done]. destruct message; [|done]. simpl.
    pose proof (socket_ok_get_socket sid s Hs) as Hk.
    unfold socket_ok in Hk. rewrite (session_data _ _ _ Hd) in Hk.
    intros sid' k'. simpl. rewrite lookup_insert.
    case_decide; [|apply Hs]. by intros [= <-].
  - unfold disconnect. simpl.
    assert (Hdel : forall rs, sockets_ok (mkServer rs (delete sid (sockets s)))).
    { intros rs sid' k'. simpl. rewrite lookup_delete. case_decide; [done | apply Hs]. }
    destruct (session sid s) as [d|]; [|apply Hdel].
    destruct (rooms s !! roomId d) as [room|]; [|apply Hdel].
    destruct (members (leave_room _ _ _).1); apply Hdel.
Qed.

Lemma run_sockets_ok inputs : sockets_ok (run_state init inputs).
Proof.
  assert (H : forall s, sockets_ok s -> sockets_ok (run_state s inputs)).
  { induction inputs as [|i rest IH]; intros s Hs; [done|].
    rewrite run_state_cons.
    destruct (exits s i); [by apply step_sockets_ok | by apply IH, step_sockets_ok]. }
  apply H. intros sid k Hk. simpl in Hk. by rewrite lookup_empty in Hk.
Qed.

(** X4.  In every reachable state, a connection with a session is among the
    recipients of what the relay sends to the channel of its session's room
    with [io.to(roomId)]: the sender of a chat message gets its own message
    back, and every member connection gets the member lists. *)
Theorem session_hears_its_room (inputs : list Input) (sid : string) (d : SocketData) :
  session sid (run_state init inputs) = Some d ->
  sid ∈ recipients (sockets (run_state init inputs)) (ToChannel (roomId d)).
Proof.
  intros Hd. pose proof (run_sockets_ok inputs) as Hs.
  pose proof (session_data _ _ _ Hd) as Hdata. unfold get_socket in Hdata.
  destruct (sockets (run_state init inputs) !! sid) as [k|] eqn:Hk; [|done].
  simpl in Hdata. pose proof (Hs sid k Hk) as Hok. unfold socket_ok in Hok.
  rewrite Hdata in Hok. destruct Hok as (_ & _ & Hj).
  simpl. apply elem_of_dom. exists k. apply map_lookup_filter_Some.
  split; [done|]. simpl. unfold in_channel.
  rewrite (bool_decide_eq_true_2 _ Hj). apply orb_true_r.
Qed.

(** [A] on socket [s2] hears room [r]. *)
Lemma session_hears_its_room_witness :
  "s2" ∈ recipients (sockets (run_state init two_joined_run)) (ToChannel "r").
Proof.
  exact (session_hears_its_room two_joined_run "s2" (mkData "A" "r" "Ali" None) eq_refl).
Defined.

(** ** The cleanup scheduler *)

Lemma sweep_lookup now s rid r :
  rooms s !! rid = Some r ->
  (idle now r -> rooms (sweep now s) !! rid = None) ∧
  (¬ idle now r -> rooms (sweep now s) !! rid = Some r).
Proof.
  intros Hr. unfold sweep, idle. simpl. split.
  - intros Hidle. apply map_lookup_filter_None. right. intros r' Hr'. simpl.
    rewrite Hr in Hr'. injection Hr' as <-. tauto.
  - intros Hlive. apply map_lookup_filter_Some. by split.
Qed.

(** Of the events that look a room up, the only one whose handler can throw
    is a drawing that is no object, from a sender who is allowed to draw. *)
Lemma looked_up_throws sid now e s rid :
  looks_up sid e s = Some rid ->
  throws sid now e s = true ->
  exists rnd, e = WhiteboardDrawing rid JNotObj rnd ∧ sender_can_draw sid rid s = true.
Proof.
  intros Hl Ht.
  destruct e as [|? ? ? ?|? ?|?|? ? ?|?|?|rid' d rnd|? ?|?|? ? ?|? ?|?|?|?|? ?|? ?|? ? ?|];
    try discriminate.
  unfold looks_up, has_session, sender_can_draw in *. simpl in Ht.
  unfold whiteboard_drawing in Ht.
  destruct (session sid s) as [sd|]; [|discriminate]. injection Hl as <-.
  rewrite allowedUsers_getOrCreateRoom in Ht. unfold can_draw.
  destruct (rooms s !! rid') as [room|]; simpl in *.
  - case_bool_decide; [|discriminate]. destruct d; [discriminate|]. by exists rnd.
  - case_bool_decide as Hin; [|discriminate]. by apply elem_of_empty in Hin.
Qed.

(** Every handler that looks a room up and returns leaves the room in the
    registry, stamped with the clock reading of the event. *)
Lemma looked_up_is_stamped sid now e s rid :
  looks_up sid e s = Some rid ->
  throws sid now e s = false ->
  exists r, rooms (handle sid now e s).1 !! rid = Some r ∧ lastActivity r = now.
Proof.
  unfold looks_up, has_session.
  destruct e; try discriminate; simpl;
    try (destruct (session sid s) as [d|] eqn:Hd; [|discriminate]; intros [= <-];
         unfold room_lock, room_unlock, whiteboard_enable, whiteboard_disable,
           whiteboard_toggle, whiteboard_drawing, whiteboard_background, whiteboard_clear,
           whiteboard_allow_user, make_host, hand_raise, hand_lower, hand_lower_all,
           moderator_mute_user, moderator_remove_user, moderator_signal;
         rewrite Hd; handler_cases; intros Hthrows; try discriminate;
         eexists; (split; [apply lookup_insert_eq | done])).
  unfold join_room. destruct (truthy roomId0), (truthy userId0); try discriminate.
  intros [= <-] _. simpl. handler_cases; eexists; (split; [apply lookup_insert_eq|]);
    simpl; done.
Qed.

(** X5.  An event that looks a room up (a join with non-empty ids, and
    every event of a connection with a session other than a chat message or a
    reaction) either makes its handler throw, which ends the process and
    which only a [whiteboard:drawing] that is no object does, from a sender
    who is allowed to draw; or it refreshes the room's activity stamp: after
    the event at the clock reading [t], a tick of the cleanup scheduler at
    most 1,800,000 ms later keeps the room, whoever is still in it. *)
Theorem activity_protects_room (sid : string) (t now : N) (e : Event) (s : Server)
    (rid : string) :
  looks_up sid e s = Some rid ->
  (Z.of_N now - Z.of_N t <= ROOM_TIMEOUT)%Z ->
  if throws sid t e s
  then exists rnd,
         e = WhiteboardDrawing rid JNotObj rnd ∧ sender_can_draw sid rid s = true
  else exists r,
         rooms (handle sid t e s).1 !! rid = Some r ∧
         rooms (sweep now (handle sid t e s).1) !! rid = Some r.
Proof.
  intros Hl Hnow. destruct (throws sid t e s) eqn:Hthrows.
  - by apply (looked_up_throws sid t).
  - destruct (looked_up_is_stamped sid t e s rid Hl Hthrows) as (r & Hr & Ht).
    exists r. split; [done|]. apply (sweep_lookup now _ rid r Hr).
    unfold idle. rewrite Ht. lia.
Qed.

(** [A] raises the hand at 5000 ms; the tick at 1,805,000 ms keeps room [r]. *)
Lemma activity_protects_room_witness :
  exists r,
    rooms (handle "s2" 5000 (HandRaise "r") two_joined).1 !! "r" = Some r ∧
    rooms (sweep 1805000 (handle "s2" 5000 (HandRaise "r") two_joined).1) !! "r" = Some r.
Proof.
  refine (activity_protects_room "s2" 5000 1805000 (HandRaise "r") two_joined "r" _ _).
  - vm_compute. reflexivity.
  - vm_compute. discriminate.
Defined.

Lemma chat_or_reaction_step s i :
  chat_or_reaction i = true -> exits s i = false ∧ rooms (step s i).1 = rooms s.
Proof.
  destruct i as [sid now e|now]; [|done].
  destruct e as [|? ? ? ?|? ?|?|? m ?|?|?|? ? ?|? ?|?|? ? ?|? ?|?|?|?|? ?|? ?|? r ?|];
    try discriminate; simpl.
  - intros _. split; [done|]. unfold chat_send. by handler_cases.
  - destruct r; [|discriminate]. intros _. unfold reaction_send.
    by destruct (session sid s).
Qed.

(** X6.  Chat messages, and reactions with an object as payload, are handled
    without an exception and never touch the room registry, so they do not
    count as activity: a room in which, since its last stamp (not zero), the
    connections have only chatted and reacted is removed by a tick of the
    cleanup scheduler more than 1,800,000 ms after that stamp, with its
    members, permissions and drawing log.  (A reaction that is no object makes
    the handler throw for a connection with a session.) *)
Theorem chatting_does_not_keep_room (s : Server) (inputs : list Input) (now : N)
    (rid : string) (r : Room) :
  forallb chat_or_reaction inputs = true ->
  rooms s !! rid = Some r ->
  lastActivity r ≠ 0%N ->
  (Z.of_N now - Z.of_N (lastActivity r) > ROOM_TIMEOUT)%Z ->
  run_exits s inputs = false ∧
  rooms (run_state s inputs) = rooms s ∧
  rooms (sweep now (run_state s inputs)) !! rid = None.
Proof.
  intros Hall Hr Hz Hnow.
  assert (Hrun : run_exits s inputs = false ∧ rooms (run_state s inputs) = rooms s).
  { clear Hr. revert s. induction inputs as [|i rest IH]; intros s; [done|].
    simpl in Hall. apply andb_true_iff in Hall as [Hi Hrest].
    destruct (chat_or_reaction_step s i Hi) as [Hlive Hstep].
    destruct (IH Hrest (step s i).1) as [IH1 IH2].
    simpl. rewrite run_state_cons, Hlive. simpl. split; [done|]. by rewrite IH2. }
  destruct Hrun as [Hlive Hrooms]. split; [done|]. split; [done|].
  rewrite <- Hrooms in Hr. by apply (sweep_lookup now _ rid r Hr).
Qed.

(** Room [r] was last stamped at 2000 ms; [A] chats at 900,000 and at
    1,700,000 ms, and the tick at 1,802,001 ms removes the room. *)
Lemma chatting_does_not_keep_room_witness :
  rooms (sweep 1802001 (run_state two_joined chat_only_run)) !! "r" = None.
Proof.
  assert (Hr : exists r, rooms two_joined !! "r" = Some r ∧ lastActivity r = 2000%N).
  { eexists. split; [vm_compute; reflexivity | reflexivity]. }
  destruct Hr as (r & Hr & Ht).
  refine (proj2 (proj2 (chatting_does_not_keep_room two_joined chat_only_run 1802001 "r" r
                          eq_refl Hr _ _))).
  - rewrite Ht. discriminate.
  - rewrite Ht. vm_compute. reflexivity.
Defined.

(** X7.  A host-only event addressed to a room id that is not in the
    registry (never used, or removed by the cleanup scheduler) stores a new
    empty room without host under that id and is dropped without any signal:
    after a room has been evicted, its former host has no authority left. *)
Theorem host_event_on_absent_room (sid : string) (now : N) (e : Event) (s : Server)
    (rid : string) (d : SocketData) :
  session sid s = Some d ->
  host_only e = Some rid ->
  rooms s !! rid = None ->
  handle sid now e s = (put_room rid (new_room now) s, []).
Proof.
  intros Hd He Hr.
  assert (Hgoc : getOrCreateRoom rid now (rooms s) = new_room now).
  { unfold getOrCreateRoom. by rewrite Hr. }
  pose proof (session_truthy _ _ _ Hd) as [Hu _].
  destruct e; try discriminate; injection He as ->; simpl;
    unfold room_lock, room_unlock, whiteboard_enable, whiteboard_disable,
      whiteboard_toggle, whiteboard_allow_user, make_host, hand_lower_all,
      moderator_mute_user, moderator_remove_user, moderator_signal;
    rewrite Hd, Hgoc; done.
Qed.

(** After the tick at 1,900,000 ms has removed room [r], a [room:lock] of
    its former host [H] re-creates it empty and is dropped. *)
Lemma host_event_on_absent_room_witness :
  handle "s1" 1900001 (RoomLock "r" "secret") (sweep 1900000 two_joined)
  = (put_room "r" (new_room 1900001) (sweep 1900000 two_joined), []).
Proof.
  apply (host_event_on_absent_room "s1" 1900001 (RoomLock "r" "secret")
           (sweep 1900000 two_joined) "r" (mkData "H" "r" "Hana" None)).
  - vm_compute. reflexivity.
  - reflexivity.
  - vm_compute. reflexivity.
Defined.

(** ** Opening, leaving and re-entering a room *)

(** X8.  When the connection of the only remaining member leaves (no other
    key is left in [members]), the room is deleted from the registry with its
    lock, password and drawing log, every other room is untouched, and the
    only thing sent is [whiteboard:disable] to the room channel if the leaver
    was the host. *)
Theorem last_member_leaving_deletes_room (sid : string) (s : Server) (d : SocketData)
    (room : Room) :
  session sid s = Some d ->
  rooms s !! roomId d = Some room ->
  map_delete (userId d) (members room) = [] ->
  rooms (disconnect sid s).1 = delete (roomId d) (rooms s) ∧
  sockets (disconnect sid s).1 = delete sid (sockets s) ∧
  (disconnect sid s).2 =
    if strict_eq (hostId room) (userId d)
    then [io_to (roomId d) EvWhiteboardDisable] else [].
Proof.
  intros Hd Hroom Hdel. unfold disconnect. rewrite Hd, Hroom.
  unfold leave_room. simpl. rewrite Hdel.
  destruct (strict_eq (hostId room) (userId d)); [|done].
  unfold failover. simpl. done.
Qed.

(** [H] is alone in room [r] and leaves: the room is gone. *)
Lemma last_member_leaving_deletes_room_witness :
  rooms (disconnect "s1" one_joined).1 !! "r" = None ∧
  (disconnect "s1" one_joined).2 = [io_to "r" EvWhiteboardDisable].
Proof.
  assert (Hr : exists room, rooms one_joined !! "r" = Some room ∧
                            map_delete "H" (members room) = [] ∧
                            hostId room = Some "H").
  { eexists. split; [vm_compute; reflexivity | by vm_compute]. }
  destruct Hr as (room & Hroom & Hdel & Hh).
  destruct (last_member_leaving_deletes_room "s1" one_joined
              (mkData "H" "r" "Hana" None) room eq_refl Hroom Hdel) as (Hrs & _ & Hout).
  split.
  - rewrite Hrs. apply lookup_delete_eq.
  - rewrite Hout. simpl. rewrite Hh. done.
Defined.

(** X9.  A join with non-empty ids to a room id that is not in the registry
    is admitted whatever password it carries: the room is created unlocked
    with the joining user as host, flagged as moderator and allowed to draw,
    with an empty whiteboard; the session of the socket is set and the socket
    listens on the room channel. *)
Theorem first_join_opens_room (sid rid uid uname : string) (pw : option string)
    (now : N) (s : Server) :
  rid ≠ "" -> uid ≠ "" ->
  rooms s !! rid = None ->
  join_room sid rid uid uname pw now s =
    (put_socket sid
       (mkSocket (Some (mkData uid rid uname None)) ({[rid]} ∪ joined (get_socket sid s)))
       (put_room rid (opened_room uid uname now) s),
     join_answer sid rid uid (opened_room uid uname now)).
Proof.
  intros Hrid Huid Hr.
  assert (Hgoc : getOrCreateRoom rid now (rooms s) = new_room now).
  { unfold getOrCreateRoom. by rewrite Hr. }
  unfold join_room. rewrite Hgoc. rewrite !truthy_true by done. simpl.
  unfold join_blocked, opened_room, join_answer, strict_eq. simpl.
  rewrite !bool_decide_eq_true_2 by set_solver +. done.
Qed.

(** After the last member has left room [r], [A] joins it with a stale
    password and finds a new room of which it is the host. *)
Lemma first_join_opens_room_witness :
  (join_room "s2" "r" "A" "Ali" (Some "old") 9000 (disconnect "s1" one_joined).1).2
  = join_answer "s2" "r" "A" (opened_room "A" "Ali" 9000).
Proof.
  rewrite (first_join_opens_room "s2" "r" "A" "Ali" (Some "old") 9000
             (disconnect "s1" one_joined).1); [done|done|done|].
  vm_compute. reflexivity.
Defined.

(** X10.  The password gate of [join-room] looks at the user id of the
    payload only: a join that names the room's host id is admitted to a
    locked room with any password or none, from any socket, and its member
    record is the moderator's. *)
Theorem host_id_skips_password (sid rid uid uname : string) (pw : option string)
    (now : N) (s : Server) (room : Room) :
  rid ≠ "" -> uid ≠ "" ->
  rooms s !! rid = Some room ->
  hostId room = Some uid ->
  exists room',
    rooms (join_room sid rid uid uname pw now s).1 !! rid = Some room' ∧
    map_get uid (members room') =
      Some (mkMember uid uname true (bool_decide (uid ∈ allowedUsers room))
                     (bool_decide (uid ∈ raisedHands room))) ∧
    session sid (join_room sid rid uid uname pw now s).1 = Some (mkData uid rid uname None) ∧
    (join_room sid rid uid uname pw now s).2 = join_answer sid rid uid room'.
Proof.
  intros Hrid Huid Hr Hh. unfold join_room.
  rewrite (getOrCreateRoom_found _ _ _ _ Hr). rewrite !truthy_true by done. simpl.
  unfold join_blocked, strict_eq. simpl. rewrite Hh. simpl.
  rewrite truthy_true by done. rewrite bool_decide_eq_true_2 by done. simpl.
  rewrite andb_false_r. simpl.
  eexists. split; [apply lookup_insert_eq|]. simpl.
  rewrite !(bool_decide_eq_true_2 (hostId room = Some uid)) by done. split_and!.
  - by rewrite map_get_set_eq.
  - unfold session, get_socket. simpl. rewrite lookup_insert_eq. simpl.
    by rewrite !truthy_true.
  - unfold join_answer. simpl. by rewrite Hh.
Qed.

(** Room [r] is locked by [H]; a join from another socket that names [H]
    is let in without the password. *)
Lemma host_id_skips_password_witness :
  exists room',
    rooms (join_room "s9" "r" "H" "Mallory" None 3000
             (room_lock "s1" "r" "secret" 2000 one_joined).1).1 !! "r" = Some room' ∧
    locked room' = true ∧
    session "s9" (join_room "s9" "r" "H" "Mallory" None 3000
                    (room_lock "s1" "r" "secret" 2000 one_joined).1).1
      = Some (mkData "H" "r" "Mallory" None).
Proof.
  assert (Hr : exists room, rooms (room_lock "s1" "r" "secret" 2000 one_joined).1 !! "r"
                              = Some room ∧ hostId room = Some "H" ∧ locked room = true).
  { eexists. split; [vm_compute; reflexivity | done]. }
  destruct Hr as (room & Hroom & Hh & Hl).
  destruct (host_id_skips_password "s9" "r" "H" "Mallory" None 3000 _ room
              ltac:(done) ltac:(done) Hroom Hh) as (room' & Hr' & _ & Hs & _).
  exists room'. split; [done|]. split; [|done].
  assert (Hc : exists r2, rooms (join_room "s9" "r" "H" "Mallory" None 3000
                 (room_lock "s1" "r" "secret" 2000 one_joined).1).1 !! "r" = Some r2 ∧
                 locked r2 = true).
  { eexists. split; [vm_compute; reflexivity | done]. }
  destruct Hc as (r2 & Hr2 & Hl2). rewrite Hr' in Hr2. by injection Hr2 as ->.
Defined.

(** X11.  After the host has unlocked a room, the lock and the password are
    gone: [room:unlocked] goes to the room channel, and a join with non-empty
    ids is admitted with any password or none. *)
Theorem unlock_reopens_room (hsid jsid rid uid uname : string) (pw : option string)
    (t1 t2 : N) (s : Server) (d : SocketData) (room : Room) :
  session hsid s = Some d ->
  rooms s !! rid = Some room ->
  hostId room = Some (userId d) ->
  rid ≠ "" -> uid ≠ "" ->
  (room_unlock hsid rid t1 s).2 = [io_to rid EvRoomUnlocked] ∧
  exists room',
    rooms (join_room jsid rid uid uname pw t2 (room_unlock hsid rid t1 s).1).1 !! rid
      = Some room' ∧
    locked room' = false ∧ password room' = None ∧
    uid ∈ map_keys (members room') ∧
    (join_room jsid rid uid uname pw t2 (room_unlock hsid rid t1 s).1).2
      = join_answer jsid rid uid room'.
Proof.
  intros Hd Hr Hh Hrid Huid.
  assert (Hs1 : room_unlock hsid rid t1 s =
                (put_room rid (set_locked false None (set_lastActivity t1 room)) s,
                 [io_to rid EvRoomUnlocked])).
  { unfold room_unlock. rewrite Hd, (getOrCreateRoom_found _ _ _ _ Hr).
    unfold strict_eq. simpl. rewrite Hh. by rewrite bool_decide_eq_true_2. }
  rewrite Hs1. simpl. split; [done|].
  unfold join_room.
  erewrite getOrCreateRoom_found by apply lookup_insert_eq.
  rewrite !truthy_true by done. simpl. unfold join_blocked. simpl.
  eexists. split; [apply lookup_insert_eq|]. simpl.
  destruct (negb (truthy_opt (hostId room))); simpl;
    (split_and!; [done|done| apply elem_of_keys_set; by left | done]).
Qed.

(** [H] locks room [r] and unlocks it again; [A] joins without password. *)
Lemma unlock_reopens_room_witness :
  exists room',
    rooms (join_room "s2" "r" "A" "Ali" None 4000
             (room_unlock "s1" "r" 3000
                (room_lock "s1" "r" "secret" 2000 one_joined).1).1).1 !! "r" = Some room' ∧
    locked room' = false ∧ "A" ∈ map_keys (members room').
Proof.
  assert (Hr : exists room, rooms (room_lock "s1" "r" "secret" 2000 one_joined).1 !! "r"
                              = Some room ∧ hostId room = Some "H").
  { eexists. split; [vm_compute; reflexivity | done]. }
  destruct Hr as (room & Hroom & Hh).
  destruct (unlock_reopens_room "s1" "s2" "r" "A" "Ali" None 3000 4000
              (room_lock "s1" "r" "secret" 2000 one_joined).1
              (mkData "H" "r" "Hana" None) room eq_refl Hroom Hh ltac:(done) ltac:(done))
    as (_ & room' & Hr' & Hl & _ & Hin & _).
  by exists room'.
Defined.

(** ** The whiteboard *)

Lemma sender_can_draw_spec sid rid now s d :
  session sid s = Some d ->
  bool_decide (userId d ∈ allowedUsers (getOrCreateRoom rid now (rooms s)))
  = sender_can_draw sid rid s.
Proof.
  intros Hd. unfold sender_can_draw. rewrite Hd, allowedUsers_getOrCreateRoom.
  destruct (rooms s !! rid); [done|]. apply bool_decide_eq_false_2. set_solver +.
Qed.

Lemma sender_can_draw_room sid rid s :
  sender_can_draw sid rid s = true ->
  exists d room, session sid s = Some d ∧ rooms s !! rid = Some room ∧
                 userId d ∈ allowedUsers room.
Proof.
  unfold sender_can_draw, can_draw.
  destruct (session sid s) as [d|]; [|done]. destruct (rooms s !! rid) as [room|]; [|done].
  intros Hc. apply bool_decide_eq_true_1 in Hc. by exists d, room.
Qed.

(** An accepted drawing: stored at the end of the log, relayed to the others. *)
Lemma whiteboard_drawing_accepted sid rid o rnd now s d room :
  session sid s = Some d -> rooms s !! rid = Some room ->
  userId d ∈ allowedUsers room ->
  whiteboard_drawing sid rid (JObj o) rnd now s =
    Returns
      (put_room rid
         (set_whiteboard (whiteboardDrawings room ++ [ingested (userId d) now rnd o])
                         (whiteboardBackground room) (set_lastActivity now room)) s,
       [socket_to sid rid (EvWhiteboardDrawing (ingested (userId d) now rnd o))]).
Proof.
  intros Hd Hr Hin. unfold whiteboard_drawing. rewrite Hd.
  rewrite (getOrCreateRoom_found _ _ _ _ Hr). simpl.
  by rewrite bool_decide_eq_true_2.
Qed.

(** X12.  A drawing (an object) of a sender with draw permission is
    handled to the end without an exception: it is stored, under the id the
    server gives it, at the end of the room's log (the log of every other room
    is untouched) and is relayed to the others in the room, not to the sender;
    every property of the payload but [id] is kept.  A connection that is
    admitted to the room afterwards is sent the log with the new operation
    last, and the background, in [whiteboard:state]. *)
Theorem drawing_is_logged_and_replayed (sid jsid rid uid uname : string) (o : JsObj)
    (rnd : string) (pw : option string) (t1 t2 : N) (s : Server) (d : SocketData) :
  session sid s = Some d ->
  sender_can_draw sid rid s = true ->
  rid ≠ "" -> uid ≠ "" ->
  join_blocked
    (getOrCreateRoom rid t2
       (rooms (handle sid t1 (WhiteboardDrawing rid (JObj o) rnd) s).1))
    uid pw = false ->
  whiteboard_drawing sid rid (JObj o) rnd t1 s
    = Returns (handle sid t1 (WhiteboardDrawing rid (JObj o) rnd) s) ∧
  (handle sid t1 (WhiteboardDrawing rid (JObj o) rnd) s).2
    = [socket_to sid rid (EvWhiteboardDrawing (ingested (userId d) t1 rnd o))] ∧
  (forall rid',
     drawing_log (handle sid t1 (WhiteboardDrawing rid (JObj o) rnd) s).1 rid' =
     if decide (rid' = rid)
     then drawing_log s rid ++ [ingested (userId d) t1 rnd o]
     else drawing_log s rid') ∧
  (forall k, k ≠ "id" -> map_get k (ingested (userId d) t1 rnd o) = map_get k o) ∧
  emit jsid (EvWhiteboardState (drawing_log s rid ++ [ingested (userId d) t1 rnd o])
                               (background_of s rid))
    ∈ (join_room jsid rid uid uname pw t2
         (handle sid t1 (WhiteboardDrawing rid (JObj o) rnd) s).1).2.
Proof.
  intros Hd Hcan Hrid Huid.
  destruct (sender_can_draw_room _ _ _ Hcan) as (d' & room & Hd' & Hr & Hin).
  rewrite Hd in Hd'. injection Hd' as <-. unfold handle.
  rewrite (whiteboard_drawing_accepted _ _ _ _ _ _ _ _ Hd Hr Hin). simpl.
  intros Hopen. split_and!.
  - done.
  - done.
  - intros rid'. unfold drawing_log. simpl. destruct (decide (rid' = rid)) as [->|Hne].
    + rewrite lookup_insert_eq, Hr. done.
    + by rewrite lookup_insert_ne.
  - intros k Hk. unfold ingested. by apply map_get_set_ne.
  - unfold join_room.
    erewrite getOrCreateRoom_found in Hopen |- * by apply lookup_insert_eq.
    rewrite !truthy_true by done. simpl. rewrite Hopen.
    unfold drawing_log, background_of. rewrite Hr. simpl.
    destruct (negb _); simpl; right; left.
Qed.

(** [H] draws a line in room [r]; [B], who joins later, is replayed it. *)
Lemma drawing_is_logged_and_replayed_witness :
  (handle "s1" 3000 (WhiteboardDrawing "r" (JObj [("kind", VStr "line")]) "k3x9")
     two_joined).2
    = [socket_to "s1" "r"
         (EvWhiteboardDrawing (ingested "H" 3000 "k3x9" [("kind", VStr "line")]))] ∧
  emit "s3" (EvWhiteboardState [ingested "H" 3000 "k3x9" [("kind", VStr "line")]] None)
    ∈ (join_room "s3" "r" "B" "Bo" None 4000
         (handle "s1" 3000 (WhiteboardDrawing "r" (JObj [("kind", VStr "line")]) "k3x9")
            two_joined).1).2.
Proof.
  destruct (drawing_is_logged_and_replayed "s1" "s3" "r" "B" "Bo" [("kind", VStr "line")]
              "k3x9" None 3000 4000 two_joined (mkData "H" "r" "Hana" None)
              eq_refl eq_refl ltac:(done) ltac:(done) eq_refl)
    as (_ & Hout & _ & _ & Hjoin).
  split; [exact Hout | exact Hjoin].
Defined.

(** X13.  [whiteboard:clear] of a sender with draw permission empties the
    room's drawing log and drops its background, and tells the others in the
    room; a connection admitted afterwards is replayed an empty whiteboard.
    From a sender without the permission nothing is cleared and nothing is
    sent. *)
Theorem clear_empties_whiteboard (sid jsid rid uid uname : string)
    (pw : option string) (t1 t2 : N) (s : Server) :
  rid ≠ "" -> uid ≠ "" ->
  join_blocked (getOrCreateRoom rid t2 (rooms (whiteboard_clear sid rid t1 s).1))
               uid pw = false ->
  if sender_can_draw sid rid s then
    drawing_log (whiteboard_clear sid rid t1 s).1 rid = [] ∧
    background_of (whiteboard_clear sid rid t1 s).1 rid = None ∧
    (whiteboard_clear sid rid t1 s).2 = [socket_to sid rid EvWhiteboardClear] ∧
    emit jsid (EvWhiteboardState [] None)
      ∈ (join_room jsid rid uid uname pw t2 (whiteboard_clear sid rid t1 s).1).2
  else
    drawing_log (whiteboard_clear sid rid t1 s).1 rid = drawing_log s rid ∧
    background_of (whiteboard_clear sid rid t1 s).1 rid = background_of s rid ∧
    (whiteboard_clear sid rid t1 s).2 = [].
Proof.
  intros Hrid Huid. unfold whiteboard_clear.
  destruct (session sid s) as [d|] eqn:Hd.
  - rewrite (sender_can_draw_spec _ _ _ _ _ Hd).
    destruct (sender_can_draw sid rid s) eqn:Hcan; simpl.
    + intros Hopen. unfold drawing_log, background_of. simpl.
      rewrite lookup_insert_eq. simpl. split_and!; try done.
      unfold join_room.
      erewrite getOrCreateRoom_found in Hopen by apply lookup_insert_eq.
      erewrite (getOrCreateRoom_found rid t2 (rooms (put_room _ _ _)))
        by apply lookup_insert_eq.
      rewrite !truthy_true by done. simpl. rewrite Hopen.
      destruct (negb _); simpl; right; left.
    + intros _. unfold drawing_log, background_of. simpl.
      rewrite lookup_insert_eq. simpl. unfold getOrCreateRoom.
      by destruct (rooms s !! rid).
  - unfold sender_can_draw. rewrite Hd. done.
Qed.

(** [H] draws and clears; [B] joins and is replayed nothing. *)
Lemma clear_empties_whiteboard_witness :
  drawing_log
    (whiteboard_clear "s1" "r" 4000
       (handle "s1" 3000 (WhiteboardDrawing "r" (JObj [("kind", VStr "line")]) "k3x9")
          two_joined).1).1 "r" = [] ∧
  drawing_log
    (handle "s1" 3000 (WhiteboardDrawing "r" (JObj [("kind", VStr "line")]) "k3x9")
       two_joined).1 "r"
    ≠ [].
Proof.
  pose proof (clear_empties_whiteboard "s1" "s3" "r" "B" "Bo" None 4000 5000
                (handle "s1" 3000
                   (WhiteboardDrawing "r" (JObj [("kind", VStr "line")]) "k3x9")
                   two_joined).1 ltac:(done) ltac:(done) eq_refl) as H.
  assert (Hcan : sender_can_draw "s1" "r"
                   (handle "s1" 3000
                      (WhiteboardDrawing "r" (JObj [("kind", VStr "line")]) "k3x9")
                      two_joined).1 = true) by (vm_compute; reflexivity).
  rewrite Hcan in H. destruct H as (Hlog & _). split; [exact Hlog|].
  vm_compute. discriminate.
Defined.

(** ** Permissions and the host role *)

Lemma session_put_room sid rid r s : session sid (put_room rid r s) = session sid s.
Proof. done. Qed.

(** X14.  [whiteboard:allow-user] of the host sets the draw permission of
    the named user to the flag it carries and leaves every other user's
    permission as it was, and tells the room so; the named user may be the
    host itself, who can thereby lose the permission it got on joining. *)
Theorem allow_user_sets_permission (hsid jsid rid uid : string) (allow : bool)
    (now : N) (s : Server) (d dj : SocketData) (room : Room) :
  session hsid s = Some d ->
  rooms s !! rid = Some room ->
  hostId room = Some (userId d) ->
  session jsid s = Some dj ->
  (whiteboard_allow_user hsid rid uid allow now s).2 =
    [ io_to rid (EvUserPermission uid allow);
      io_to rid (EvRoomMembers
                   (map_values (map_update (set_canDraw allow) uid (members room)))) ] ∧
  sender_can_draw jsid rid (whiteboard_allow_user hsid rid uid allow now s).1 =
    if decide (userId dj = uid) then allow else sender_can_draw jsid rid s.
Proof.
  intros Hd Hr Hh Hdj. unfold whiteboard_allow_user. rewrite Hd.
  rewrite (getOrCreateRoom_found _ _ _ _ Hr). unfold strict_eq. simpl.
  rewrite Hh, bool_decide_eq_true_2 by done. simpl. split; [done|].
  unfold sender_can_draw. rewrite session_put_room, Hdj. simpl.
  rewrite lookup_insert_eq, Hr. unfold can_draw. simpl.
  destruct (decide (userId dj = uid)) as [->|Hne].
  - destruct allow.
    + apply bool_decide_eq_true_2, elem_of_union. left. by apply elem_of_singleton.
    + apply bool_decide_eq_false_2. rewrite elem_of_difference, elem_of_singleton. tauto.
  - apply bool_decide_ext.
    destruct allow; rewrite ?elem_of_union, ?elem_of_difference, elem_of_singleton;
      split; try tauto; intros; intuition congruence.
Qed.

(** [H] revokes its own permission: its next drawing would be refused. *)
Lemma allow_user_sets_permission_witness :
  sender_can_draw "s1" "r" two_joined = true ∧
  sender_can_draw "s1" "r" (whiteboard_allow_user "s1" "r" "H" false 3000 two_joined).1
    = false.
Proof.
  assert (Hr : exists room, rooms two_joined !! "r" = Some room ∧ hostId room = Some "H").
  { eexists. split; [vm_compute; reflexivity | done]. }
  destruct Hr as (room & Hr & Hh).
  destruct (allow_user_sets_permission "s1" "s1" "r" "H" false 3000 two_joined
              (mkData "H" "r" "Hana" None) (mkData "H" "r" "Hana" None) room
              eq_refl Hr Hh eq_refl) as [_ Hcan].
  split; [vm_compute; reflexivity | exact Hcan].
Defined.

(** X15.  After [host:make-host] of the host for another user id, the host
    test of every host-only handler fails for the former host and succeeds
    for the connections of the named user, who is also allowed to draw; the
    former host keeps the draw permission it had.  The room is told with
    [host:changed] and the member list. *)
Theorem make_host_transfers_authority (hsid jsid rid uid : string) (now t : N)
    (s : Server) (d dj : SocketData) (room : Room) :
  session hsid s = Some d ->
  rooms s !! rid = Some room ->
  hostId room = Some (userId d) ->
  session jsid s = Some dj -> userId dj = uid -> uid ≠ userId d ->
  (make_host hsid rid uid now s).2 =
    [ io_to rid (EvHostChanged uid);
      io_to rid (EvRoomMembers
                   (map_values
                      (map_update (set_isModerator true) uid
                         (map_update (set_isModerator false) (userId d) (members room))))) ] ∧
  sent_by_host hsid rid t (make_host hsid rid uid now s).1 = false ∧
  sent_by_host jsid rid t (make_host hsid rid uid now s).1 = true ∧
  sender_can_draw jsid rid (make_host hsid rid uid now s).1 = true ∧
  sender_can_draw hsid rid (make_host hsid rid uid now s).1 = sender_can_draw hsid rid s.
Proof.
  intros Hd Hr Hh Hdj Hu Hne. unfold make_host. rewrite Hd.
  rewrite (getOrCreateRoom_found _ _ _ _ Hr). unfold strict_eq. simpl.
  rewrite Hh, bool_decide_eq_true_2 by done. simpl. split; [done|].
  unfold sent_by_host, sender_can_draw. rewrite !session_put_room, Hd, Hdj.
  erewrite !getOrCreateRoom_found by apply lookup_insert_eq. simpl.
  rewrite lookup_insert_eq, Hr. unfold strict_eq, can_draw. simpl. split_and!.
  - apply bool_decide_eq_false_2. congruence.
  - apply bool_decide_eq_true_2. congruence.
  - apply bool_decide_eq_true_2, elem_of_union. left. apply elem_of_singleton. done.
  - apply bool_decide_ext. rewrite elem_of_union, elem_of_singleton.
    split; [|tauto]. intros [Heq|Hin]; [congruence | done].
Qed.

(** [H] makes [A] host of room [r]: [H] is no longer the host, [A] is. *)
Lemma make_host_transfers_authority_witness :
  sent_by_host "s1" "r" 4000 (make_host "s1" "r" "A" 3000 two_joined).1 = false ∧
  sent_by_host "s2" "r" 4000 (make_host "s1" "r" "A" 3000 two_joined).1 = true ∧
  sender_can_draw "s1" "r" (make_host "s1" "r" "A" 3000 two_joined).1 = true.
Proof.
  assert (Hr : exists room, rooms two_joined !! "r" = Some room ∧ hostId room = Some "H").
  { eexists. split; [vm_compute; reflexivity | done]. }
  destruct Hr as (room & Hr & Hh).
  destruct (make_host_transfers_authority "s1" "s2" "r" "A" 3000 4000 two_joined
              (mkData "H" "r" "Hana" None) (mkData "A" "r" "Ali" None) room
              eq_refl Hr Hh eq_refl eq_refl ltac:(done)) as (_ & H1 & H2 & _ & H4).
  split_and!; [exact H1 | exact H2 |]. rewrite H4. vm_compute. reflexivity.
Defined.

(** X16.  [join-room] replaces the session of the socket and never leaves a
    room: when a connection with a session in one room is admitted to another
    room, it keeps listening on the channels it had joined, the first room is
    exactly as before, and the first room is still exactly so after the
    connection has gone: its former user stays in [members] (and stays
    [hostId], if it was the host), since the disconnect handler only visits
    the room of the session. *)
Theorem switching_rooms_leaves_member_behind (sid r2 uid uname : string)
    (pw : option string) (t : N) (s : Server) (d : SocketData) :
  session sid s = Some d ->
  r2 ≠ roomId d -> r2 ≠ "" -> uid ≠ "" ->
  join_blocked (getOrCreateRoom r2 t (rooms s)) uid pw = false ->
  joined (get_socket sid s) ⊆ joined (get_socket sid (join_room sid r2 uid uname pw t s).1) ∧
  rooms (join_room sid r2 uid uname pw t s).1 !! roomId d = rooms s !! roomId d ∧
  rooms (disconnect sid (join_room sid r2 uid uname pw t s).1).1 !! roomId d
    = rooms s !! roomId d.
Proof.
  intros Hd Hne Hr2 Huid Hopen. unfold join_room.
  set (room0 := getOrCreateRoom r2 t (rooms s)) in *. clearbody room0.
  rewrite !truthy_true by done. cbv beta iota zeta. simpl negb. simpl orb. cbv iota.
  rewrite Hopen.
  set (room2 := set_members _ _). set (k := mkSocket _ _).
  set (s2 := put_socket sid k (put_room r2 room2 s)). cbn [fst].
  assert (Hsess : session sid s2 = Some (mkData uid r2 uname None)).
  { unfold session, get_socket, s2. simpl. rewrite lookup_insert_eq. simpl.
    by rewrite !truthy_true. }
  assert (Hrooms : rooms s2 = <[r2:=room2]> (rooms s)) by done.
  split_and!.
  - unfold s2, get_socket at 2. simpl. rewrite lookup_insert_eq. simpl.
    intros x Hx. apply elem_of_union. by right.
  - rewrite Hrooms. by rewrite lookup_insert_ne.
  - unfold disconnect. rewrite Hsess. cbn [roomId userId].
    rewrite Hrooms, lookup_insert_eq.
    destruct (members (leave_room r2 uid room2).1); cbn [fst rooms put_room].
    + rewrite lookup_delete_ne by done. by rewrite lookup_insert_ne.
    + rewrite ?Hrooms. by rewrite !lookup_insert_ne.
Qed.

(** [H], host of room [r], joins room [q] on the same socket and then
    disconnects: room [r] still has [H] as member and host. *)
Lemma switching_rooms_leaves_member_behind_witness :
  exists room,
    rooms (disconnect "s1" (join_room "s1" "q" "H" "Hana" None 3000 two_joined).1).1 !! "r"
      = Some room ∧
    hostId room = Some "H" ∧ map_keys (members room) = ["H"; "A"].
Proof.
  destruct (switching_rooms_leaves_member_behind "s1" "q" "H" "Hana" None 3000 two_joined
              (mkData "H" "r" "Hana" None) eq_refl ltac:(done) ltac:(done) ltac:(done)
              eq_refl) as (_ & _ & Hsame).
  cbn [roomId] in Hsame.
  assert (Hr : exists room, rooms two_joined !! "r" = Some room ∧
                            hostId room = Some "H" ∧ map_keys (members room) = ["H"; "A"]).
  { eexists. split; [vm_compute; reflexivity|]. split; reflexivity. }
  destruct Hr as (room & Hr & Hh & Hk). exists room.
  split; [|split; assumption]. rewrite <- Hr. exact Hsame.
Defined.

(** * The reduced relay: rooms, hosts and the whiteboard *)

Section BasicRelay.
Import Basic BasicLoop.

Lemma basic_run_state_cons s i inputs :
  run_state s (i :: inputs) = run_state (step s i).1 inputs.
Proof.
  unfold run_state. simpl. destruct (step s i) as [s1 o1]. simpl.
  by destruct (run s1 inputs).
Qed.

Lemma elem_of_set_add x y l : y ∈ set_add x l <-> y = x ∨ y ∈ l.
Proof.
  unfold set_add. case_bool_decide as Hx.
  - split; [by right|]. by intros [->|].
  - rewrite elem_of_app, list_elem_of_singleton. tauto.
Qed.

Lemma NoDup_set_add x l : NoDup l -> NoDup (set_add x l).
Proof.
  intros Hl. unfold set_add. case_bool_decide as Hx; [done|].
  apply NoDup_app. split; [done|]. split; [|apply NoDup_singleton].
  intros y Hy ->%list_elem_of_singleton. done.
Qed.

Lemma elem_of_set_delete x y l : y ∈ set_delete x l <-> y ≠ x ∧ y ∈ l.
Proof. unfold set_delete. by rewrite list_elem_of_filter. Qed.

Lemma host_ok_fields r r' :
  members r' = members r -> hostId r' = hostId r -> host_ok r -> host_ok r'.
Proof. unfold host_ok. by intros -> ->. Qed.

Lemma host_ok_getOrCreateRoom rid now rs :
  (forall k r, rs !! k = Some r -> host_ok r) -> host_ok (getOrCreateRoom rid now rs).
Proof.
  intros Hall. unfold getOrCreateRoom. destruct (rs !! rid) as [r|] eqn:Hr; simpl.
  - by apply (host_ok_fields r), (Hall rid).
  - split; [apply NoDup_nil_2|]. split; [apply not_elem_of_nil|done].
Qed.

Lemma host_ok_put rid r s :
  (forall k r, rooms s !! k = Some r -> host_ok r) -> host_ok r ->
  forall k r', rooms (put_room rid r s) !! k = Some r' -> host_ok r'.
Proof.
  intros Hall Hr k r'. simpl. destruct (decide (rid = k)) as [->|Hne].
  - rewrite lookup_insert_eq. by intros [= <-].
  - rewrite lookup_insert_ne by done. apply Hall.
Qed.

Lemma host_ok_join uid r :
  uid ≠ "" -> host_ok r ->
  host_ok (mkRoom (locked r) (password r)
             (if negb (truthy_opt (hostId r)) then Some uid else hostId r)
             (set_add uid (members r)) (lastActivity r)).
Proof.
  intros Hu (Hnd & Hne & Hh). split; [|split]; simpl.
  - by apply NoDup_set_add.
  - rewrite elem_of_set_add. intros [?|?]; [by apply Hu|done].
  - destruct (hostId r) as [h|]; simpl.
    + assert (h ≠ "") as Hh' by (by intros ->).
      rewrite (truthy_true _ Hh'). simpl. apply elem_of_set_add. by right.
    + apply elem_of_set_add. by left.
Qed.

Lemma host_ok_leave u r :
  host_ok r ->
  host_ok (mkRoom (locked r) (password r)
             (if strict_eq (hostId r) u then head (set_delete u (members r)) else hostId r)
             (set_delete u (members r)) (lastActivity r)).
Proof.
  intros (Hnd & Hne & Hh). split; [|split]; simpl.
  - by apply NoDup_filter.
  - rewrite elem_of_set_delete. tauto.
  - unfold strict_eq. case_bool_decide as Hu.
    + destruct (set_delete u (members r)) as [|h rest]; simpl; [done|]. apply list_elem_of_here.
    + destruct (hostId r) as [h|].
      * apply elem_of_set_delete. split; [congruence|done].
      * rewrite Hh. done.
Qed.

Lemma basic_disconnect_rooms sid s :
  rooms (disconnect sid s).1 =
  match session sid s with
  | Some d =>
      match rooms s !! roomId d with
      | Some r =>
          <[roomId d :=
              mkRoom (locked r) (password r)
                (if strict_eq (hostId r) (userId d)
                 then head (set_delete (userId d) (members r)) else hostId r)
                (set_delete (userId d) (members r)) (lastActivity r)]> (rooms s)
      | None => rooms s
      end
  | None => rooms s
  end.
Proof.
  unfold disconnect. destruct (session sid s) as [d|]; [|done].
  destruct (rooms s !! roomId d) as [r|]; [|done].
  destruct (strict_eq (hostId r) (userId d)); [|done].
  by destruct (set_delete (userId d) (members r)).
Qed.

Lemma basic_step_host_ok s i :
  (forall k r, rooms s !! k = Some r -> host_ok r) ->
  forall k r, rooms (step s i).1 !! k = Some r -> host_ok r.
Proof.
  intros Hall. destruct i as [sid now e|now]; simpl.
  - pose proof (host_ok_getOrCreateRoom) as Hgoc.
    destruct e as [rid uid pw|rid pw|rid|rid m|rid|rid|rid c|]; simpl.
    + unfold join_room. destruct (negb (truthy rid) || negb (truthy uid)) eqn:Hg; [done|].
      simpl. apply orb_false_elim in Hg as [_ Hu].
      assert (uid ≠ "") as Hu'.
      { intros ->. by vm_compute in Hu. }
      match goal with |- context [if ?c then _ else _] => destruct c end; simpl.
      * apply host_ok_put; [done|]. by apply Hgoc.
      * apply (host_ok_put rid _ s Hall).
        apply (host_ok_join uid (getOrCreateRoom rid now (rooms s)) Hu').
        by apply Hgoc.
    + unfold room_lock. destruct (session sid s) as [d|]; [|done]. simpl.
      match goal with |- context [if ?c then _ else _] => destruct c end; simpl;
        apply (host_ok_put rid _ s Hall);
        [apply (host_ok_fields (getOrCreateRoom rid now (rooms s))); [done..|]|];
        by apply Hgoc.
    + unfold room_unlock. destruct (session sid s) as [d|]; [|done]. simpl.
      match goal with |- context [if ?c then _ else _] => destruct c end; simpl;
        apply (host_ok_put rid _ s Hall);
        [apply (host_ok_fields (getOrCreateRoom rid now (rooms s))); [done..|]|];
        by apply Hgoc.
    + unfold chat_send. destruct (session sid s) as [d|]; [|done].
      destruct m as [o|]; [|done]. by destruct (chat_allowed _ _).
    + unfold whiteboard_toggle. destruct (session sid s) as [d|]; [|done]. simpl.
      apply (host_ok_put rid _ s Hall). by apply Hgoc.
    + unfold whiteboard_toggle. destruct (session sid s) as [d|]; [|done]. simpl.
      apply (host_ok_put rid _ s Hall). by apply Hgoc.
    + unfold whiteboard_sync. destruct (session sid s) as [d|]; [|done]. simpl.
      apply (host_ok_put rid _ s Hall). by apply Hgoc.
    + rewrite basic_disconnect_rooms. destruct (session sid s) as [d|]; [|done].
      destruct (rooms s !! roomId d) as [r0|] eqn:Hr0; [|done].
      intros k r. destruct (decide (roomId d = k)) as [<-|Hne].
      * rewrite lookup_insert_eq. intros [= <-]. apply host_ok_leave. by apply (Hall (roomId d)).
      * rewrite lookup_insert_ne by done. apply Hall.
  - intros k r Hr. apply map_lookup_filter_Some in Hr as [Hr _]. by apply (Hall k).
Qed.

Lemma basic_run_host_ok inputs s :
  (forall k r, rooms s !! k = Some r -> host_ok r) ->
  forall k r, rooms (run_state s inputs) !! k = Some r -> host_ok r.
Proof.
  revert s. induction inputs as [|i inputs IH]; intros s Hall; [done|].
  rewrite basic_run_state_cons. apply IH. by apply basic_step_host_ok.
Qed.

(** X17.  In the reduced relay the host of a room is always one of its
    members: in every state the event loop reaches from the empty registry,
    [hostId] of a room is an element of its [members], a room without host
    has no members, and the members are distinct non-empty ids. *)
Theorem basic_host_is_member (inputs : list Input) (rid : string) (r : Room) :
  rooms (run_state init inputs) !! rid = Some r -> host_ok r.
Proof.
  apply basic_run_host_ok. intros k r'. unfold init. simpl. by rewrite lookup_empty.
Qed.

(** Room [r] after its host locked it. *)
Lemma basic_host_is_member_witness :
  exists r, rooms locked_by_host !! "r" = Some r ∧ host_ok r.
Proof.
  assert (Hr : exists r, rooms locked_by_host !! "r" = Some r).
  { eexists. vm_compute. reflexivity. }
  destruct Hr as [r Hr]. exists r. split; [exact Hr|].
  exact (basic_host_is_member _ "r" r Hr).
Defined.


Lemma basic_lift_state r : (lift r).1 = r.1.
Proof. done. Qed.

Lemma basic_getOrCreateRoom_found rid now rs r :
  rs !! rid = Some r ->
  getOrCreateRoom rid now rs = mkRoom (locked r) (password r) (hostId r) (members r) now.
Proof. intros Hr. unfold getOrCreateRoom. by rewrite Hr. Qed.

(** A room that is put back with its lock and password is found with them. *)
Lemma basic_put_keeps_lock rid k r r0 s :
  rooms s !! k = Some r ->
  (rid = k -> locked r0 = locked r ∧ password r0 = password r) ->
  exists r', rooms (put_room rid r0 s) !! k = Some r' ∧
             locked r' = locked r ∧ password r' = password r.
Proof.
  intros Hr Hsame. simpl. destruct (decide (rid = k)) as [Heq|Hne].
  - subst k. rewrite lookup_insert_eq. exists r0. split; [done|]. by apply Hsame.
  - rewrite lookup_insert_ne by done. by exists r.
Qed.

(** X18.  No event of a socket removes a room from the registry of the
    reduced relay, not even the disconnect of its last member: a room that is
    in the registry before the event is in it afterwards, and unless the event
    is [room:lock] or [room:unlock] it has the same lock and password. *)
Theorem basic_room_outlives_events (sid : string) (now : N) (e : Event) (s : Server)
    (rid : string) (r : Room) :
  rooms s !! rid = Some r ->
  exists r', rooms (handle sid now e s).1 !! rid = Some r' ∧
             (keeps_lock e = true -> locked r' = locked r ∧ password r' = password r).
Proof.
  intros Hr.
  assert (Hgoc : forall k, k = rid ->
            locked (getOrCreateRoom k now (rooms s)) = locked r ∧
            password (getOrCreateRoom k now (rooms s)) = password r).
  { intros k ->. by rewrite (basic_getOrCreateRoom_found _ _ _ _ Hr). }
  assert (Hsame : exists r', rooms s !! rid = Some r' ∧
            (keeps_lock e = true -> locked r' = locked r ∧ password r' = password r))
    by (by exists r).
  assert (Hput : forall k r0,
            (k = rid -> locked r0 = locked r ∧ password r0 = password r) ->
            exists r', rooms (put_room k r0 s) !! rid = Some r' ∧
              (keeps_lock e = true -> locked r' = locked r ∧ password r' = password r)).
  { intros k r0 H0. destruct (basic_put_keeps_lock k rid r r0 s Hr H0) as (r' & ? & ?).
    by exists r'. }
  destruct e as [k uid pw|k pw|k|k m|k|k|k c|]; simpl.
  - unfold join_room. destruct (negb (truthy k) || negb (truthy uid)); [done|].
    simpl. match goal with |- context [if ?c then _ else _] => destruct c end; simpl.
    + apply Hput, Hgoc.
    + apply (Hput k). intros Hk. simpl. by apply Hgoc.
  - unfold room_lock. destruct (session sid s) as [d|]; [|done]. simpl.
    match goal with |- context [if ?c then _ else _] => destruct c end; simpl.
    + destruct (decide (k = rid)) as [->|Hne].
      * rewrite lookup_insert_eq. eexists. split; [done|]. done.
      * rewrite lookup_insert_ne by done. by exists r.
    + destruct (decide (k = rid)) as [->|Hne].
      * rewrite lookup_insert_eq. eexists. split; [done|]. done.
      * rewrite lookup_insert_ne by done. by exists r.
  - unfold room_unlock. destruct (session sid s) as [d|]; [|done]. simpl.
    match goal with |- context [if ?c then _ else _] => destruct c end; simpl.
    + destruct (decide (k = rid)) as [->|Hne].
      * rewrite lookup_insert_eq. eexists. split; [done|]. done.
      * rewrite lookup_insert_ne by done. by exists r.
    + destruct (decide (k = rid)) as [->|Hne].
      * rewrite lookup_insert_eq. eexists. split; [done|]. done.
      * rewrite lookup_insert_ne by done. by exists r.
  - unfold chat_send. destruct (session sid s) as [d|]; [|done].
    destruct m as [o|]; [|done]. by destruct (chat_allowed _ _).
  - unfold whiteboard_toggle. destruct (session sid s) as [d|]; [|done]. simpl.
    apply (Hput k), Hgoc.
  - unfold whiteboard_toggle. destruct (session sid s) as [d|]; [|done]. simpl.
    apply (Hput k), Hgoc.
  - unfold whiteboard_sync. destruct (session sid s) as [d|]; [|done]. simpl.
    apply (Hput k), Hgoc.
  - rewrite basic_disconnect_rooms. destruct (session sid s) as [d|]; [|done].
    destruct (rooms s !! roomId d) as [r0|] eqn:Hr0; [|done].
    destruct (decide (roomId d = rid)) as [Heq|Hne].
    + rewrite Heq in *. rewrite lookup_insert_eq. rewrite Hr in Hr0.
      injection Hr0 as <-. eexists. split; [done|]. done.
    + rewrite lookup_insert_ne by done. by exists r.
Qed.

(** The host, alone in the locked room [r], disconnects: the room is still
    there, still locked with its password. *)
Lemma basic_room_outlives_events_witness :
  exists r', rooms (handle "s1" 3000 Disconnect locked_by_host).1 !! "r" = Some r' ∧
             locked r' = true ∧ password r' = Some "secret".
Proof.
  assert (Hr : exists r, rooms locked_by_host !! "r" = Some r ∧
                         locked r = true ∧ password r = Some "secret").
  { eexists. split; [vm_compute; reflexivity|]. split; reflexivity. }
  destruct Hr as (r & Hr & Hl & Hp).
  destruct (basic_room_outlives_events "s1" 3000 Disconnect locked_by_host "r" r Hr)
    as (r' & Hr' & Hkeep).
  exists r'. split; [exact Hr'|].
  destruct (Hkeep eq_refl) as [Hl' Hp']. split; congruence.
Defined.

(** X19.  When the only member of a room, its host, disconnects, the room
    stays behind without host and members but with its lock and password; the
    next [join-room] for it is admitted whatever password it gives, also none,
    and its user becomes the host of the room, which is still locked under the
    old password. *)
Theorem basic_empty_locked_room_admits_anyone (sid jsid uid : string)
    (pw : option string) (now : N) (s : Server) (d : SocketData) (room : Room) :
  session sid s = Some d ->
  rooms s !! roomId d = Some room ->
  hostId room = Some (userId d) ->
  members room = [userId d] ->
  uid ≠ "" ->
  rooms (disconnect sid s).1 !! roomId d
    = Some (mkRoom (locked room) (password room) None [] (lastActivity room)) ∧
  join_room jsid (roomId d) uid pw now (disconnect sid s).1 =
    (put_socket jsid
       (mkSocket (Some (mkData uid (roomId d) None))
                 ({[roomId d]} ∪ joined (get_socket jsid (disconnect sid s).1)))
       (put_room (roomId d) (mkRoom (locked room) (password room) (Some uid) [uid] now)
          (disconnect sid s).1),
     [ emit jsid (EvRoomState (locked room) (Some uid) [uid]);
       Basic.io_to (roomId d) (EvRoomMembers [uid]) ]).
Proof.
  intros Hd Hr Hh Hm Hu.
  assert (Hrid : roomId d ≠ "").
  { unfold session in Hd. destruct (data (get_socket sid s)) as [d0|]; [|done].
    destruct (truthy (userId d0) && truthy (roomId d0)) eqn:Ht; [|done].
    injection Hd as ->. apply andb_prop in Ht as [_ Ht]. intros Heq.
    rewrite Heq in Ht. by vm_compute in Ht. }
  assert (Hgone : rooms (disconnect sid s).1 !! roomId d
            = Some (mkRoom (locked room) (password room) None [] (lastActivity room))).
  { rewrite basic_disconnect_rooms, Hd, Hr, lookup_insert_eq, Hm, Hh.
    unfold strict_eq, set_delete. rewrite bool_decide_eq_true_2 by done.
    rewrite filter_cons_False by (by intros []). done. }
  split; [exact Hgone|].
  unfold join_room. rewrite (basic_getOrCreateRoom_found _ _ _ _ Hgone).
  rewrite !truthy_true by done. simpl. rewrite andb_false_r. simpl.
  unfold set_add. by rewrite bool_decide_eq_false_2 by apply not_elem_of_nil.
Qed.

(** After [H] has locked room [r] and left, [M] joins without a password
    and is the host of the locked room. *)
Lemma basic_empty_locked_room_admits_anyone_witness :
  exists s', join_room "s9" "r" "M" None 4000 (disconnect "s1" locked_by_host).1
             = (s', [ emit "s9" (EvRoomState true (Some "M") ["M"]);
                      Basic.io_to "r" (EvRoomMembers ["M"]) ]).
Proof.
  assert (Hr : exists room, rooms locked_by_host !! "r" = Some room ∧
                 hostId room = Some "H" ∧ members room = ["H"] ∧ locked room = true).
  { eexists. split; [vm_compute; reflexivity|]. repeat split; reflexivity. }
  destruct Hr as (room & Hr & Hh & Hm & Hl).
  destruct (basic_empty_locked_room_admits_anyone "s1" "s9" "M" None 4000 locked_by_host
              (mkData "H" "r" None) room eq_refl Hr Hh Hm ltac:(done)) as [_ Hjoin].
  cbn [roomId] in Hjoin. rewrite Hl in Hjoin. eexists. exact Hjoin.
Defined.

Lemma basic_stamped_sender rid uid command :
  map_get "senderId" (stamped rid uid command) = Some (VStr uid).
Proof. unfold stamped. apply map_get_set_eq. Qed.

(** X20.  What [whiteboard:sync] relays: only for a sender who is the host
    of the room named in the payload, only to the others in that room, and
    with [senderId] set to the user id of the sender's session whatever
    [senderId] the payload carried; [roomId] and every other property go
    through as sent. *)
Theorem basic_sync_stamps_sender (sid rid : string) (command : JsObj) (now : N)
    (s : Server) (d : SocketData) (ev : Sent) :
  session sid s = Some d ->
  ev ∈ (whiteboard_sync sid rid command now s).2 ->
  (exists room, rooms s !! rid = Some room ∧ hostId room = Some (userId d)) ∧
  to ev = Relay.ToChannelExcept rid sid ∧
  exists p, signal ev = EvWhiteboardSync p ∧
    map_get "senderId" p = Some (VStr (userId d)) ∧
    map_get "roomId" p = Some (VStr rid) ∧
    forall k, k ≠ "senderId" -> k ≠ "roomId" -> map_get k p = map_get k command.
Proof.
  intros Hd. unfold whiteboard_sync. rewrite Hd. simpl.
  unfold strict_eq, getOrCreateRoom. case_bool_decide as Hh; [|by intros ?%elem_of_nil].
  intros ->%list_elem_of_singleton. simpl in Hh. split; [|split; [done|]].
  - destruct (rooms s !! rid) as [room|]; [|done]. by exists room.
  - eexists. split; [done|]. split; [apply basic_stamped_sender|].
    unfold stamped. split.
    + rewrite map_get_set_ne by done. reflexivity.
    + intros k Hk1 Hk2. rewrite map_get_set_ne by done. simpl.
      by destruct (decide (k = "roomId")).
Qed.

(** The host [H] sends a command that names another sender: the others get
    it with [senderId] [H]. *)
Lemma basic_sync_stamps_sender_witness :
  exists ev p,
    (whiteboard_sync "s1" "r" [("type", VStr "line"); ("senderId", VStr "A")]
       3000 locked_by_host).2 = [ev] ∧
    signal ev = EvWhiteboardSync p ∧
    map_get "senderId" p = Some (VStr "H") ∧
    map_get "type" p = Some (VStr "line").
Proof.
  assert (Hout : exists ev,
            (whiteboard_sync "s1" "r" [("type", VStr "line"); ("senderId", VStr "A")]
               3000 locked_by_host).2 = [ev]).
  { eexists. vm_compute. reflexivity. }
  destruct Hout as [ev Hout].
  destruct (basic_sync_stamps_sender "s1" "r" [("type", VStr "line"); ("senderId", VStr "A")]
              3000 locked_by_host (mkData "H" "r" None) ev eq_refl)
    as (_ & _ & p & Hp & Hs & _ & Hk).
  { rewrite Hout. apply list_elem_of_here. }
  exists ev, p. split; [exact Hout|]. split; [exact Hp|]. split; [exact Hs|].
  rewrite (Hk "type") by done. reflexivity.
Defined.

End BasicRelay.

(** * The meeting client *)

Section MeetingClient.
Import Client.

(** ** What the chat panel renders *)

Lemma filter_ext_in {A} (P Q : A -> Prop) `{!forall x, Decision (P x)}
    `{!forall x, Decision (Q x)} (l : list A) :
  (forall x, x ∈ l -> P x <-> Q x) -> filter P l = filter Q l.
Proof.
  induction l as [|x l IH]; intros Hext; [done|].
  assert (Hl : filter P l = filter Q l).
  { apply IH. intros y Hy. apply Hext. by apply list_elem_of_further. }
  destruct (decide (P x)) as [HP|HP].
  - rewrite !filter_cons_True; [by rewrite Hl|by apply Hext; [apply list_elem_of_here|]|done].
  - rewrite !filter_cons_False; [done| |done].
    intros HQ. apply HP, Hext; [apply list_elem_of_here|done].
Qed.

Lemma findIndex_Some id self i :
  findIndex id self = Some i <->
  (exists m, self !! i = Some m ∧ obj_id m = id) ∧
  forall j m, self !! j = Some m -> j < i -> obj_id m ≠ id.
Proof.
  unfold findIndex. split.
  - intros Hf. apply fmap_Some in Hf as ([j m] & Hf & ->).
    apply list_find_Some in Hf as (Hl & Hm & Hfirst). simpl.
    split; [by exists m|]. exact Hfirst.
  - intros [(m & Hl & Hm) Hfirst]. apply fmap_Some. exists (i, m). split; [|done].
    apply list_find_Some. done.
Qed.

(** An entry of [self] keeps its first index when [self] grows. *)
Lemma findIndex_app_l id self more i :
  findIndex id self = Some i -> findIndex id (self ++ more) = Some i.
Proof.
  unfold findIndex. intros Hf. apply fmap_Some in Hf as ([j m] & Hf & ->).
  by rewrite (list_find_app_l _ _ more _ _ Hf).
Qed.

Lemma findIndex_None id self :
  findIndex id self = None <-> id ∉ obj_id <$> self.
Proof.
  unfold findIndex. rewrite fmap_None, list_find_None, Forall_forall, list_elem_of_fmap.
  split.
  - intros Hall (m & -> & Hm). by apply (Hall m).
  - intros Hno m Hm Heq. apply Hno. by exists m.
Qed.

Lemma findIndex_is_Some id self :
  id ∈ obj_id <$> self -> is_Some (findIndex id self).
Proof.
  intros Hin. destruct (findIndex id self) eqn:Hf; [done|].
  by apply findIndex_None in Hf.
Qed.

(** The messages that pass the filter of [processedMessages]. *)
Lemma kept_snoc (msgs : list JsObj) (m : JsObj) :
  (filter (first_of_its_id (msgs ++ [m])) (imap pair (msgs ++ [m]))).*2 =
  (filter (first_of_its_id msgs) (imap pair msgs)).*2 ++
  (if bool_decide (obj_id m ∈ obj_id <$> msgs) then [] else [m]).
Proof.
  rewrite imap_app, filter_app, fmap_app. f_equal.
  - f_equal. apply filter_ext_in. intros [i x] Hx.
    apply elem_of_lookup_imap in Hx as (j & y & [= -> ->] & Hl).
    unfold first_of_its_id. simpl.
    destruct (findIndex_is_Some (obj_id y) msgs) as [i0 Hi0].
    { apply list_elem_of_fmap. exists y. split; [done|]. by apply list_elem_of_lookup_2 in Hl. }
    rewrite (findIndex_app_l _ _ [m] _ Hi0), Hi0. done.
  - simpl. case_bool_decide as Hin.
    + rewrite filter_cons_False; [done|]. unfold first_of_its_id. simpl.
      destruct (findIndex_is_Some _ _ Hin) as [i0 Hi0].
      rewrite (findIndex_app_l _ _ [m] _ Hi0). intros [= ->].
      apply findIndex_Some in Hi0 as [(x & Hx & _) _].
      apply lookup_lt_Some in Hx. lia.
    + rewrite filter_cons_True; [done|]. unfold first_of_its_id. simpl.
      apply findIndex_Some. split.
      * exists m. split; [|done]. rewrite lookup_app_r by lia.
        by replace (length msgs + 0 - length msgs) with 0 by lia.
      * intros j x Hx Hj Heq. apply Hin, list_elem_of_fmap. exists x.
        split; [done|]. rewrite lookup_app_l in Hx by lia.
        by apply list_elem_of_lookup_2 in Hx.
Qed.

Lemma obj_id_mark u m : obj_id (mark u m) = obj_id m.
Proof. unfold obj_id, mark. by rewrite map_get_set_ne. Qed.

Lemma processedMessages_nil u : processedMessages u [] = [].
Proof. done. Qed.

(** The panel keeps a message exactly if no earlier message has its id. *)
Lemma processedMessages_snoc u msgs m :
  processedMessages u (msgs ++ [m]) =
  processedMessages u msgs ++
  (if bool_decide (obj_id m ∈ obj_id <$> msgs) then [] else [mark u m]).
Proof.
  unfold processedMessages. rewrite kept_snoc, fmap_app. f_equal.
  by case_bool_decide.
Qed.

Lemma processedMessages_ids u msgs i :
  i ∈ obj_id <$> processedMessages u msgs <-> i ∈ obj_id <$> msgs.
Proof.
  induction msgs as [|m msgs IH] using rev_ind; [done|].
  rewrite processedMessages_snoc, !fmap_app, !elem_of_app, IH. simpl.
  rewrite list_elem_of_singleton. case_bool_decide as Hin; simpl.
  - rewrite elem_of_nil. split; [tauto|]. intros [?| ->]; [by left|by left].
  - rewrite list_elem_of_singleton, obj_id_mark. done.
Qed.

(** X21.  The chat panel renders each message id once: the ids of
    [processedMessages] are pairwise different and are the ids of [messages];
    of the messages with one id the panel keeps the earliest, in the order of
    [messages]; and each rendered message is a message of the chat with
    [isMe] set to whether its [senderId] is the signed-in user. *)
Theorem panel_shows_each_id_once (u : string) (msgs : list JsObj) :
  NoDup (obj_id <$> processedMessages u msgs) ∧
  (forall i, i ∈ obj_id <$> processedMessages u msgs <-> i ∈ obj_id <$> msgs) ∧
  (forall m', m' ∈ processedMessages u msgs ->
     exists m, m ∈ msgs ∧ m' = mark u m ∧
       map_get "isMe" m'
         = Some (VBool (bool_decide (map_get "senderId" m = Some (VStr u))))) ∧
  (forall m, processedMessages u (msgs ++ [m]) =
     processedMessages u msgs ++
     (if bool_decide (obj_id m ∈ obj_id <$> msgs) then [] else [mark u m])).
Proof.
  split; [|split; [apply processedMessages_ids|split; [|apply processedMessages_snoc]]].
  - induction msgs as [|m msgs IH] using rev_ind; [apply NoDup_nil_2|].
    rewrite processedMessages_snoc, fmap_app. case_bool_decide as Hin; simpl.
    + by rewrite app_nil_r.
    + apply NoDup_app. split; [done|]. split; [|apply NoDup_singleton].
      intros i Hi ->%list_elem_of_singleton. rewrite obj_id_mark in Hi.
      by apply processedMessages_ids in Hi.
  - induction msgs as [|m msgs IH] using rev_ind; [by intros m' ?%elem_of_nil|].
    intros m'. rewrite processedMessages_snoc, elem_of_app. intros [Hm'|Hm'].
    + destruct (IH m' Hm') as (m0 & Hm0 & Heq). exists m0.
      split; [|done]. apply elem_of_app. by left.
    + case_bool_decide; [by apply elem_of_nil in Hm'|].
      apply list_elem_of_singleton in Hm' as ->. exists m.
      split; [apply elem_of_app; right; apply list_elem_of_here|]. split; [done|].
      unfold mark. apply map_get_set_eq.
Qed.

(** ** The sender's own message *)

Lemma new_message_id uid senderName text time now rnd :
  obj_id (new_message uid senderName text time now rnd) = Some (VStr (fresh_id uid now rnd)).
Proof. done. Qed.

Lemma mark_own uid senderName text time now rnd :
  map_get "isMe" (mark uid (new_message uid senderName text time now rnd))
  = Some (VBool true).
Proof.
  unfold mark. rewrite map_get_set_eq. simpl. by rewrite bool_decide_eq_true_2.
Qed.

(** X22.  With the full relay the sender of a chat message sees it twice.
    [handleSendMessage] appends the message to the chat under the id the
    client made and never records that id; the relay gives the message an id
    of its own and broadcasts it to the room, the sender included; unless the
    two ids were made at the same clock reading with the same random suffix,
    the copy that comes back passes both the id check of [chat:receive] and
    the filter of the chat panel, which renders the two copies, both marked as
    the user's own. *)
Theorem own_message_shown_twice (sid rid senderName text time rnd_c rnd_s : string)
    (t_c t_s : N) (s : Relay.Server) (d : Relay.SocketData) (c : Chat) :
  Relay.session sid s = Some d ->
  chat_allowed (Relay.lastChatTime d) t_s = true ->
  base36 rnd_c = true -> base36 rnd_s = true ->
  (t_c, rnd_c) ≠ (t_s, rnd_s) ->
  unseen c (fresh_id (Relay.userId d) t_c rnd_c) ->
  unseen c (fresh_id (Relay.userId d) t_s rnd_s) ->
  let sent := handleSendMessage (Relay.userId d) senderName text time t_c rnd_c c in
  let echo := relayed_chat (Relay.userId d) t_s rnd_s sent.2 in
  (Relay.chat_send sid rid (JObj sent.2) rnd_s t_s s).2
    = [Relay.io_to rid (Relay.EvChatReceive echo)] ∧
  messages (chat_receive echo sent.1) = messages c ++ [sent.2; echo] ∧
  processedMessages (Relay.userId d) (messages (chat_receive echo sent.1)) =
    processedMessages (Relay.userId d) (messages c) ++
    [mark (Relay.userId d) sent.2; mark (Relay.userId d) echo] ∧
  map_get "text" (mark (Relay.userId d) echo) = Some (VStr text) ∧
  map_get "isMe" (mark (Relay.userId d) sent.2) = Some (VBool true) ∧
  map_get "isMe" (mark (Relay.userId d) echo) = Some (VBool true).
Proof.
  intros Hd Ha Hc Hs Hne [Hc1 _] [Hs1 Hs2] sent echo.
  assert (Hids : fresh_id (Relay.userId d) t_s rnd_s ≠ fresh_id (Relay.userId d) t_c rnd_c).
  { intros Heq. apply fresh_id_inj in Heq as (_ & -> & ->); done. }
  assert (Hecho : obj_id echo = Some (VStr (fresh_id (Relay.userId d) t_s rnd_s)))
    by apply relayed_chat_id.
  assert (Hmsgs : messages (chat_receive echo sent.1) = messages c ++ [sent.2; echo]).
  { unfold chat_receive. simpl. rewrite Hecho, bool_decide_eq_false_2 by done.
    simpl. by rewrite <- app_assoc. }
  split; [by rewrite (chat_send_accepted _ _ _ _ _ _ _ Hd Ha)|]. split; [exact Hmsgs|].
  split; [|split; [|split]].
  - rewrite Hmsgs. change [sent.2; echo] with ([sent.2] ++ [echo]).
    rewrite app_assoc, !processedMessages_snoc, Hecho. simpl.
    rewrite new_message_id.
    rewrite (bool_decide_eq_false_2 _ Hc1), bool_decide_eq_false_2.
    + by rewrite <- app_assoc.
    + rewrite fmap_app, elem_of_app. simpl. rewrite list_elem_of_singleton.
      rewrite new_message_id. intros [?|[= ?]]; done.
  - unfold mark, echo, relayed_chat. by rewrite !map_get_set_ne.
  - apply mark_own.
  - unfold mark. rewrite map_get_set_eq. unfold echo, relayed_chat.
    rewrite !map_get_set_ne by done. simpl. by rewrite bool_decide_eq_true_2.
Qed.

(** [H] sends a first message in room [r]: the panel of [H] shows two. *)
Lemma own_message_shown_twice_witness :
  length (processedMessages "H"
    (messages
       (chat_receive
          (relayed_chat "H" 3002 "q7w8e9r0t"
             (handleSendMessage "H" "Hana" "hello" "10:00" 3000 "a1b2c3d4e" no_chat).2)
          (handleSendMessage "H" "Hana" "hello" "10:00" 3000 "a1b2c3d4e" no_chat).1)))
  = 2.
Proof.
  pose proof (own_message_shown_twice "s1" "r" "Hana" "hello" "10:00" "a1b2c3d4e" "q7w8e9r0t"
                3000 3002 two_joined (Relay.mkData "H" "r" "Hana" None) no_chat
                eq_refl eq_refl eq_refl eq_refl ltac:(done)
                (conj (not_elem_of_nil _) (not_elem_of_nil _))
                (conj (not_elem_of_nil _) (not_elem_of_nil _))) as (_ & _ & Hshown & _).
  cbn [Relay.userId] in Hshown. rewrite Hshown. reflexivity.
Defined.

(** X23.  With the reduced relay, which relays a chat message as it was
    sent, the copy that comes back to the sender passes the id check of
    [chat:receive], as the client never recorded the id of the message it
    sent itself, and is appended to [messages] a second time; the chat panel
    renders it once, as the two copies have one id. *)
Theorem own_message_kept_twice_shown_once (sid rid senderName text time rnd : string)
    (t_c t_s : N) (s : Basic.Server) (d : Basic.SocketData) (c : Chat) :
  Basic.session sid s = Some d ->
  chat_allowed (Basic.lastChatTime d) t_s = true ->
  unseen c (fresh_id (Basic.userId d) t_c rnd) ->
  let sent := handleSendMessage (Basic.userId d) senderName text time t_c rnd c in
  (Basic.chat_send sid rid (JObj sent.2) t_s s).2
    = [Basic.io_to rid (Basic.EvChatReceive sent.2)] ∧
  messages (chat_receive sent.2 sent.1) = messages c ++ [sent.2; sent.2] ∧
  processedMessages (Basic.userId d) (messages (chat_receive sent.2 sent.1)) =
    processedMessages (Basic.userId d) (messages c) ++ [mark (Basic.userId d) sent.2] ∧
  chat_receive sent.2 (chat_receive sent.2 sent.1) = chat_receive sent.2 sent.1.
Proof.
  intros Hd Ha [Hc1 Hc2] sent.
  assert (Hid : obj_id sent.2 = Some (VStr (fresh_id (Basic.userId d) t_c rnd))) by done.
  assert (Hrecv : chat_receive sent.2 sent.1 =
            mkChat (messages c ++ [sent.2; sent.2])
                   (receivedMessageIds c ++ [obj_id sent.2])).
  { unfold chat_receive, add_id. simpl receivedMessageIds. rewrite Hid.
    rewrite !bool_decide_eq_false_2 by done. simpl. by rewrite <- app_assoc. }
  split; [by rewrite (basic_chat_send_accepted _ _ _ _ _ _ Hd Ha)|].
  rewrite Hrecv. cbn [messages]. split; [done|]. split.
  - change (messages c ++ [sent.2; sent.2]) with (messages c ++ ([sent.2] ++ [sent.2])).
    rewrite app_assoc, !processedMessages_snoc, Hid.
    rewrite (bool_decide_eq_false_2 _ Hc1).
    rewrite bool_decide_eq_true_2; [by rewrite app_nil_r|].
    rewrite fmap_app, elem_of_app. right. simpl. apply list_elem_of_here.
  - unfold chat_receive. simpl. rewrite bool_decide_eq_true_2; [done|].
    apply elem_of_app. right. apply list_elem_of_here.
Qed.

(** [H] sends a first message through the reduced relay: the chat holds two
    copies, the panel shows one. *)
Lemma own_message_kept_twice_shown_once_witness :
  length (messages
    (chat_receive (handleSendMessage "H" "Hana" "hello" "10:00" 3000 "a1b2c3d4e" no_chat).2
       (handleSendMessage "H" "Hana" "hello" "10:00" 3000 "a1b2c3d4e" no_chat).1)) = 2 ∧
  length (processedMessages "H" (messages
    (chat_receive (handleSendMessage "H" "Hana" "hello" "10:00" 3000 "a1b2c3d4e" no_chat).2
       (handleSendMessage "H" "Hana" "hello" "10:00" 3000 "a1b2c3d4e" no_chat).1))) = 1.
Proof.
  pose proof (own_message_kept_twice_shown_once "s1" "r" "Hana" "hello" "10:00" "a1b2c3d4e"
                3000 3002 basic_one_joined (Basic.mkData "H" "r" None) no_chat
                eq_refl eq_refl
                (conj (not_elem_of_nil _) (not_elem_of_nil _))) as (_ & Hkept & Hshown & _).
  cbn [Basic.userId] in Hkept, Hshown.
  split; [rewrite Hkept; reflexivity | rewrite Hshown; reflexivity].
Defined.


(** ** The whiteboard of the client *)

Lemma elem_of_add_id i j ids : i ∈ add_id j ids <-> i = j ∨ i ∈ ids.
Proof.
  unfold add_id. case_bool_decide as Hj.
  - split; [by right|]. by intros [->|].
  - rewrite elem_of_app, list_elem_of_singleton. tauto.
Qed.

Lemma elem_of_remember i ids d :
  i ∈ remember ids d <-> i ∈ ids ∨ (truthy_val (obj_id d) = true ∧ i = obj_id d).
Proof.
  unfold remember. destruct (truthy_val (obj_id d)).
  - rewrite elem_of_add_id. tauto.
  - split; [by left|]. by intros [?|[? _]].
Qed.

Lemma elem_of_foldl_remember i ds ids :
  i ∈ foldl remember ids ds <->
  i ∈ ids ∨ exists d, d ∈ ds ∧ truthy_val (obj_id d) = true ∧ i = obj_id d.
Proof.
  revert ids. induction ds as [|d ds IH]; intros ids; simpl.
  - split; [by left|]. intros [?|(d & ?%elem_of_nil & _)]; done.
  - rewrite IH, elem_of_remember. split.
    + intros [[?|[? ?]]|(d' & ? & ? & ?)].
      * by left.
      * right. exists d. split; [apply list_elem_of_here|done].
      * right. exists d'. split; [by apply list_elem_of_further|done].
    + intros [?|(d' & Hd' & ? & ?)]; [by left; left|].
      apply elem_of_cons in Hd' as [-> |?].
      * left. by right.
      * right. by exists d'.
Qed.

Lemma board_ok_on e b : board_ok b -> board_ok (board_on e b).
Proof.
  intros Hb. destruct e; try done; simpl.
  - intros d Hd Ht. simpl in *. apply elem_of_foldl_remember. right. by exists d.
  - unfold handleDrawing.
    destruct (truthy_val (obj_id drawing)
              && bool_decide (obj_id drawing ∈ receivedDrawingIds b)); [done|].
    intros d Hd Ht. simpl in *. apply elem_of_remember.
    apply elem_of_app in Hd as [Hd| ->%list_elem_of_singleton]; [left; by apply Hb|by right].
  - intros d Hd. by apply elem_of_nil in Hd.
Qed.

(** X24.  The whiteboard of a client forgets no id it shows: after any
    sequence of relay events, starting from the empty board, a drawing on
    the board whose [id] is truthy is ignored when it is delivered again with
    [whiteboard:drawing]; the board with all it remembers is left as it was. *)
Theorem redelivered_drawing_is_ignored (evs : list Relay.OutEvent) (d : JsObj) :
  d ∈ drawings (foldl (λ b e, board_on e b) no_board evs) ->
  truthy_val (obj_id d) = true ->
  handleDrawing d (foldl (λ b e, board_on e b) no_board evs)
    = foldl (λ b e, board_on e b) no_board evs.
Proof.
  assert (Hok : board_ok (foldl (λ b e, board_on e b) no_board evs)).
  { assert (H0 : board_ok no_board) by (by intros d' ?%elem_of_nil).
    revert H0. generalize no_board. induction evs as [|e evs IH]; intros b Hb; [done|].
    simpl. by apply IH, board_ok_on. }
  intros Hd Ht. unfold handleDrawing. rewrite Ht. simpl.
  by rewrite bool_decide_eq_true_2 by (by apply Hok).
Qed.

(** A client is replayed a log of one drawing and is then sent that drawing
    once more. *)
Lemma redelivered_drawing_is_ignored_witness :
  drawings
    (handleDrawing (ingested "H" 3000 "k3x9" [("kind", VStr "line")])
       (foldl (λ b e, board_on e b) no_board
          [Relay.EvWhiteboardState [ingested "H" 3000 "k3x9" [("kind", VStr "line")]] None]))
  = [ingested "H" 3000 "k3x9" [("kind", VStr "line")]].
Proof.
  rewrite (redelivered_drawing_is_ignored
             [Relay.EvWhiteboardState [ingested "H" 3000 "k3x9" [("kind", VStr "line")]] None]
             (ingested "H" 3000 "k3x9" [("kind", VStr "line")])
             (list_elem_of_here _ _) eq_refl).
  reflexivity.
Defined.

(** ** The room view of the client *)

(** X25.  The hand-over of the host role takes the drawing tools from the
    clients that had them.  When the host leaves and another member is
    promoted, the relay sends the room a [room-state] without [canDraw]; the
    handler of the client reads the missing field as a refusal, so the view of
    a user whom the relay still allows to draw, and who is not the new host,
    gets [canDraw] false, while the view of the new host gets it true. *)
Theorem handover_snapshot_resets_can_draw (rid u m k : string) (mh : Relay.Member)
    (rest : list (string * Relay.Member)) (room : Relay.Room) (v : View) :
  Relay.hostId room = Some u ->
  map_delete u (Relay.members room) = (k, mh) :: rest ->
  Relay.id mh ≠ "" ->
  m ∈ Relay.allowedUsers room -> m ≠ u -> m ≠ Relay.id mh ->
  exists e,
    (Relay.leave_room rid u room).2 = [Relay.io_to rid e] ∧
    m ∈ Relay.allowedUsers (Relay.leave_room rid u room).1 ∧
    Relay.hostId (Relay.leave_room rid u room).1 = Some (Relay.id mh) ∧
    canDraw (view_on m e v) = false ∧
    canDraw (view_on (Relay.id mh) e v) = true ∧
    hostId (view_on m e v) = Some (Relay.id mh).
Proof.
  intros Hh Hdel Hmh Hin Hmu Hmm.
  assert (Hin' : m ∈ Relay.allowedUsers room ∖ {[u]}).
  { apply elem_of_difference. split; [done|]. by rewrite elem_of_singleton. }
  unfold Relay.leave_room. simpl. rewrite Hdel, Hh. unfold strict_eq.
  rewrite bool_decide_eq_true_2 by done. unfold Relay.failover. simpl.
  rewrite (truthy_true _ Hmh).
  destruct (if decide (Relay.id mh = k) then Some mh else map_get (Relay.id mh) rest);
    simpl; eexists; (split; [reflexivity|]); simpl; unfold strict_eq.
  - rewrite bool_decide_eq_false_2 by congruence.
    rewrite bool_decide_eq_true_2 by done.
    split; [|done]. apply elem_of_union. by right.
  - rewrite bool_decide_eq_false_2 by congruence.
    by rewrite bool_decide_eq_true_2 by done.
Qed.

(** [H] allows [B] to draw and leaves; [A] is promoted, and the view of
    [B] loses [canDraw] though the relay still has [B] in [allowedUsers]. *)
Lemma handover_snapshot_resets_can_draw_witness :
  exists room e,
    Relay.rooms
      (Relay.run_state Relay.init
         (three_joined_run ++
          [Relay.FromSocket "s1" 4000 (Relay.WhiteboardAllowUser "r" "B" true)])) !! "r"
      = Some room ∧
    (Relay.leave_room "r" "H" room).2 = [Relay.io_to "r" e] ∧
    "B" ∈ Relay.allowedUsers (Relay.leave_room "r" "H" room).1 ∧
    canDraw (view_on "B" e (mkView false (Some "H") [] true false)) = false.
Proof.
  assert (Hr : exists room,
    Relay.rooms
      (Relay.run_state Relay.init
         (three_joined_run ++
          [Relay.FromSocket "s1" 4000 (Relay.WhiteboardAllowUser "r" "B" true)])) !! "r"
      = Some room ∧
    Relay.hostId room = Some "H" ∧
    map_delete "H" (Relay.members room) =
      [("A", Relay.mkMember "A" "Ali" false false false);
       ("B", Relay.mkMember "B" "Bo" false true false)] ∧
    bool_decide ("B" ∈ Relay.allowedUsers room) = true).
  { eexists. split; [vm_compute; reflexivity|]. split; [reflexivity|].
    split; vm_compute; reflexivity. }
  destruct Hr as (room & Hr & Hh & Hdel & Hin).
  apply bool_decide_eq_true_1 in Hin.
  destruct (handover_snapshot_resets_can_draw "r" "H" "B" "A" _ _ room
              (mkView false (Some "H") [] true false) Hh Hdel
              ltac:(done) Hin ltac:(done) ltac:(done))
    as (e & He & Hallowed & _ & Hcan & _).
  exists room, e. split; [exact Hr|]. split; [exact He|]. split; [exact Hallowed|exact Hcan].
Defined.

End MeetingClient.

(** * The two relays side by side *)

Lemma reduce_getOrCreateRoom rid now s :
  Basic.getOrCreateRoom rid now (Basic.rooms (reduce s))
  = reduce_room (Relay.getOrCreateRoom rid now (Relay.rooms s)).
Proof.
  unfold Basic.getOrCreateRoom, Relay.getOrCreateRoom. simpl.
  rewrite lookup_fmap. by destruct (Relay.rooms s !! rid).
Qed.

Lemma reduce_put_room rid r s :
  reduce (Relay.put_room rid r s) = Basic.put_room rid (reduce_room r) (reduce s).
Proof. unfold reduce, Basic.put_room. simpl. by rewrite fmap_insert. Qed.

Lemma reduce_put_socket sid k s :
  reduce (Relay.put_socket sid k s) = Basic.put_socket sid (reduce_socket k) (reduce s).
Proof. unfold reduce, Basic.put_socket. simpl. by rewrite fmap_insert. Qed.

Lemma reduce_get_socket sid s :
  Basic.get_socket sid (reduce s) = reduce_socket (Relay.get_socket sid s).
Proof.
  unfold Basic.get_socket, Relay.get_socket. simpl. rewrite lookup_fmap.
  by destruct (Relay.sockets s !! sid).
Qed.

Lemma reduce_session sid s :
  Basic.session sid (reduce s) = reduce_data <$> Relay.session sid s.
Proof.
  unfold Basic.session, Relay.session. rewrite reduce_get_socket. simpl.
  destruct (Relay.data (Relay.get_socket sid s)) as [d|]; [|done]. simpl.
  by destruct (truthy (Relay.userId d) && truthy (Relay.roomId d)).
Qed.

Lemma reduce_sweep now s : reduce (Relay.sweep now s) = BasicLoop.sweep now (reduce s).
Proof.
  unfold reduce, Relay.sweep, BasicLoop.sweep. simpl. f_equal.
  by rewrite map_filter_fmap.
Qed.

(** X26.  On the events the two relays share, other than [disconnect], the
    full relay does to the lock, the password, the host, the member ids and
    the time stamp of its rooms, and to the user, room and chat time of its
    sessions, what the reduced relay does: reducing the state after an event
    of the full relay gives the state of the reduced relay after the same
    event, and likewise for a tick of the cleanup scheduler. *)
Theorem full_relay_refines_reduced (sid : string) (now : N) (e : Relay.Event)
    (e' : BasicLoop.Event) (s : Relay.Server) :
  reduce_event e = Some e' ->
  reduce (Relay.handle sid now e s).1 = (BasicLoop.handle sid now e' (reduce s)).1 ∧
  reduce (Relay.step s (Relay.Tick now)).1
    = (BasicLoop.step (reduce s) (BasicLoop.Tick now)).1.
Proof.
  intros He. split; [|apply reduce_sweep].
  destruct e as [|rid uid uname pw|rid pw|rid|rid message rnd|rid|rid
                 |? ? ?|? ?|?|? ? ?|? ?|?|?|?|? ?|? ?|? ? ?|];
    try done; injection He as <-; simpl.
  - unfold Relay.join_room, Basic.join_room.
    destruct (negb (truthy rid) || negb (truthy uid)); [done|].
    rewrite reduce_getOrCreateRoom, reduce_get_socket.
    generalize (Relay.getOrCreateRoom rid now (Relay.rooms s)). intros room.
    unfold Relay.join_blocked. simpl.
    match goal with |- context [if ?c then _ else _] => destruct c end; simpl.
    + apply reduce_put_room.
    + rewrite reduce_put_socket, reduce_put_room. f_equal. f_equal.
      unfold reduce_room, Basic.set_add. simpl. rewrite map_keys_set.
      destruct (Relay.hostId room) as [h|] eqn:Hh; simpl; [destruct (truthy h)|];
        simpl; by rewrite ?Hh.
  - unfold Relay.room_lock, Basic.room_lock. rewrite reduce_session.
    destruct (Relay.session sid s) as [d|]; [|done].
    cbn [fmap option_fmap option_map]. rewrite reduce_getOrCreateRoom.
    generalize (Relay.getOrCreateRoom rid now (Relay.rooms s)). intros room. simpl.
    match goal with |- context [if ?c then _ else _] => destruct c end; simpl;
      apply reduce_put_room.
  - unfold Relay.room_unlock, Basic.room_unlock. rewrite reduce_session.
    destruct (Relay.session sid s) as [d|]; [|done].
    cbn [fmap option_fmap option_map]. rewrite reduce_getOrCreateRoom.
    generalize (Relay.getOrCreateRoom rid now (Relay.rooms s)). intros room. simpl.
    match goal with |- context [if ?c then _ else _] => destruct c end; simpl;
      apply reduce_put_room.
  - unfold Relay.chat_send, Basic.chat_send. rewrite reduce_session.
    destruct (Relay.session sid s) as [d|]; [|done].
    cbn [fmap option_fmap option_map].
    destruct message as [o|]; simpl;
      destruct (chat_allowed (Relay.lastChatTime d) now); simpl; try done.
    rewrite reduce_put_socket, reduce_get_socket. done.
  - unfold Relay.whiteboard_enable, Relay.whiteboard_toggle, BasicLoop.whiteboard_toggle.
    rewrite reduce_session. destruct (Relay.session sid s) as [d|]; [|done].
    cbn [fmap option_fmap option_map]. rewrite reduce_getOrCreateRoom.
    apply reduce_put_room.
  - unfold Relay.whiteboard_disable, Relay.whiteboard_toggle, BasicLoop.whiteboard_toggle.
    rewrite reduce_session. destruct (Relay.session sid s) as [d|]; [|done].
    cbn [fmap option_fmap option_map]. rewrite reduce_getOrCreateRoom.
    apply reduce_put_room.
Qed.

(** [A] joins room [r] of [H] in both relays. *)
Lemma full_relay_refines_reduced_witness :
  reduce (Relay.handle "s2" 2000 (Relay.JoinRoom "r" "A" "Ali" None) one_joined).1
  = (BasicLoop.handle "s2" 2000 (BasicLoop.JoinRoom "r" "A" None) (reduce one_joined)).1.
Proof.
  exact (proj1 (full_relay_refines_reduced "s2" 2000 (Relay.JoinRoom "r" "A" "Ali" None)
                  (BasicLoop.JoinRoom "r" "A" None) one_joined eq_refl)).
Defined.
